(** * ArbitrageExecutor: a shallow embedding of
      hummingbot/smart_components/arbitrage_executor/arbitrage_executor.py

    The executor is a Python object whose methods mutate its fields, call
    the venue connectors, the rate oracle and the strategy, and may raise.
    It is embedded as a state-and-exception monad over a [System]: the
    executor's fields, the state of the outside world, the list of order
    requests handed to the venues and the log.

    A [Decimal] is modelled by its value, a rational ([Qc]).  Arithmetic
    on Decimals rounds every result to the 28 significant digits of
    Python's default decimal context, ties to even, as [decimal] does;
    the exponent a Python Decimal carries beside its value (trailing
    zeros), signed zeros, NaN, infinities and the exponent limits of the
    context are not part of the model. *)

From Stdlib Require Import ZArith QArith Qcanon String Ascii List Bool Lia.
From Stdlib Require Import DecimalString.
Import ListNotations.

Open Scope string_scope.

(** ** Python values *)

(** The exceptions the executor can meet, all of them subclasses of
    [Exception]: what [except Exception] catches.  Task cancellation and
    interpreter exit are no [Exception]s and are not part of the model. *)
Inductive exn : Type :=
| AttributeError            (* attribute access on None *)
| TypeError                 (* arithmetic on None *)
| ValueError                (* tuple unpacking of a malformed pair *)
| DivisionByZero            (* decimal.DivisionByZero: x / 0, x <> 0 *)
| InvalidOperation          (* decimal.InvalidOperation: 0 / 0 *)
| CollaboratorError (name : string).  (* raised by a connector or the oracle *)

Inductive result (A : Type) : Type :=
| Ok (a : A)
| Raise (e : exn).
Arguments Ok {A} a.
Arguments Raise {A} e.

Definition Decimal : Type := Qc.

(** [Decimal("num/den")] as an exact value. *)
Definition decimal (num : Z) (den : positive) : Decimal := Q2Qc (num # den).

Definition Decimal_eqb (x y : Decimal) : bool := Qeq_bool x y.

(** [x > y] on Decimals. *)
Definition Decimal_gtb (x y : Decimal) : bool := negb (Qle_bool x y).

(** *** The rounding of the decimal context *)

(** [getcontext().prec] *)
Definition precision : Z := 28.

Fixpoint digits_fuel (fuel : nat) (k : Z) : Z :=
  match fuel with
  | O => 1
  | S f => if (k <? 10)%Z then 1%Z else (1 + digits_fuel f (k / 10))%Z
  end.

(** The number of decimal digits of a positive integer. *)
Definition digits (k : Z) : Z := digits_fuel (Z.to_nat (Z.log2 k)) k.

(** [n / d] rounded to an integer, ties to the even neighbour
    (ROUND_HALF_EVEN); [d] is positive. *)
Definition round_half_even (n d : Z) : Z :=
  let q := (n / d)%Z in
  match (2 * (n mod d) ?= d)%Z with
  | Lt => q
  | Gt => (q + 1)%Z
  | Eq => if Z.even q then q else (q + 1)%Z
  end.

(** The fraction [a / (d * 10 ^ e)] as numerator and denominator. *)
Definition scaled (a d e : Z) : Z * Z :=
  (a * 10 ^ Z.max 0 (- e), d * 10 ^ Z.max 0 e)%Z.

(** The exponent at which [a / d] has [precision] digits before the
    point: the digit counts of [a] and [d] leave two candidates. *)
Definition exponent (a d : Z) : Z :=
  let e0 := (digits a - digits d - precision)%Z in
  let (n1, d1) := scaled a d (e0 + 1) in
  if (10 ^ (precision - 1) * d1 <=? n1)%Z then (e0 + 1)%Z else e0.

(** The [precision] digits of [a / d], rounded. *)
Definition coefficient (a d : Z) : Z :=
  let (n, d') := scaled a d (exponent a d) in round_half_even n d'.

Definition pow10 (e : Z) : Q :=
  if (0 <=? e)%Z then inject_Z (10 ^ e) else 1 # Z.to_pos (10 ^ (- e)).

(** A rational rounded to [precision] significant digits, ties to even. *)
Definition quantize (q : Q) : Q :=
  let n := Qnum q in
  let d := Zpos (Qden q) in
  if (n =? 0)%Z then 0%Q
  else
    let a := Z.abs n in
    (inject_Z (Z.sgn n * coefficient a d) * pow10 (exponent a d))%Q.

Definition Decimal_round (q : Q) : Decimal := Q2Qc (quantize q).

(** [x + y], [x - y], [x * y] on Decimals: the exact result, rounded. *)
Definition Decimal_add (x y : Decimal) : Decimal := Decimal_round (x + y)%Q.
Definition Decimal_sub (x y : Decimal) : Decimal := Decimal_round (x - y)%Q.
Definition Decimal_mul (x y : Decimal) : Decimal := Decimal_round (x * y)%Q.

(** The quotient [x / y] of Decimals for a non-zero [y], rounded. *)
Definition Decimal_quotient (x y : Decimal) : Decimal := Decimal_round (x / y)%Q.

Declare Scope decimal_scope.
Delimit Scope decimal_scope with dec.
Bind Scope decimal_scope with Decimal.
Notation "0" := (Q2Qc 0) : decimal_scope.
Notation "x + y" := (Decimal_add x y) : decimal_scope.
Notation "x - y" := (Decimal_sub x y) : decimal_scope.
Notation "x * y" := (Decimal_mul x y) : decimal_scope.
Notation "x / y" := (Decimal_quotient x y) : decimal_scope.

(** [x / y] on Decimals: a zero divisor raises. *)
Definition Decimal_div (x y : Decimal) : result Decimal :=
  if Decimal_eqb y 0
  then if Decimal_eqb x 0 then Raise InvalidOperation else Raise DivisionByZero
  else Ok (x / y)%dec.

(** ** Data types of the executor *)

Inductive ArbitrageExecutorStatus : Type :=
| NOT_STARTED
| ACTIVE_ARBITRAGE
| COMPLETED
| FAILED.

Inductive TradeType : Type := BUY | SELL.
Inductive OrderType : Type := MARKET | LIMIT | LIMIT_MAKER.
Inductive LogLevel : Type := INFO | ERROR.

(** A venue and the pair traded there ([buying_market], [selling_market]). *)
Record ExchangePair : Type := {
  exchange : string;
  trading_pair : string
}.

Record ArbitrageConfig : Type := {
  cfg_buying_market : ExchangePair;
  cfg_selling_market : ExchangePair;
  cfg_min_profitability : Decimal;
  cfg_order_amount : Decimal;
  cfg_max_retries : Z
}.

(** The connector's in-flight order is a shared object that the connector
    keeps updating; the executor holds a reference to it. *)
Definition OrderRef : Type := nat.

(** What the executor reads of an in-flight order. *)
Record InFlightOrder : Type := {
  executed_amount : Decimal;
  average_price : Decimal;
  cum_fee_quote : Decimal;
  is_filled : bool
}.

Record TrackedOrder : Type := {
  order_id : option string;
  order : option OrderRef
}.

(** [TrackedOrder()] *)
Definition TrackedOrder_new : TrackedOrder :=
  {| order_id := None; order := None |}.

(** [connector.network_transaction_fee] *)
Record TokenAmount : Type := {
  token : string;
  amount : Decimal
}.

(** The arguments of one [place_order] call. *)
Record OrderRequest : Type := {
  req_connector_name : string;
  req_trading_pair : string;
  req_order_type : OrderType;
  req_side : TradeType;
  req_amount : Decimal;
  req_price : option Decimal
}.

(** The fields of an [ArbitrageExecutor] instance; [terminated] is the
    flag of the base class that [terminate_control_loop] sets. *)
Record ArbitrageExecutor : Type := {
  buying_market : ExchangePair;
  selling_market : ExchangePair;
  min_profitability : Decimal;
  order_amount : Decimal;
  max_retries : Z;
  arbitrage_status : ArbitrageExecutorStatus;
  _buy_order : TrackedOrder;
  _sell_order : TrackedOrder;
  _last_buy_price : option Decimal;
  _last_sell_price : option Decimal;
  _last_tx_cost : option Decimal;
  _cumulative_failures : Z;
  terminated : bool
}.

(** [__init__] *)
Definition init (arbitrage_config : ArbitrageConfig) : ArbitrageExecutor :=
  {| buying_market := cfg_buying_market arbitrage_config;
     selling_market := cfg_selling_market arbitrage_config;
     min_profitability := cfg_min_profitability arbitrage_config;
     order_amount := cfg_order_amount arbitrage_config;
     max_retries := cfg_max_retries arbitrage_config;
     arbitrage_status := NOT_STARTED;
     _buy_order := TrackedOrder_new;
     _sell_order := TrackedOrder_new;
     _last_buy_price := None;
     _last_sell_price := None;
     _last_tx_cost := None;
     _cumulative_failures := 0;
     terminated := false |}.

(** Field assignments. *)
Definition set_arbitrage_status (v : ArbitrageExecutorStatus) (e : ArbitrageExecutor) :=
  {| buying_market := buying_market e; selling_market := selling_market e;
     min_profitability := min_profitability e; order_amount := order_amount e;
     max_retries := max_retries e; arbitrage_status := v;
     _buy_order := _buy_order e; _sell_order := _sell_order e;
     _last_buy_price := _last_buy_price e; _last_sell_price := _last_sell_price e;
     _last_tx_cost := _last_tx_cost e;
     _cumulative_failures := _cumulative_failures e; terminated := terminated e |}.

Definition set_buy_order (v : TrackedOrder) (e : ArbitrageExecutor) :=
  {| buying_market := buying_market e; selling_market := selling_market e;
     min_profitability := min_profitability e; order_amount := order_amount e;
     max_retries := max_retries e; arbitrage_status := arbitrage_status e;
     _buy_order := v; _sell_order := _sell_order e;
     _last_buy_price := _last_buy_price e; _last_sell_price := _last_sell_price e;
     _last_tx_cost := _last_tx_cost e;
     _cumulative_failures := _cumulative_failures e; terminated := terminated e |}.

Definition set_sell_order (v : TrackedOrder) (e : ArbitrageExecutor) :=
  {| buying_market := buying_market e; selling_market := selling_market e;
     min_profitability := min_profitability e; order_amount := order_amount e;
     max_retries := max_retries e; arbitrage_status := arbitrage_status e;
     _buy_order := _buy_order e; _sell_order := v;
     _last_buy_price := _last_buy_price e; _last_sell_price := _last_sell_price e;
     _last_tx_cost := _last_tx_cost e;
     _cumulative_failures := _cumulative_failures e; terminated := terminated e |}.

Definition set_last_prices (b s : Decimal) (e : ArbitrageExecutor) :=
  {| buying_market := buying_market e; selling_market := selling_market e;
     min_profitability := min_profitability e; order_amount := order_amount e;
     max_retries := max_retries e; arbitrage_status := arbitrage_status e;
     _buy_order := _buy_order e; _sell_order := _sell_order e;
     _last_buy_price := Some b; _last_sell_price := Some s;
     _last_tx_cost := _last_tx_cost e;
     _cumulative_failures := _cumulative_failures e; terminated := terminated e |}.

Definition set_last_tx_cost (v : Decimal) (e : ArbitrageExecutor) :=
  {| buying_market := buying_market e; selling_market := selling_market e;
     min_profitability := min_profitability e; order_amount := order_amount e;
     max_retries := max_retries e; arbitrage_status := arbitrage_status e;
     _buy_order := _buy_order e; _sell_order := _sell_order e;
     _last_buy_price := _last_buy_price e; _last_sell_price := _last_sell_price e;
     _last_tx_cost := Some v;
     _cumulative_failures := _cumulative_failures e; terminated := terminated e |}.

Definition set_cumulative_failures (v : Z) (e : ArbitrageExecutor) :=
  {| buying_market := buying_market e; selling_market := selling_market e;
     min_profitability := min_profitability e; order_amount := order_amount e;
     max_retries := max_retries e; arbitrage_status := arbitrage_status e;
     _buy_order := _buy_order e; _sell_order := _sell_order e;
     _last_buy_price := _last_buy_price e; _last_sell_price := _last_sell_price e;
     _last_tx_cost := _last_tx_cost e;
     _cumulative_failures := v; terminated := terminated e |}.

Definition set_terminated (e : ArbitrageExecutor) :=
  {| buying_market := buying_market e; selling_market := selling_market e;
     min_profitability := min_profitability e; order_amount := order_amount e;
     max_retries := max_retries e; arbitrage_status := arbitrage_status e;
     _buy_order := _buy_order e; _sell_order := _sell_order e;
     _last_buy_price := _last_buy_price e; _last_sell_price := _last_sell_price e;
     _last_tx_cost := _last_tx_cost e;
     _cumulative_failures := _cumulative_failures e; terminated := true |}.

Definition set_order (v : option OrderRef) (t : TrackedOrder) : TrackedOrder :=
  {| order_id := order_id t; order := v |}.

(** [tracked.order_id == event.order_id], the event carrying a string. *)
Definition order_id_eqb (tracked : option string) (event_id : string) : bool :=
  match tracked with
  | Some i => String.eqb i event_id
  | None => false
  end.

(** ** The collaborators

    Everything the executor calls outside its own file: the connectors
    ([get_quote_price], [network_transaction_fee], [get_fee] and the fee's
    [fee_amount_in_token], the order tracker behind [get_in_flight_order]),
    the connector settings, [split_hb_trading_pair], the rate oracle, the
    strategy's order entry point and [Decimal.__str__].  A call may change
    the world and may raise. *)
Class Collaborators : Type := {
  World : Type;
  Fee : Type;
  get_quote_price :
    string -> string -> bool -> Decimal -> World -> result Decimal * World;
  gateway_amm_connector_names : list string;
  network_transaction_fee : string -> World -> result TokenAmount * World;
  get_pair_rate : string -> World -> result Decimal * World;
  get_fee :
    string -> string -> string -> OrderType -> TradeType -> Decimal ->
    Decimal -> bool -> World -> result Fee * World;
  fee_amount_in_token :
    Fee -> string -> Decimal -> Decimal -> string -> string ->
    World -> result Decimal * World;
  split_hb_trading_pair : string -> result (string * string);
  get_in_flight_order : string -> string -> World -> option OrderRef;
  read_order : OrderRef -> World -> InFlightOrder;
  submit_order : OrderRequest -> World -> string * World;
  str_Decimal : Decimal -> string
}.

Section Executor.

Context {C : Collaborators}.

(** ** The state-and-exception monad *)

Record System : Type := {
  self : ArbitrageExecutor;
  world : World;
  orders_sent : list OrderRequest;
  log : list (LogLevel * string)
}.

Definition M (A : Type) : Type := System -> result A * System.

Definition ret {A} (a : A) : M A := fun s => (Ok a, s).

Definition raise {A} (e : exn) : M A := fun s => (Raise e, s).

Definition bind {A B} (m : M A) (k : A -> M B) : M B :=
  fun s =>
    match m s with
    | (Ok a, s') => k a s'
    | (Raise e, s') => (Raise e, s')
    end.

(** [try: m  except Exception as e: h e] *)
Definition try_except {A} (m : M A) (h : exn -> M A) : M A :=
  fun s =>
    match m s with
    | (Ok a, s') => (Ok a, s')
    | (Raise e, s') => h e s'
    end.

Definition lift_result {A} (r : result A) : M A := fun s => (r, s).

(** Read a field of [self]. *)
Definition get {A} (f : ArbitrageExecutor -> A) : M A :=
  fun s => (Ok (f (self s)), s).

(** Assign to a field of [self]. *)
Definition modify (f : ArbitrageExecutor -> ArbitrageExecutor) : M unit :=
  fun s =>
    (Ok tt, {| self := f (self s); world := world s;
               orders_sent := orders_sent s; log := log s |}).

(** A collaborator call. *)
Definition call {A} (f : World -> result A * World) : M A :=
  fun s =>
    let (r, w) := f (world s) in
    (r, {| self := self s; world := w;
           orders_sent := orders_sent s; log := log s |}).

(** A collaborator read. *)
Definition ask {A} (f : World -> A) : M A :=
  fun s => (Ok (f (world s)), s).

(** [self.logger().info(msg)], [self.logger().error(msg, e)] *)
Definition logger (lvl : LogLevel) (msg : string) : M unit :=
  fun s =>
    (Ok tt, {| self := self s; world := world s;
               orders_sent := orders_sent s; log := log s ++ [(lvl, msg)] |}).

(** [asyncio.gather] of two tasks created in this order: both run, and
    the first exception, if any, is raised. *)
Definition gather {A B} (m1 : M A) (m2 : M B) : M (A * B) :=
  fun s =>
    let (r1, s1) := m1 s in
    let (r2, s2) := m2 s1 in
    match r1, r2 with
    | Ok a, Ok b => (Ok (a, b), s2)
    | Raise e, _ => (Raise e, s2)
    | Ok _, Raise e => (Raise e, s2)
    end.

Notation "x <- m ;; k" := (bind m (fun x => k))
  (at level 61, m at next level, right associativity).
Notation "' p <- m ;; k" := (bind m (fun p => k))
  (at level 61, p pattern, m at next level, right associativity).
Notation "m ;;; k" := (bind m (fun _ => k))
  (at level 61, right associativity).

(** [obj.attr] where [obj] may be None. *)
Definition attr {A} (o : option A) : M A :=
  match o with
  | Some a => ret a
  | None => raise AttributeError
  end.

(** A Decimal operand that may be None. *)
Definition operand (o : option Decimal) : M Decimal :=
  match o with
  | Some a => ret a
  | None => raise TypeError
  end.

(** ** Methods of the base class *)

(** Modelled from the spec: [SmartComponentBase.place_order] is not in this
    file.  "submit(venue, pair, side, amount, referencePrice) returns a Leg
    with an order identifier"; the order snapshot is "absent until the
    Market Adapter acknowledges".  The request is handed to the venue, which
    answers with the identifier. *)
Definition place_order (connector_name trading_pair : string)
    (order_type : OrderType) (side : TradeType) (amount : Decimal)
    (price : option Decimal) : M TrackedOrder :=
  fun s =>
    let req := {| req_connector_name := connector_name;
                  req_trading_pair := trading_pair;
                  req_order_type := order_type;
                  req_side := side;
                  req_amount := amount;
                  req_price := price |} in
    let (oid, w) := submit_order req (world s) in
    (Ok {| order_id := Some oid; order := None |},
     {| self := self s; world := w;
        orders_sent := orders_sent s ++ [req]; log := log s |}).

(** Modelled from the spec: [SmartComponentBase.terminate_control_loop] is
    not in this file.  It "signal[s] the driver to stop invoking this run". *)
Definition terminate_control_loop : M unit := modify set_terminated.

(** ** Methods of [ArbitrageExecutor] *)

(** [exchange in sorted(names)]: sorting does not change membership. *)
Definition is_amm (exchange : string) : bool :=
  existsb (String.eqb exchange) gateway_amm_connector_names.

Definition get_resulting_price_for_amount (exchange trading_pair : string)
    (is_buy : bool) (order_amount : Decimal) : M Decimal :=
  call (get_quote_price exchange trading_pair is_buy order_amount).

Definition check_order_status : M unit :=
  buy_order <- get _buy_order;;
  bo <- attr (order buy_order);;
  buy_filled <- ask (fun w => is_filled (read_order bo w));;
  if buy_filled then
    sell_order <- get _sell_order;;
    so <- attr (order sell_order);;
    sell_filled <- ask (fun w => is_filled (read_order so w));;
    if sell_filled then
      modify (set_arbitrage_status COMPLETED);;;
      terminate_control_loop
    else ret tt
  else ret tt.

Definition place_buy_arbitrage_order : M unit :=
  market <- get buying_market;;
  amount <- get order_amount;;
  price <- get _last_buy_price;;
  t <- place_order (exchange market) (trading_pair market) MARKET BUY amount price;;
  modify (set_buy_order t).

Definition place_sell_arbitrage_order : M unit :=
  market <- get selling_market;;
  amount <- get order_amount;;
  price <- get _last_sell_price;;
  t <- place_order (exchange market) (trading_pair market) MARKET SELL amount price;;
  modify (set_sell_order t).

Definition execute_arbitrage : M unit :=
  modify (set_arbitrage_status ACTIVE_ARBITRAGE);;;
  place_buy_arbitrage_order;;;
  place_sell_arbitrage_order.

Definition get_tx_cost_in_asset (exchange trading_pair : string)
    (is_buy : bool) (order_amount : Decimal) (asset : string) : M Decimal :=
  price <- get_resulting_price_for_amount exchange trading_pair is_buy order_amount;;
  if is_amm exchange then
    gas_cost <- call (network_transaction_fee exchange);;
    conversion_price <- call (get_pair_rate (asset ++ "-" ++ token gas_cost));;
    lift_result (Decimal_div (amount gas_cost) conversion_price)
  else
    fee <- call (get_fee exchange asset asset MARKET
                   (if is_buy then BUY else SELL) order_amount price false);;
    call (fee_amount_in_token fee trading_pair price order_amount asset exchange).

Definition get_tx_cost_pct : M Decimal :=
  buying <- get buying_market;;
  '(base, quote) <- lift_result (split_hb_trading_pair (trading_pair buying));;
  amount <- get order_amount;;
  buy_fee <- get_tx_cost_in_asset (exchange buying) (trading_pair buying)
               true amount base;;
  selling <- get selling_market;;
  sell_fee <- get_tx_cost_in_asset (exchange selling) (trading_pair selling)
                false amount base;;
  modify (set_last_tx_cost (buy_fee + sell_fee)%dec);;;
  lift_result (Decimal_div (buy_fee + sell_fee)%dec amount).

Definition get_buy_and_sell_prices : M (Decimal * Decimal) :=
  buying <- get buying_market;;
  selling <- get selling_market;;
  amount <- get order_amount;;
  gather
    (get_resulting_price_for_amount (exchange buying) (trading_pair buying)
       true amount)
    (get_resulting_price_for_amount (exchange selling) (trading_pair selling)
       false amount).

Definition get_trade_pnl_pct : M Decimal :=
  '(buy_price, sell_price) <- get_buy_and_sell_prices;;
  modify (set_last_prices buy_price sell_price);;;
  lift_result (Decimal_div (sell_price - buy_price)%dec buy_price).

(** The body of the [try] of [control_task] up to the comparison: the
    profitability evaluation. *)
Definition evaluate_profitability : M Decimal :=
  trade_pnl_pct <- get_trade_pnl_pct;;
  fee_pct <- get_tx_cost_pct;;
  ret (trade_pnl_pct - fee_pct)%dec.

Definition control_task : M unit :=
  status <- get arbitrage_status;;
  match status with
  | NOT_STARTED =>
      try_except
        (profitability <- evaluate_profitability;;
         min <- get min_profitability;;
         if Decimal_gtb profitability min then execute_arbitrage else ret tt)
        (fun e => logger ERROR "Error calculating profitability")
  | ACTIVE_ARBITRAGE =>
      failures <- get _cumulative_failures;;
      retries <- get max_retries;;
      if (failures >? retries)%Z then
        modify (set_arbitrage_status FAILED);;;
        terminate_control_loop
      else check_order_status
  | _ => ret tt
  end.

Definition process_order_created_event (event_order_id : string) : M unit :=
  buy_order <- get _buy_order;;
  if order_id_eqb (order_id buy_order) event_order_id then
    buying <- get buying_market;;
    o <- ask (get_in_flight_order (exchange buying) event_order_id);;
    modify (fun e => set_buy_order (set_order o (_buy_order e)) e);;;
    logger INFO "Open Order Created"
  else
    sell_order <- get _sell_order;;
    if order_id_eqb (order_id sell_order) event_order_id then
      logger INFO "Close Order Created";;;
      selling <- get selling_market;;
      o <- ask (get_in_flight_order (exchange selling) event_order_id);;
      modify (fun e => set_sell_order (set_order o (_sell_order e)) e)
    else ret tt.

Definition process_order_failed_event (event_order_id : string) : M unit :=
  buy_order <- get _buy_order;;
  if order_id_eqb (order_id buy_order) event_order_id then
    place_buy_arbitrage_order;;;
    modify (fun e => set_cumulative_failures (_cumulative_failures e + 1)%Z e)
  else
    sell_order <- get _sell_order;;
    if order_id_eqb (order_id sell_order) event_order_id then
      place_sell_arbitrage_order;;;
      modify (fun e => set_cumulative_failures (_cumulative_failures e + 1)%Z e)
    else ret tt.

(** [net_pnl] and [net_pnl_pct] are properties: they read the executor and
    the orders it refers to, and change nothing. *)
Definition net_pnl : M Decimal :=
  status <- get arbitrage_status;;
  match status with
  | COMPLETED =>
      sell_order <- get _sell_order;;
      so <- attr (order sell_order);;
      sell <- ask (read_order so);;
      buy_order <- get _buy_order;;
      bo <- attr (order buy_order);;
      buy <- ask (read_order bo);;
      let sell_quote_amount := (executed_amount sell * average_price sell)%dec in
      let buy_quote_amount := (executed_amount buy * average_price buy)%dec in
      let cum_fees := (cum_fee_quote buy + cum_fee_quote sell)%dec in
      ret (sell_quote_amount - buy_quote_amount - cum_fees)%dec
  | _ => ret 0%Qc
  end.

Definition net_pnl_pct : M Decimal :=
  status <- get arbitrage_status;;
  match status with
  | COMPLETED =>
      pnl <- net_pnl;;
      buy_order <- get _buy_order;;
      bo <- attr (order buy_order);;
      buy <- ask (read_order bo);;
      lift_result (Decimal_div pnl (executed_amount buy))
  | _ => ret 0%Qc
  end.

(** The newline character. *)
Definition nl : string := String (ascii_of_nat 10) EmptyString.

(** [str(status)] of the enum member. *)
Definition str_status (st : ArbitrageExecutorStatus) : string :=
  match st with
  | NOT_STARTED => "ArbitrageExecutorStatus.NOT_STARTED"
  | ACTIVE_ARBITRAGE => "ArbitrageExecutorStatus.ACTIVE_ARBITRAGE"
  | COMPLETED => "ArbitrageExecutorStatus.COMPLETED"
  | FAILED => "ArbitrageExecutorStatus.FAILED"
  end.

(** [lines.extend(text)] with [text] a string: a string is iterated
    character by character, so every character becomes an element. *)
Definition extend (lines : list string) (text : string) : list string :=
  lines ++ map (fun c => String c EmptyString) (list_ascii_of_string text).

(** [sep.join(lines)] *)
Definition join (sep : string) (lines : list string) : string :=
  String.concat sep lines.

(** The first f-string of [to_format_status]. *)
Definition status_text (e : ArbitrageExecutor)
    (last_buy_price last_sell_price trade_pnl_pct tx_cost_pct : Decimal) : string :=
  nl ++
  "Buy:" ++ nl ++
  "    Exchange: " ++ exchange (buying_market e) ++
  " | Trading Pair: " ++ trading_pair (buying_market e) ++
  " | Price: " ++ str_Decimal last_buy_price ++ nl ++
  "Sell" ++ nl ++
  "    Exchange: " ++ exchange (selling_market e) ++
  " | Trading Pair: " ++ trading_pair (selling_market e) ++
  " | Price: " ++ str_Decimal last_sell_price ++ nl ++
  "Order Amount: " ++ str_Decimal (order_amount e) ++ nl ++
  "Real-time Profit analysis:" ++ nl ++
  "    Trade PnL (%): " ++ str_Decimal trade_pnl_pct ++
  " | TX Cost (%): " ++ str_Decimal tx_cost_pct ++ nl ++
  "    Net PnL (%): " ++ str_Decimal (trade_pnl_pct - tx_cost_pct)%dec ++ nl ++
  "Arbitrage Status: " ++ str_status (arbitrage_status e).

(** The second f-string of [to_format_status]. *)
Definition profit_text (quote : string) (pnl_pct pnl : Decimal) : string :=
  nl ++
  "Total Profit (%): " ++ str_Decimal pnl_pct ++
  " | Total Profit (" ++ quote ++ "): " ++ str_Decimal pnl ++ nl.

Definition to_format_status : M string :=
  let lines := [] in
  last_sell_price <- get _last_sell_price;;
  last_buy_price <- get _last_buy_price;;
  sell_price <- operand last_sell_price;;
  buy_price <- operand last_buy_price;;
  trade_pnl_pct <- lift_result (Decimal_div (sell_price - buy_price)%dec buy_price);;
  last_tx_cost <- get _last_tx_cost;;
  tx_cost <- operand last_tx_cost;;
  amount <- get order_amount;;
  tx_cost_pct <- lift_result (Decimal_div tx_cost amount);;
  buying <- get buying_market;;
  '(base, quote) <- lift_result (split_hb_trading_pair (trading_pair buying));;
  e <- get (fun e => e);;
  let lines := extend lines
                 (status_text e buy_price sell_price trade_pnl_pct tx_cost_pct) in
  status <- get arbitrage_status;;
  match status with
  | COMPLETED =>
      pnl_pct <- net_pnl_pct;;
      pnl <- net_pnl;;
      let lines := extend lines (profit_text quote pnl_pct pnl) in
      ret (join nl lines)
  | _ => ret (join nl lines)
  end.

(** ** Observations and vocabulary of the statements *)

Definition state_after {A} (m : M A) (s : System) : System := snd (m s).
Definition outcome {A} (m : M A) (s : System) : result A := fst (m s).

(** Replace [self] in a system. *)
Definition with_self (f : ArbitrageExecutor -> ArbitrageExecutor) (s : System) : System :=
  {| self := f (self s); world := world s;
     orders_sent := orders_sent s; log := log s |}.

(** The request [place_buy_arbitrage_order] builds in state [s]. *)
Definition buy_request (e : ArbitrageExecutor) : OrderRequest :=
  {| req_connector_name := exchange (buying_market e);
     req_trading_pair := trading_pair (buying_market e);
     req_order_type := MARKET;
     req_side := BUY;
     req_amount := order_amount e;
     req_price := _last_buy_price e |}.

Definition sell_request (e : ArbitrageExecutor) : OrderRequest :=
  {| req_connector_name := exchange (selling_market e);
     req_trading_pair := trading_pair (selling_market e);
     req_order_type := MARKET;
     req_side := SELL;
     req_amount := order_amount e;
     req_price := _last_sell_price e |}.

(** A leg reports filled: its order is known and the connector's record of
    it is filled. *)
Definition leg_filled (t : TrackedOrder) (w : World) : bool :=
  match order t with
  | Some r => is_filled (read_order r w)
  | None => false
  end.

Definition terminal (st : ArbitrageExecutorStatus) : bool :=
  match st with
  | COMPLETED | FAILED => true
  | _ => false
  end.

(** Position of a status along NotStarted -> ActiveArbitrage -> terminal. *)
Definition rank (st : ArbitrageExecutorStatus) : nat :=
  match st with
  | NOT_STARTED => 0
  | ACTIVE_ARBITRAGE => 1
  | COMPLETED | FAILED => 2
  end.

(** Everything of the executor but the last observed prices and cost. *)
Definition core (e : ArbitrageExecutor) :=
  (buying_market e, selling_market e, min_profitability e, order_amount e,
   max_retries e, arbitrage_status e, _buy_order e, _sell_order e,
   _cumulative_failures e, terminated e).

(** [m] preserves the observation [f] of the executor, the orders sent and
    the log. *)
Definition preserves {X A}
    (f : ArbitrageExecutor -> list OrderRequest -> list (LogLevel * string) -> X)
    (m : M A) : Prop :=
  forall s,
    f (self (state_after m s)) (orders_sent (state_after m s)) (log (state_after m s))
    = f (self s) (orders_sent s) (log s).

(** A computation is quiet when it submits no order, writes no log line
    and changes the executor at most in its last observations. *)
Definition quiet {A} (m : M A) : Prop :=
  preserves (fun e o l => (core e, o, l)) m.

(** A computation that leaves the last observed prices alone. *)
Definition keeps_prices {A} (m : M A) : Prop :=
  preserves (fun e _ _ => (_last_buy_price e, _last_sell_price e)) m.

Definition count_failure (e : ArbitrageExecutor) : ArbitrageExecutor :=
  set_cumulative_failures (_cumulative_failures e + 1)%Z e.

(** The public operations on a run. *)
Inductive operation : Type :=
| Step
| OrderCreated (event_order_id : string)
| OrderFailed (event_order_id : string)
| ReadNetPnl
| ReadNetPnlPct
| FormatStatus.

Definition discard {A} (m : M A) : M unit := bind m (fun _ => ret tt).

Definition perform (op : operation) : M unit :=
  match op with
  | Step => control_task
  | OrderCreated ev => process_order_created_event ev
  | OrderFailed ev => process_order_failed_event ev
  | ReadNetPnl => discard net_pnl
  | ReadNetPnlPct => discard net_pnl_pct
  | FormatStatus => discard to_format_status
  end.

(** The system after the world moved to [w]. *)
Definition with_world (w : World) (s : System) : System :=
  {| self := self s; world := w; orders_sent := orders_sent s; log := log s |}.

(** The characters of a text, each as a string of its own. *)
Definition chars (text : string) : list string :=
  map (fun c => String c EmptyString) (list_ascii_of_string text).

(** A run as [__init__] leaves it, in the world [w]. *)
Definition launch (arbitrage_config : ArbitrageConfig) (w : World) : System :=
  {| self := init arbitrage_config; world := w; orders_sent := []; log := [] |}.

(** The configuration as the executor holds it. *)
Definition config_of (e : ArbitrageExecutor) :=
  (buying_market e, selling_market e, min_profitability e, order_amount e,
   max_retries e).

(** The system with one more log line. *)
Definition with_log (lvl : LogLevel) (msg : string) (s : System) : System :=
  {| self := self s; world := world s; orders_sent := orders_sent s;
     log := (log s ++ [(lvl, msg)])%list |}.

(** The venue reports [n] times in a row that the buy leg's current order
    failed. *)
Fixpoint repeat_buy_failure (n : nat) (s : System) : System :=
  match n with
  | O => s
  | S k =>
      let s1 := repeat_buy_failure k s in
      match order_id (_buy_order (self s1)) with
      | Some name => state_after (process_order_failed_event name) s1
      | None => s1
      end
  end.

(** What the status report needs of the executor. *)
Definition report_ready (e : ArbitrageExecutor) : Prop :=
  exists b sl tx base quote,
    _last_buy_price e = Some b
    /\ _last_sell_price e = Some sl
    /\ b <> 0%Qc
    /\ _last_tx_cost e = Some tx
    /\ order_amount e <> 0%Qc
    /\ split_hb_trading_pair (trading_pair (buying_market e)) = Ok (base, quote).

(** The fields of a configuration, in the order of [config_of]. *)
Definition config_fields (arbitrage_config : ArbitrageConfig) :=
  (cfg_buying_market arbitrage_config, cfg_selling_market arbitrage_config,
   cfg_min_profitability arbitrage_config, cfg_order_amount arbitrage_config,
   cfg_max_retries arbitrage_config).

(** The systems a run built from a configuration can be in: any sequence
    of steps, notifications and read-outs, the world moving freely in
    between. *)
Inductive reachable (arbitrage_config : ArbitrageConfig) : System -> Prop :=
| reach_launch (w : World) :
    reachable arbitrage_config (launch arbitrage_config w)
| reach_perform (s : System) (op : operation) :
    reachable arbitrage_config s ->
    reachable arbitrage_config (state_after (perform op) s)
| reach_world (s : System) (w : World) :
    reachable arbitrage_config s ->
    reachable arbitrage_config (with_world w s).

Definition run_invariant (arbitrage_config : ArbitrageConfig) (s : System) : Prop :=
  config_of (self s) = config_fields arbitrage_config
  /\ terminated (self s) = terminal (arbitrage_status (self s))
  /\ (0 <= _cumulative_failures (self s))%Z
  /\ match arbitrage_status (self s) with
     | NOT_STARTED =>
         orders_sent s = []
         /\ _buy_order (self s) = TrackedOrder_new
         /\ _sell_order (self s) = TrackedOrder_new
         /\ _cumulative_failures (self s) = 0%Z
     | _ =>
         Z.of_nat (length (orders_sent s)) = (2 + _cumulative_failures (self s))%Z
         /\ order_id (_buy_order (self s)) <> None
         /\ order_id (_sell_order (self s)) <> None
         /\ report_ready (self s)
     end.

End Executor.

(** * A concrete market
    Two venues, an order-book one ("binance") and a gateway one
    ("uniswap"), trading ETH-USDT.  Quotes are 100 to buy and 101 to sell;
    the order-book venue charges a taker fee of 0.25%, which in ETH is
    0.0025 * amount and in USDT is that times the price. *)
Module Scenario.

Record Market : Type := {
  quotes_available : bool;
  book : list InFlightOrder
}.

Definition order_name (n : nat) : string :=
  "order-" ++ NilEmpty.string_of_uint (Nat.to_uint n).

Fixpoint find_order (name : string) (n : nat) : option OrderRef :=
  match n with
  | O => None
  | S k => if String.eqb (order_name k) name then Some k else find_order name k
  end.

Definition unfilled : InFlightOrder :=
  {| executed_amount := 0%Qc; average_price := 0%Qc;
     cum_fee_quote := 0%Qc; is_filled := false |}.

(** [trading_pair.split("-")] unpacked into two names. *)
Fixpoint split_pair (s : string) : result (string * string) :=
  match s with
  | EmptyString => Raise ValueError
  | String c rest =>
      if Ascii.eqb c "-"%char
      then match index 0 "-" rest with
           | None => Ok (EmptyString, rest)
           | Some _ => Raise ValueError
           end
      else match split_pair rest with
           | Ok (b, q) => Ok (String c b, q)
           | Raise e => Raise e
           end
  end.

(** Digits of the fraction [r / d], at most [fuel] of them. *)
Fixpoint fraction_digits (fuel : nat) (r d : Z) : string :=
  match fuel with
  | O => EmptyString
  | S k =>
      if (r =? 0)%Z then EmptyString
      else NilZero.string_of_uint (N.to_uint (Z.to_N (10 * r / d)))
           ++ fraction_digits k ((10 * r) mod d) d
  end.

(** A rendering of the Decimals of this market, as [str] prints them. *)
Definition render (q : Decimal) : string :=
  let n := Qnum q in
  let d := Zpos (Qden q) in
  let a := Z.abs n in
  (if (n <? 0)%Z then "-" else "")
  ++ NilZero.string_of_uint (N.to_uint (Z.to_N (a / d)))
  ++ (if (a mod d =? 0)%Z then "" else "." ++ fraction_digits 28 (a mod d) d).

#[export] Instance market : Collaborators := {|
  World := Market;
  Fee := Decimal;
  get_quote_price := fun _ _ is_buy _ w =>
    if quotes_available w
    then (Ok (if is_buy then decimal 100 1 else decimal 101 1), w)
    else (Raise (CollaboratorError "QuoteUnavailable"), w);
  gateway_amm_connector_names := ["uniswap"];
  network_transaction_fee := fun _ w =>
    (Ok {| token := "ETH"; amount := decimal 1 50 |}, w);
  get_pair_rate := fun pair w =>
    if String.eqb pair "ETH-ETH" then (Ok (decimal 1 1), w)
    else (Raise (CollaboratorError "RateUnavailable"), w);
  get_fee := fun _ _ _ _ _ _ _ _ w => (Ok (decimal 25 10000), w);
  fee_amount_in_token := fun fee _ price amt tok _ w =>
    if String.eqb tok "ETH" then (Ok (fee * amt)%dec, w)
    else (Ok (fee * amt * price)%dec, w);
  split_hb_trading_pair := split_pair;
  get_in_flight_order := fun _ name w => find_order name (length (book w));
  read_order := fun r w => nth r (book w) unfilled;
  submit_order := fun _ w =>
    (order_name (length (book w)),
     {| quotes_available := quotes_available w;
        book := (book w ++ [unfilled])%list |});
  str_Decimal := render
|}.

Definition config : ArbitrageConfig :=
  {| cfg_buying_market := {| exchange := "binance"; trading_pair := "ETH-USDT" |};
     cfg_selling_market := {| exchange := "kucoin"; trading_pair := "ETH-USDT" |};
     cfg_min_profitability := decimal 3 1000;
     cfg_order_amount := decimal 10 1;
     cfg_max_retries := 2 |}.

Definition start (e : ArbitrageExecutor) (w : Market) : System :=
  {| self := e; world := w; orders_sent := []; log := [] |}.

Definition open_market : Market := {| quotes_available := true; book := [] |}.
Definition closed_market : Market := {| quotes_available := false; book := [] |}.

(** A freshly built run, quotes available. *)
Definition idle : System := start (init config) open_market.

(** A freshly built run while the venues answer no quote. *)
Definition blind : System := start (init config) closed_market.

(** The run after its first step. *)
Definition active : System := state_after control_task idle.

Fixpoint fail_buy (n : nat) (s : System) : System :=
  match n with
  | O => s
  | S k =>
      let s1 := fail_buy k s in
      match order_id (_buy_order (self s1)) with
      | Some name => state_after (process_order_failed_event name) s1
      | None => s1
      end
  end.

(** Both legs acknowledged and filled: 10 at 100 and 10 at 101, fee 1 each. *)
Definition filled_market : Market :=
  {| quotes_available := true;
     book := [ {| executed_amount := decimal 10 1; average_price := decimal 100 1;
                  cum_fee_quote := decimal 1 1; is_filled := true |};
               {| executed_amount := decimal 10 1; average_price := decimal 101 1;
                  cum_fee_quote := decimal 1 1; is_filled := true |} ] |}.

Definition acknowledged : System :=
  state_after (process_order_created_event (order_name 1))
    (state_after (process_order_created_event (order_name 0))
       (with_world filled_market active)).

Definition completed : System := state_after control_task acknowledged.

(** The cost of one leg of [config] in ETH. *)
Definition leg_cost : Decimal := (decimal 25 10000 * decimal 10 1)%dec.

(** The run after the quotes of its first evaluation. *)
Definition quoted : System :=
  with_self (set_last_prices (decimal 100 1) (decimal 101 1)) idle.

(** The run after its first evaluation. *)
Definition evaluated : System :=
  with_self (set_last_tx_cost (leg_cost + leg_cost)%dec) quoted.

(** The completed run, its status written once more. *)
Definition completed_again : System :=
  with_self (set_arbitrage_status COMPLETED) completed.

(** The characters at even positions. *)
Fixpoint every_other (s : string) : string :=
  match s with
  | String c (String _ rest) => String c (every_other rest)
  | other => other
  end.

(** A run built for a pair that is not of the form base-quote. *)
Definition malformed : System :=
  start
    (init {| cfg_buying_market := {| exchange := "binance"; trading_pair := "ETHUSDT" |};
             cfg_selling_market := {| exchange := "kucoin"; trading_pair := "ETHUSDT" |};
             cfg_min_profitability := decimal 3 1000;
             cfg_order_amount := decimal 10 1;
             cfg_max_retries := 2 |})
    open_market.

(** The active run once the venue has filled both orders. *)
Definition active_filled : System := with_world filled_market active.

(** The completed run after a late failure notification for its buy leg. *)
Definition completed_then_failed : System :=
  state_after (process_order_failed_event "order-0") completed.

(** The active run after three failures of its buy leg and one more step. *)
Definition failed : System :=
  state_after (perform Step)
    (state_after (perform (OrderFailed "order-3"))
       (state_after (perform (OrderFailed "order-2"))
          (state_after (perform (OrderFailed "order-0")) active))).

End Scenario.

(** * A market without fees
    One order-book venue pair quoting 300 to buy; the sell quote is the
    state of the world.  Used to follow the rounding of the evaluation. *)
Module Rounding.

#[export] Instance feeless : Collaborators := {|
  World := Decimal;
  Fee := unit;
  get_quote_price := fun _ _ is_buy _ w =>
    (Ok (if is_buy then decimal 300 1 else w), w);
  gateway_amm_connector_names := [];
  network_transaction_fee := fun _ w =>
    (Raise (CollaboratorError "NoGateway"), w);
  get_pair_rate := fun _ w => (Raise (CollaboratorError "RateUnavailable"), w);
  get_fee := fun _ _ _ _ _ _ _ _ w => (Ok tt, w);
  fee_amount_in_token := fun _ _ _ _ _ _ w => (Ok 0%Qc, w);
  split_hb_trading_pair := Scenario.split_pair;
  get_in_flight_order := fun _ _ _ => None;
  read_order := fun _ _ => Scenario.unfilled;
  submit_order := fun req w =>
    (match req_side req with BUY => "buy-order" | SELL => "sell-order" end, w);
  str_Decimal := Scenario.render
|}.

(** A fresh run with minimum profitability [min], the venue quoting
    [sell] to sell. *)
Definition run (min sell : Decimal) : System :=
  launch
    {| cfg_buying_market := {| exchange := "binance"; trading_pair := "ETH-USDT" |};
       cfg_selling_market := {| exchange := "kucoin"; trading_pair := "ETH-USDT" |};
       cfg_min_profitability := min;
       cfg_order_amount := decimal 10 1;
       cfg_max_retries := 2 |}
    sell.

(** 0.0066666666666666666666666666668, between 2/300 and its rounding. *)
Definition above_two_300ths : Decimal :=
  decimal 66666666666666666666666666668 (10 ^ 31).

(** 0.0033333333333333333333333333331, between 1/300 and its rounding. *)
Definition below_one_300th : Decimal :=
  decimal 33333333333333333333333333331 (10 ^ 31).

End Rounding.

(** * Properties of the executor *)

Section ExecutorProofs.

Context {C : Collaborators}.

(** ** Reasoning about the monad *)

Arguments Decimal_div : simpl never.

Lemma Decimal_eqb_eq (x y : Decimal) : Decimal_eqb x y = true <-> x = y.
Proof.
  unfold Decimal_eqb. rewrite Qeq_bool_iff. split.
  - apply Qc_is_canon.
  - intros ->. reflexivity.
Qed.

Lemma Decimal_gtb_lt (x y : Decimal) : Decimal_gtb x y = true <-> (y < x)%Qc.
Proof.
  unfold Decimal_gtb, Qclt. rewrite negb_true_iff.
  split.
  - intros H. apply Qnot_le_lt. intros Hle.
    apply Qle_bool_iff in Hle. congruence.
  - intros H. destruct (Qle_bool x y) eqn:E; [|reflexivity].
    apply Qle_bool_iff in E. exfalso. revert E. apply Qlt_not_le. exact H.
Qed.

(** ** The rounding of Decimal arithmetic *)

Lemma digits_fuel_bounds (fuel : nat) (k : Z) :
  (1 <= k)%Z -> (k < 10 ^ (Z.of_nat fuel + 1))%Z ->
  (1 <= digits_fuel fuel k
   /\ 10 ^ (digits_fuel fuel k - 1) <= k < 10 ^ digits_fuel fuel k)%Z.
Proof.
  revert k. induction fuel as [|f IH]; intros k H1 Hlt.
  - simpl in *. lia.
  - cbn [digits_fuel]. destruct (k <? 10)%Z eqn:E.
    + apply Z.ltb_lt in E. simpl. lia.
    + apply Z.ltb_ge in E.
      assert (Hq1 : (1 <= k / 10)%Z) by (apply Z.div_le_lower_bound; lia).
      assert (Hq2 : (k / 10 < 10 ^ (Z.of_nat f + 1))%Z).
      { apply Z.div_lt_upper_bound; [lia|].
        replace (Z.of_nat (S f) + 1)%Z with (Z.succ (Z.of_nat f + 1)) in Hlt by lia.
        rewrite Z.pow_succ_r in Hlt by lia. exact Hlt. }
      destruct (IH (k / 10)%Z Hq1 Hq2) as (Hd & Hlo & Hhi).
      set (D := digits_fuel f (k / 10)) in *.
      replace (1 + D - 1)%Z with (Z.succ (D - 1)) by lia.
      replace (1 + D)%Z with (Z.succ D) by lia.
      rewrite !Z.pow_succ_r by lia.
      pose proof (Z.div_mod k 10 ltac:(lia)) as Hdm.
      pose proof (Z.mod_pos_bound k 10 ltac:(lia)) as Hm.
      split; [lia|]. split; lia.
Qed.

Lemma digits_bounds (k : Z) :
  (1 <= k)%Z ->
  (1 <= digits k /\ 10 ^ (digits k - 1) <= k < 10 ^ digits k)%Z.
Proof.
  intros H1. unfold digits. apply digits_fuel_bounds; [exact H1|].
  rewrite Z2Nat.id by apply Z.log2_nonneg.
  destruct (Z.log2_spec k ltac:(lia)) as (_ & Hlt).
  eapply Z.lt_le_trans; [exact Hlt|].
  replace (Z.succ (Z.log2 k)) with (Z.log2 k + 1)%Z by lia.
  apply Z.pow_le_mono_l. pose proof (Z.log2_nonneg k). lia.
Qed.

Lemma round_half_even_ge (n d : Z) : (n / d <= round_half_even n d)%Z.
Proof.
  unfold round_half_even.
  destruct (2 * (n mod d) ?= d)%Z; [destruct (Z.even (n / d))| |]; lia.
Qed.

Lemma pow_10_ge_1 (k : Z) : (0 <= k)%Z -> (1 <= 10 ^ k)%Z.
Proof.
  intros Hk. assert (0 < 10 ^ k)%Z by (apply Z.pow_pos_nonneg; lia). lia.
Qed.

Lemma scaled_pos (a d e : Z) :
  (1 <= a)%Z -> (1 <= d)%Z -> (1 <= fst (scaled a d e) /\ 1 <= snd (scaled a d e))%Z.
Proof.
  intros Ha Hd. unfold scaled. cbn [fst snd].
  assert (H1 : (1 <= 10 ^ Z.max 0 (- e))%Z) by (apply pow_10_ge_1; lia).
  assert (H2 : (1 <= 10 ^ Z.max 0 e)%Z) by (apply pow_10_ge_1; lia).
  split; nia.
Qed.

Lemma coefficient_pos (a d : Z) :
  (1 <= a)%Z -> (1 <= d)%Z -> (1 <= coefficient a d)%Z.
Proof.
  intros Ha Hd. unfold coefficient.
  destruct (scaled_pos a d (exponent a d) Ha Hd) as (Hn & Hd').
  assert (Hge : (snd (scaled a d (exponent a d)) <= fst (scaled a d (exponent a d)))%Z).
  { unfold exponent.
    destruct (digits_bounds a Ha) as (Da & Alo & Ahi).
    destruct (digits_bounds d Hd) as (Dd & Dlo & Dhi).
    set (e0 := (digits a - digits d - precision)%Z).
    destruct (scaled a d (e0 + 1)) as [n1 d1] eqn:E1.
    destruct (10 ^ (precision - 1) * d1 <=? n1)%Z eqn:Ht.
    - apply Z.leb_le in Ht. rewrite E1. cbn [fst snd].
      destruct (scaled_pos a d (e0 + 1) Ha Hd) as (_ & Hd1). rewrite E1 in Hd1.
      cbn [snd] in Hd1.
      assert (1 <= 10 ^ (precision - 1))%Z by (apply pow_10_ge_1; unfold precision; lia).
      nia.
    - unfold scaled. cbn [fst snd]. unfold precision in *.
      destruct (Z.le_gt_cases 0 e0) as [He|He].
      + rewrite (Z.max_l 0 (- e0)) by lia. rewrite (Z.max_r 0 e0) by lia.
        rewrite Z.pow_0_r.
        assert (Hd10 : (d * 10 ^ e0 <= 10 ^ digits d * 10 ^ e0)%Z)
          by (apply Z.mul_le_mono_nonneg_r; [apply Z.pow_nonneg|]; lia).
        rewrite <- Z.pow_add_r in Hd10 by lia.
        assert (Hmono : (10 ^ (digits d + e0) <= 10 ^ (digits a - 1))%Z)
          by (apply Z.pow_le_mono_r; unfold e0; lia).
        lia.
      + rewrite (Z.max_r 0 (- e0)) by lia. rewrite (Z.max_l 0 e0) by lia.
        rewrite Z.pow_0_r.
        assert (Ha10 : (10 ^ (digits a - 1) * 10 ^ (- e0) <= a * 10 ^ (- e0))%Z)
          by (apply Z.mul_le_mono_nonneg_r; [apply Z.pow_nonneg|]; lia).
        rewrite <- Z.pow_add_r in Ha10 by lia.
        assert (Hmono : (10 ^ digits d <= 10 ^ (digits a - 1 + - e0))%Z)
          by (apply Z.pow_le_mono_r; unfold e0; lia).
        lia. }
  destruct (scaled a d (exponent a d)) as [n d'] eqn:E. cbn [fst snd] in *.
  pose proof (round_half_even_ge n d').
  assert (1 <= n / d')%Z by (apply Z.div_le_lower_bound; lia).
  lia.
Qed.

Lemma pow10_pos (e : Z) : (0 < pow10 e)%Q.
Proof.
  unfold pow10. destruct (0 <=? e)%Z eqn:E.
  - apply Z.leb_le in E. unfold Qlt. simpl.
    assert (0 < 10 ^ e)%Z by (apply Z.pow_pos_nonneg; lia). lia.
  - reflexivity.
Qed.

Lemma quantize_zero (q : Q) : quantize q == 0 <-> q == 0.
Proof.
  unfold quantize. destruct (Qnum q =? 0)%Z eqn:E.
  - apply Z.eqb_eq in E. split; [|reflexivity].
    intros _. unfold Qeq. simpl. lia.
  - apply Z.eqb_neq in E. split.
    + intros H. exfalso.
      apply Qmult_integral in H. destruct H as [H|H].
      * unfold Qeq in H. simpl in H.
        assert (Hc : (1 <= coefficient (Z.abs (Qnum q)) (Z.pos (Qden q)))%Z)
          by (apply coefficient_pos; lia).
        destruct (Z.sgn_spec (Qnum q)) as [[? ?]|[[? ?]|[? ?]]]; nia.
      * pose proof (pow10_pos (exponent (Z.abs (Qnum q)) (Z.pos (Qden q)))) as Hp.
        rewrite H in Hp. discriminate Hp.
    + intros H. unfold Qeq in H. simpl in H. lia.
Qed.

Lemma Decimal_round_zero (q : Q) : Decimal_round q = 0%Qc <-> q == 0.
Proof.
  unfold Decimal_round. rewrite Q2Qc_eq_iff. apply quantize_zero.
Qed.

Lemma Decimal_sub_zero (x y : Decimal) : (x - y)%dec = 0%Qc <-> x = y.
Proof.
  unfold Decimal_sub. rewrite Decimal_round_zero. split.
  - intros H. apply Qc_is_canon.
    unfold Qeq, Qminus, Qplus, Qopp in *. simpl in *. lia.
  - intros ->. unfold Qminus. apply Qplus_opp_r.
Qed.

(** The rounding on a few quotients, sums and products, as [decimal]
    computes them: 2/300, 1/3, 0.05/3, two ties, a sum and a product that
    do not fit 28 digits, and values that do. *)
Example Decimal_rounding_examples :
  (decimal 2 1 / decimal 300 1)%dec
  = decimal 6666666666666666666666666667 (10 ^ 30)
  /\ (decimal 1 1 / decimal 3 1)%dec
     = decimal 3333333333333333333333333333 (10 ^ 28)
  /\ (decimal 5 100 / decimal 3 1)%dec
     = decimal 1666666666666666666666666667 (10 ^ 29)
  /\ (decimal (10 ^ 28 + 5) 1 / decimal 10 1)%dec = decimal (10 ^ 27) 1
  /\ (decimal (10 ^ 28 + 15) 1 / decimal 10 1)%dec = decimal (10 ^ 27 + 2) 1
  /\ (decimal (10 ^ 10) 1 + decimal 1 (10 ^ 20))%dec = decimal (10 ^ 10) 1
  /\ (decimal 12345678901234567890 1 * decimal 12345678901234567890 1)%dec
     = decimal (1524157875323883675019051999 * 10 ^ 11) 1
  /\ (decimal 10 1 * decimal 101 1 - decimal 10 1 * decimal 100 1)%dec = decimal 10 1
  /\ (decimal 8 1 / decimal 10 1)%dec = decimal 8 10.
Proof. repeat apply conj; apply Qc_is_canon; vm_compute; reflexivity. Qed.

Lemma Decimal_div_nonzero (x y : Decimal) :
  y <> 0%Qc -> Decimal_div x y = Ok (x / y)%dec.
Proof.
  intros Hy. unfold Decimal_div.
  destruct (Decimal_eqb y 0) eqn:E; [|reflexivity].
  apply Decimal_eqb_eq in E. contradiction.
Qed.

Lemma Decimal_div_Ok (x y q : Decimal) :
  Decimal_div x y = Ok q <-> y <> 0%Qc /\ q = (x / y)%dec.
Proof.
  unfold Decimal_div. destruct (Decimal_eqb y 0) eqn:E.
  - apply Decimal_eqb_eq in E. subst y.
    destruct (Decimal_eqb x 0); split; try discriminate; intros [H _]; now elim H.
  - split.
    + intros [= <-]. split; [|reflexivity].
      intros ->. discriminate E.
    + intros [_ ->]. reflexivity.
Qed.

(** ** The step in ActiveArbitrage *)

Ltac unfold_m :=
  unfold state_after, outcome, bind, get, modify, ask, attr, operand, ret,
    raise, lift_result, terminate_control_loop in *.

Lemma check_order_status_filled (s : System) :
  leg_filled (_buy_order (self s)) (world s) = true ->
  leg_filled (_sell_order (self s)) (world s) = true ->
  check_order_status s
  = (Ok tt, with_self (fun e => set_terminated (set_arbitrage_status COMPLETED e)) s).
Proof.
  unfold leg_filled, check_order_status. unfold_m. simpl.
  destruct (order (_buy_order (self s))) as [bo|]; [|discriminate].
  simpl. intros Hb. rewrite Hb. simpl.
  destruct (order (_sell_order (self s))) as [so|]; [|discriminate].
  simpl. intros Hs. rewrite Hs. reflexivity.
Qed.

Lemma check_order_status_unfilled (s : System) :
  leg_filled (_buy_order (self s)) (world s)
  && leg_filled (_sell_order (self s)) (world s) = false ->
  state_after check_order_status s = s.
Proof.
  unfold leg_filled, check_order_status. unfold_m. simpl.
  destruct (order (_buy_order (self s))) as [bo|]; simpl; [|reflexivity].
  destruct (is_filled (read_order bo (world s))); simpl; [|reflexivity].
  destruct (order (_sell_order (self s))) as [so|]; simpl; [|reflexivity].
  destruct (is_filled (read_order so (world s))); simpl; [discriminate|reflexivity].
Qed.

Lemma control_task_active_unfold (s : System) :
  arbitrage_status (self s) = ACTIVE_ARBITRAGE ->
  control_task s
  = if (_cumulative_failures (self s) >? max_retries (self s))%Z
    then (Ok tt, with_self (fun e => set_terminated (set_arbitrage_status FAILED e)) s)
    else check_order_status s.
Proof.
  intros H. unfold control_task. unfold_m. rewrite H.
  destruct (_cumulative_failures (self s) >? max_retries (self s))%Z; reflexivity.
Qed.

(** C1. In ActiveArbitrage one step moves to Failed exactly when
    cumulativeFailures > maxRetries (whether or not the legs are filled),
    otherwise to Completed exactly when both legs report filled, otherwise
    leaves the status as it is; in both terminal cases the control loop is
    told to stop. *)
Theorem control_task_active (s : System) :
  arbitrage_status (self s) = ACTIVE_ARBITRAGE ->
  let s' := state_after control_task s in
  let exhausted := (_cumulative_failures (self s) > max_retries (self s))%Z in
  let filled := leg_filled (_buy_order (self s)) (world s) = true
                /\ leg_filled (_sell_order (self s)) (world s) = true in
  (arbitrage_status (self s') = FAILED <-> exhausted)
  /\ (arbitrage_status (self s') = COMPLETED <-> ~ exhausted /\ filled)
  /\ (arbitrage_status (self s') = ACTIVE_ARBITRAGE <-> ~ exhausted /\ ~ filled)
  /\ (terminal (arbitrage_status (self s')) = true -> terminated (self s') = true).
Proof.
  intros Hst. cbv zeta. unfold state_after.
  rewrite (control_task_active_unfold s Hst).
  destruct (_cumulative_failures (self s) >? max_retries (self s))%Z eqn:Hgt.
  - apply Z.gtb_lt in Hgt. simpl.
    repeat split; try discriminate; try lia; intros [Hn _]; lia.
  - assert (Hle : ~ (_cumulative_failures (self s) > max_retries (self s))%Z).
    { intros Hc. apply Z.gt_lt in Hc. apply Z.gtb_lt in Hc. congruence. }
    destruct (leg_filled (_buy_order (self s)) (world s)
              && leg_filled (_sell_order (self s)) (world s)) eqn:Hf.
    + apply andb_true_iff in Hf. destruct Hf as [Hb Hs].
      rewrite (check_order_status_filled s Hb Hs). simpl.
      repeat split; try discriminate; tauto.
    + pose proof (check_order_status_unfilled s Hf) as Hu.
      unfold state_after in Hu. rewrite Hu. rewrite Hst. simpl.
      assert (Hnf : ~ (leg_filled (_buy_order (self s)) (world s) = true
                       /\ leg_filled (_sell_order (self s)) (world s) = true)).
      { intros [Hb Hs]. rewrite Hb, Hs in Hf. discriminate. }
      repeat split; try discriminate; tauto.
Qed.

(** ** What the profitability evaluation leaves alone *)

Section Preserves.

Context {X : Type}.
Variable f : ArbitrageExecutor -> list OrderRequest -> list (LogLevel * string) -> X.

Lemma preserves_ret {A} (a : A) : preserves f (ret a).
Proof. intros s. reflexivity. Qed.

Lemma preserves_lift_result {A} (r : result A) : preserves f (lift_result r).
Proof. intros s. reflexivity. Qed.

Lemma preserves_get {A} (g : ArbitrageExecutor -> A) : preserves f (get g).
Proof. intros s. reflexivity. Qed.

Lemma preserves_call {A} (g : World -> result A * World) : preserves f (call g).
Proof.
  intros s. unfold state_after, call. destruct (g (world s)). reflexivity.
Qed.

Lemma preserves_modify (g : ArbitrageExecutor -> ArbitrageExecutor) :
  (forall e o l, f (g e) o l = f e o l) -> preserves f (modify g).
Proof. intros Hg s. unfold state_after, modify. simpl. apply Hg. Qed.

Lemma preserves_bind {A B} (m : M A) (k : A -> M B) :
  preserves f m -> (forall a, preserves f (k a)) -> preserves f (bind m k).
Proof.
  intros Hm Hk s. unfold state_after, bind.
  specialize (Hm s). unfold state_after in Hm.
  destruct (m s) as [[a|e] s1]; simpl in Hm.
  - specialize (Hk a s1). unfold state_after in Hk. congruence.
  - exact Hm.
Qed.

Lemma preserves_gather {A B} (m1 : M A) (m2 : M B) :
  preserves f m1 -> preserves f m2 -> preserves f (gather m1 m2).
Proof.
  intros H1 H2 s. unfold state_after, gather.
  specialize (H1 s). unfold state_after in H1.
  destruct (m1 s) as [r1 s1]. simpl in H1.
  specialize (H2 s1). unfold state_after in H2.
  destruct (m2 s1) as [r2 s2]. simpl in H2.
  destruct r1, r2; simpl; congruence.
Qed.

Create HintDb frame.

#[local] Hint Resolve preserves_ret preserves_lift_result preserves_get
  preserves_call preserves_bind preserves_gather : frame.

Lemma preserves_get_resulting_price_for_amount ex tp is_buy amt :
  preserves f (get_resulting_price_for_amount ex tp is_buy amt).
Proof. unfold get_resulting_price_for_amount. auto with frame. Qed.

#[local] Hint Resolve preserves_get_resulting_price_for_amount : frame.

Lemma preserves_get_tx_cost_in_asset ex tp is_buy amt asset :
  preserves f (get_tx_cost_in_asset ex tp is_buy amt asset).
Proof.
  unfold get_tx_cost_in_asset.
  apply preserves_bind; [auto with frame|]. intros price.
  destruct (is_amm ex); auto 6 with frame.
Qed.

Lemma preserves_get_buy_and_sell_prices : preserves f get_buy_and_sell_prices.
Proof. unfold get_buy_and_sell_prices. auto 8 with frame. Qed.

#[local] Hint Resolve preserves_get_tx_cost_in_asset
  preserves_get_buy_and_sell_prices : frame.

(** [get_tx_cost_pct] assigns [_last_tx_cost] only. *)
Lemma preserves_get_tx_cost_pct :
  (forall v e o l, f (set_last_tx_cost v e) o l = f e o l) ->
  preserves f get_tx_cost_pct.
Proof.
  intros Hf. unfold get_tx_cost_pct.
  apply preserves_bind; [auto with frame|]. intros buying.
  apply preserves_bind; [auto with frame|]. intros [base quote].
  do 4 (apply preserves_bind; [solve [auto with frame]|]; intros ?).
  apply preserves_bind; [|auto with frame].
  apply preserves_modify. apply Hf.
Qed.

(** [get_trade_pnl_pct] assigns the two last prices only. *)
Lemma preserves_get_trade_pnl_pct :
  (forall b sl e o l, f (set_last_prices b sl e) o l = f e o l) ->
  preserves f get_trade_pnl_pct.
Proof.
  intros Hf. unfold get_trade_pnl_pct.
  apply preserves_bind; [auto with frame|]. intros [b sl].
  apply preserves_bind; [|auto with frame].
  apply preserves_modify. apply Hf.
Qed.

End Preserves.

Lemma quiet_get_buy_and_sell_prices : quiet get_buy_and_sell_prices.
Proof. apply preserves_get_buy_and_sell_prices. Qed.

Lemma quiet_get_tx_cost_pct : quiet get_tx_cost_pct.
Proof. apply preserves_get_tx_cost_pct. reflexivity. Qed.

Lemma keeps_prices_get_tx_cost_pct : keeps_prices get_tx_cost_pct.
Proof. apply preserves_get_tx_cost_pct. reflexivity. Qed.

Lemma quiet_get_trade_pnl_pct : quiet get_trade_pnl_pct.
Proof. apply preserves_get_trade_pnl_pct. reflexivity. Qed.

Lemma quiet_evaluate_profitability : quiet evaluate_profitability.
Proof.
  unfold evaluate_profitability.
  apply preserves_bind; [apply quiet_get_trade_pnl_pct|]. intros t.
  apply preserves_bind; [apply quiet_get_tx_cost_pct|]. intros c.
  apply preserves_ret.
Qed.

Lemma quiet_inv {A} (m : M A) (s : System) :
  quiet m ->
  core (self (state_after m s)) = core (self s)
  /\ orders_sent (state_after m s) = orders_sent s
  /\ log (state_after m s) = log s.
Proof.
  intros H. specialize (H s). simpl in H.
  split; [exact (f_equal (fun t => fst (fst t)) H)|].
  split; [exact (f_equal (fun t => snd (fst t)) H)|exact (f_equal snd H)].
Qed.

Lemma core_status e e' : core e = core e' -> arbitrage_status e = arbitrage_status e'.
Proof. unfold core. congruence. Qed.

Lemma core_failures e e' :
  core e = core e' -> _cumulative_failures e = _cumulative_failures e'.
Proof. unfold core. congruence. Qed.

(** ** The step in NotStarted *)

Lemma place_buy_arbitrage_order_spec (s : System) :
  let s' := state_after place_buy_arbitrage_order s in
  outcome place_buy_arbitrage_order s = Ok tt
  /\ self s'
     = set_buy_order
         {| order_id := Some (fst (submit_order (buy_request (self s)) (world s)));
            order := None |} (self s)
  /\ world s' = snd (submit_order (buy_request (self s)) (world s))
  /\ orders_sent s' = (orders_sent s ++ [buy_request (self s)])%list
  /\ log s' = log s.
Proof.
  unfold place_buy_arbitrage_order, place_order. unfold_m. simpl.
  fold (buy_request (self s)).
  destruct (submit_order (buy_request (self s)) (world s)) as [oid w].
  simpl. repeat split.
Qed.

Lemma place_sell_arbitrage_order_spec (s : System) :
  let s' := state_after place_sell_arbitrage_order s in
  outcome place_sell_arbitrage_order s = Ok tt
  /\ self s'
     = set_sell_order
         {| order_id := Some (fst (submit_order (sell_request (self s)) (world s)));
            order := None |} (self s)
  /\ world s' = snd (submit_order (sell_request (self s)) (world s))
  /\ orders_sent s' = (orders_sent s ++ [sell_request (self s)])%list
  /\ log s' = log s.
Proof.
  unfold place_sell_arbitrage_order, place_order. unfold_m. simpl.
  fold (sell_request (self s)).
  destruct (submit_order (sell_request (self s)) (world s)) as [oid w].
  simpl. repeat split.
Qed.

Lemma bind_Ok {A B} (m : M A) (k : A -> M B) (s : System) (a : A) :
  outcome m s = Ok a -> bind m k s = k a (state_after m s).
Proof.
  unfold outcome, state_after, bind. destruct (m s) as [[a'|e] s1]; simpl.
  - intros [= ->]. reflexivity.
  - discriminate.
Qed.

Lemma bind_Raise {A B} (m : M A) (k : A -> M B) (s : System) (e : exn) :
  outcome m s = Raise e -> bind m k s = (Raise e, state_after m s).
Proof.
  unfold outcome, state_after, bind. destruct (m s) as [[a'|e'] s1]; simpl.
  - discriminate.
  - intros [= ->]. reflexivity.
Qed.

Lemma execute_arbitrage_spec (s : System) :
  let s' := state_after execute_arbitrage s in
  outcome execute_arbitrage s = Ok tt
  /\ arbitrage_status (self s') = ACTIVE_ARBITRAGE
  /\ orders_sent s' = (orders_sent s ++ [buy_request (self s); sell_request (self s)])%list
  /\ _cumulative_failures (self s') = _cumulative_failures (self s)
  /\ terminated (self s') = terminated (self s)
  /\ log s' = log s.
Proof.
  set (s0 := with_self (set_arbitrage_status ACTIVE_ARBITRAGE) s).
  assert (E0 : execute_arbitrage s
               = bind place_buy_arbitrage_order
                   (fun _ => place_sell_arbitrage_order) s0)
    by reflexivity.
  destruct (place_buy_arbitrage_order_spec s0) as (Ob & Sb & Wb & Rb & Lb).
  set (s1 := state_after place_buy_arbitrage_order s0) in *.
  destruct (place_sell_arbitrage_order_spec s1) as (Os & Ss & Ws & Rs & Ls).
  set (s2 := state_after place_sell_arbitrage_order s1) in *.
  assert (E : bind place_buy_arbitrage_order
                (fun _ => place_sell_arbitrage_order) s0
              = (Ok tt, s2)).
  { rewrite (bind_Ok _ _ _ _ Ob). fold s1.
    unfold outcome in Os. unfold s2, state_after.
    destruct (place_sell_arbitrage_order s1) as [r x]. simpl in *. now subst r. }
  cbv zeta. unfold outcome, state_after. rewrite E0, E. simpl.
  rewrite Ss, Rs, Ls, Sb, Rb, Lb. simpl.
  rewrite <- app_assoc. repeat split.
Qed.

Lemma control_task_not_started_unfold (s : System) :
  arbitrage_status (self s) = NOT_STARTED ->
  control_task s
  = match evaluate_profitability s with
    | (Ok p, s1) =>
        if Decimal_gtb p (min_profitability (self s1))
        then (Ok tt, state_after execute_arbitrage s1)
        else (Ok tt, s1)
    | (Raise e, s1) => logger ERROR "Error calculating profitability" s1
    end.
Proof.
  intros H. unfold control_task, try_except, bind at 1, get at 1. rewrite H.
  unfold bind at 1.
  destruct (evaluate_profitability s) as [[p|e] s1]; [|reflexivity].
  unfold bind, get.
  destruct (Decimal_gtb p (min_profitability (self s1))); [|reflexivity].
  destruct (execute_arbitrage_spec s1) as (O & _).
  unfold outcome, state_after in *.
  destruct (execute_arbitrage s1) as [r x]. simpl in O. now subst r.
Qed.

(** A successful evaluation is a pair of quotes with a non-zero buy price
    followed by a successful cost computation; its value is the spread
    minus the cost fraction. *)
Lemma evaluate_profitability_Ok (s s2 : System) (p : Decimal) :
  evaluate_profitability s = (Ok p, s2)
  <-> exists buy sell cost s1,
        get_buy_and_sell_prices s = (Ok (buy, sell), s1)
        /\ buy <> 0%Qc
        /\ get_tx_cost_pct (with_self (set_last_prices buy sell) s1) = (Ok cost, s2)
        /\ p = ((sell - buy) / buy - cost)%dec.
Proof.
  unfold evaluate_profitability, get_trade_pnl_pct.
  unfold bind at 1 2 3. unfold modify, lift_result, ret.
  destruct (get_buy_and_sell_prices s) as [[[buy sell]|e] s1].
  - fold (with_self (set_last_prices buy sell) s1).
    destruct (Decimal_div (sell - buy) buy) as [q|e] eqn:Hd.
    + apply Decimal_div_Ok in Hd. destruct Hd as [Hb ->].
      unfold bind.
      destruct (get_tx_cost_pct (with_self (set_last_prices buy sell) s1))
        as [[cost|e] s2'] eqn:Hc.
      * split.
        -- intros [= <- <-]. exists buy, sell, cost, s1. repeat split; assumption.
        -- intros (b & sl & c & s1' & [= <- <- <-] & _ & Hc' & ->).
           rewrite Hc in Hc'. injection Hc' as <- <-. reflexivity.
      * split; [discriminate|].
        intros (b & sl & c & s1' & [= <- <- <-] & _ & Hc' & _).
        rewrite Hc in Hc'. discriminate.
    + split; [discriminate|].
      intros (b & sl & c & s1' & [= <- <- <-] & Hb & _).
      rewrite (Decimal_div_nonzero _ _ Hb) in Hd. discriminate.
  - split; [discriminate|].
    intros (b & sl & c & s1' & Hq & _). discriminate.
Qed.

Lemma evaluate_profitability_requests (s s1 s2 : System) (buy sell cost : Decimal) :
  get_buy_and_sell_prices s = (Ok (buy, sell), s1) ->
  get_tx_cost_pct (with_self (set_last_prices buy sell) s1) = (Ok cost, s2) ->
  core (self s2) = core (self s)
  /\ orders_sent s2 = orders_sent s
  /\ buy_request (self s2) = buy_request (set_last_prices buy sell (self s))
  /\ sell_request (self s2) = sell_request (set_last_prices buy sell (self s)).
Proof.
  intros Hq Hc.
  destruct (quiet_inv _ s quiet_get_buy_and_sell_prices) as (C1 & O1 & _).
  unfold state_after in C1, O1. rewrite Hq in C1, O1. simpl in C1, O1.
  set (s1' := with_self (set_last_prices buy sell) s1) in *.
  destruct (quiet_inv _ s1' quiet_get_tx_cost_pct) as (C2 & O2 & _).
  pose proof (keeps_prices_get_tx_cost_pct s1') as P2.
  unfold state_after in C2, O2, P2. rewrite Hc in C2, O2, P2.
  simpl in C2, O2, P2.
  assert (Hcore : core (self s2) = core (self s)).
  { rewrite C2. unfold core in *. simpl. exact C1. }
  split; [exact Hcore|]. split; [congruence|].
  injection P2 as Pb Ps.
  unfold core in Hcore. unfold buy_request, sell_request. simpl.
  rewrite Pb, Ps.
  split; congruence.
Qed.

(** C2. In NotStarted one step moves to ActiveArbitrage and submits the buy
    and the sell leg if and only if the evaluation succeeds with a net
    profitability, the spread (sell - buy) / buy minus the cost fraction
    as Decimal arithmetic computes them, strictly above the configured
    minimum; at or below the minimum the run stays NotStarted and submits
    nothing. *)
Theorem control_task_not_started (s : System) :
  arbitrage_status (self s) = NOT_STARTED ->
  let s' := state_after control_task s in
  (forall buy sell cost s1 s2,
      get_buy_and_sell_prices s = (Ok (buy, sell), s1) ->
      buy <> 0%Qc ->
      get_tx_cost_pct (with_self (set_last_prices buy sell) s1) = (Ok cost, s2) ->
      let net := ((sell - buy) / buy - cost)%dec in
      ((min_profitability (self s) < net)%Qc ->
         arbitrage_status (self s') = ACTIVE_ARBITRAGE
         /\ orders_sent s'
            = (orders_sent s
               ++ [buy_request (set_last_prices buy sell (self s));
                   sell_request (set_last_prices buy sell (self s))])%list)
      /\ ((net <= min_profitability (self s))%Qc ->
         arbitrage_status (self s') = NOT_STARTED
         /\ orders_sent s' = orders_sent s))
  /\ (arbitrage_status (self s') = ACTIVE_ARBITRAGE
      <-> exists buy sell cost s1 s2,
            get_buy_and_sell_prices s = (Ok (buy, sell), s1)
            /\ buy <> 0%Qc
            /\ get_tx_cost_pct (with_self (set_last_prices buy sell) s1) = (Ok cost, s2)
            /\ (min_profitability (self s) < ((sell - buy) / buy - cost)%dec)%Qc)
  /\ (arbitrage_status (self s') <> ACTIVE_ARBITRAGE ->
      arbitrage_status (self s') = NOT_STARTED /\ orders_sent s' = orders_sent s).
Proof.
  intros Hst. cbv zeta.
  assert (Hstep : forall buy sell cost s1 s2,
      get_buy_and_sell_prices s = (Ok (buy, sell), s1) ->
      buy <> 0%Qc ->
      get_tx_cost_pct (with_self (set_last_prices buy sell) s1) = (Ok cost, s2) ->
      state_after control_task s
      = if Decimal_gtb ((sell - buy) / buy - cost)%dec (min_profitability (self s))
        then state_after execute_arbitrage s2 else s2).
  { intros buy sell cost s1 s2 Hq Hb Hc.
    assert (He : evaluate_profitability s
                 = (Ok ((sell - buy) / buy - cost)%dec, s2)).
    { apply evaluate_profitability_Ok. exists buy, sell, cost, s1. tauto. }
    unfold state_after at 1. rewrite (control_task_not_started_unfold s Hst), He.
    destruct (evaluate_profitability_requests _ _ _ _ _ _ Hq Hc) as (Hcore & _).
    replace (min_profitability (self s2)) with (min_profitability (self s))
      by (unfold core in Hcore; congruence).
    destruct (Decimal_gtb _ _); reflexivity. }
  split; [|split].
  - intros buy sell cost s1 s2 Hq Hb Hc.
    rewrite (Hstep _ _ _ _ _ Hq Hb Hc).
    destruct (evaluate_profitability_requests _ _ _ _ _ _ Hq Hc)
      as (Hcore & Hord & Hbr & Hsr).
    split.
    + intros Hlt. apply Decimal_gtb_lt in Hlt. rewrite Hlt.
      destruct (execute_arbitrage_spec s2) as (_ & Ha & Ho & _).
      split; [exact Ha|]. rewrite Ho, Hord, Hbr, Hsr. reflexivity.
    + intros Hle.
      destruct (Decimal_gtb _ _) eqn:Hg.
      * apply Decimal_gtb_lt in Hg. exfalso.
        apply Qcle_not_lt in Hle. contradiction.
      * split; [|exact Hord].
        rewrite <- Hst. symmetry. apply core_status. symmetry. exact Hcore.
  - split.
    + intros Hact. unfold state_after in Hact.
      rewrite (control_task_not_started_unfold s Hst) in Hact.
      destruct (evaluate_profitability s) as [[p|e] s2] eqn:He.
      * apply evaluate_profitability_Ok in He.
        destruct He as (buy & sell & cost & s1 & Hq & Hb & Hc & ->).
        exists buy, sell, cost, s1, s2. repeat split; try assumption.
        destruct (evaluate_profitability_requests _ _ _ _ _ _ Hq Hc) as (Hcore & _).
        replace (min_profitability (self s2)) with (min_profitability (self s)) in Hact
          by (unfold core in Hcore; congruence).
        destruct (Decimal_gtb _ _) eqn:Hg.
        -- apply Decimal_gtb_lt. exact Hg.
        -- simpl in Hact. apply core_status in Hcore. congruence.
      * exfalso.
        destruct (quiet_inv _ s quiet_evaluate_profitability) as (Hcore & _).
        unfold state_after in Hcore. rewrite He in Hcore. simpl in Hcore.
        apply core_status in Hcore. unfold logger in Hact. simpl in Hact.
        congruence.
    + intros (buy & sell & cost & s1 & s2 & Hq & Hb & Hc & Hlt).
      rewrite (Hstep _ _ _ _ _ Hq Hb Hc).
      apply Decimal_gtb_lt in Hlt. rewrite Hlt.
      destruct (execute_arbitrage_spec s2) as (_ & Ha & _). exact Ha.
  - intros Hna. unfold state_after in *.
    rewrite (control_task_not_started_unfold s Hst) in *.
    destruct (quiet_inv _ s quiet_evaluate_profitability) as (Hcore & Hord & _).
    unfold state_after in Hcore, Hord.
    destruct (evaluate_profitability s) as [[p|e] s2] eqn:He; simpl in Hcore, Hord.
    + destruct (Decimal_gtb _ _).
      * exfalso. apply Hna.
        destruct (execute_arbitrage_spec s2) as (_ & Ha & _). exact Ha.
      * simpl. apply core_status in Hcore. split; congruence.
    + unfold logger. simpl. apply core_status in Hcore. split; congruence.
Qed.

(** C6. When the profitability evaluation raises in NotStarted, the step
    catches the exception and returns normally: the status stays
    NotStarted, no order is submitted and cumulativeFailures is unchanged;
    the error is logged. *)
Theorem control_task_evaluation_error (s s1 : System) (e : exn) :
  arbitrage_status (self s) = NOT_STARTED ->
  evaluate_profitability s = (Raise e, s1) ->
  let s' := state_after control_task s in
  outcome control_task s = Ok tt
  /\ arbitrage_status (self s') = NOT_STARTED
  /\ orders_sent s' = orders_sent s
  /\ _cumulative_failures (self s') = _cumulative_failures (self s)
  /\ log s' = (log s ++ [(ERROR, "Error calculating profitability")])%list.
Proof.
  intros Hst He. cbv zeta. unfold outcome, state_after.
  rewrite (control_task_not_started_unfold s Hst), He.
  destruct (quiet_inv _ s quiet_evaluate_profitability) as (Hcore & Hord & Hlog).
  unfold state_after in Hcore, Hord, Hlog. rewrite He in Hcore, Hord, Hlog.
  simpl in Hcore, Hord, Hlog. unfold logger. simpl.
  pose proof (core_status _ _ Hcore). pose proof (core_failures _ _ Hcore).
  repeat split; congruence.
Qed.

(** C5. A step never moves the status backward along
    NotStarted -> ActiveArbitrage -> {Completed, Failed}, and in Completed
    or Failed a step changes nothing at all. *)
Theorem control_task_status_monotone (s : System) :
  let s' := state_after control_task s in
  (rank (arbitrage_status (self s)) <= rank (arbitrage_status (self s')))%nat
  /\ (terminal (arbitrage_status (self s)) = true ->
      control_task s = (Ok tt, s)).
Proof.
  cbv zeta. destruct (arbitrage_status (self s)) eqn:Hst.
  - split; [simpl; lia|discriminate].
  - destruct (control_task_active s Hst) as (Hf & Hc & Ha & _).
    split; [|discriminate].
    destruct (arbitrage_status (self (state_after control_task s))) eqn:Hs';
      simpl; try lia.
    exfalso.
    unfold state_after in Hs'. rewrite (control_task_active_unfold s Hst) in Hs'.
    destruct (_ >? _)%Z; [simpl in Hs'; discriminate|].
    destruct (leg_filled (_buy_order (self s)) (world s)
              && leg_filled (_sell_order (self s)) (world s)) eqn:Hfl.
    + apply andb_true_iff in Hfl. destruct Hfl as [Hb Hsl].
      rewrite (check_order_status_filled s Hb Hsl) in Hs'. discriminate.
    + pose proof (check_order_status_unfilled s Hfl) as Hu.
      unfold state_after in Hu. rewrite Hu in Hs'. congruence.
  - assert (E : control_task s = (Ok tt, s)).
    { unfold control_task, bind, get, ret. rewrite Hst. reflexivity. }
    unfold state_after. rewrite E. simpl. rewrite Hst. split; [simpl; lia|reflexivity].
  - assert (E : control_task s = (Ok tt, s)).
    { unfold control_task, bind, get, ret. rewrite Hst. reflexivity. }
    unfold state_after. rewrite E. simpl. rewrite Hst. split; [simpl; lia|reflexivity].
Qed.

(** ** The order-failed notification *)

Lemma order_id_eqb_eq (t : option string) (ev : string) :
  order_id_eqb t ev = true <-> t = Some ev.
Proof.
  destruct t as [i|]; simpl.
  - rewrite String.eqb_eq. split; congruence.
  - split; discriminate.
Qed.

Lemma seq_place_then_count (place : M unit) (s : System) :
  outcome place s = Ok tt ->
  bind place
    (fun _ => modify (fun e => set_cumulative_failures (_cumulative_failures e + 1)%Z e)) s
  = (Ok tt, with_self count_failure (state_after place s)).
Proof.
  intros H. rewrite (bind_Ok _ _ _ _ H). reflexivity.
Qed.

Lemma process_order_failed_event_buy (s : System) (ev : string) :
  order_id (_buy_order (self s)) = Some ev ->
  process_order_failed_event ev s
  = (Ok tt, with_self count_failure (state_after place_buy_arbitrage_order s)).
Proof.
  intros H. apply order_id_eqb_eq in H.
  unfold process_order_failed_event. unfold bind at 1, get at 1. rewrite H.
  apply seq_place_then_count. apply place_buy_arbitrage_order_spec.
Qed.

Lemma process_order_failed_event_sell (s : System) (ev : string) :
  order_id (_buy_order (self s)) <> Some ev ->
  order_id (_sell_order (self s)) = Some ev ->
  process_order_failed_event ev s
  = (Ok tt, with_self count_failure (state_after place_sell_arbitrage_order s)).
Proof.
  intros Hb H. apply order_id_eqb_eq in H.
  unfold process_order_failed_event. unfold bind at 1, get at 1.
  destruct (order_id_eqb (order_id (_buy_order (self s))) ev) eqn:E.
  - apply order_id_eqb_eq in E. contradiction.
  - unfold bind at 1, get at 1. rewrite H.
    apply seq_place_then_count. apply place_sell_arbitrage_order_spec.
Qed.

Lemma process_order_failed_event_other (s : System) (ev : string) :
  order_id (_buy_order (self s)) <> Some ev ->
  order_id (_sell_order (self s)) <> Some ev ->
  process_order_failed_event ev s = (Ok tt, s).
Proof.
  intros Hb Hs.
  unfold process_order_failed_event. unfold bind at 1, get at 1.
  destruct (order_id_eqb (order_id (_buy_order (self s))) ev) eqn:E.
  - apply order_id_eqb_eq in E. contradiction.
  - unfold bind at 1, get at 1.
    destruct (order_id_eqb (order_id (_sell_order (self s))) ev) eqn:E'.
    + apply order_id_eqb_eq in E'. contradiction.
    + reflexivity.
Qed.

Lemma option_string_dec (a b : option string) : {a = b} + {a <> b}.
Proof. decide equality. apply string_dec. Qed.

Lemma process_order_failed_event_failures (s : System) (ev : string) :
  (_cumulative_failures (self s)
   <= _cumulative_failures (self (state_after (process_order_failed_event ev) s)))%Z.
Proof.
  unfold state_after.
  destruct (option_string_dec (order_id (_buy_order (self s))) (Some ev)) as [Hb|Hb].
  - rewrite (process_order_failed_event_buy s ev Hb). simpl.
    destruct (place_buy_arbitrage_order_spec s) as (_ & -> & _). simpl. lia.
  - destruct (option_string_dec (order_id (_sell_order (self s))) (Some ev)) as [Hs|Hs].
    + rewrite (process_order_failed_event_sell s ev Hb Hs). simpl.
      destruct (place_sell_arbitrage_order_spec s) as (_ & -> & _). simpl. lia.
    + rewrite (process_order_failed_event_other s ev Hb Hs). simpl. lia.
Qed.

(** ** The order-created notification *)

Lemma process_order_created_event_failures (s : System) (ev : string) :
  _cumulative_failures (self (state_after (process_order_created_event ev) s))
  = _cumulative_failures (self s).
Proof.
  unfold state_after, process_order_created_event, bind, get, ask, modify,
    logger, ret.
  destruct (order_id_eqb (order_id (_buy_order (self s))) ev); [reflexivity|].
  destruct (order_id_eqb (order_id (_sell_order (self s))) ev); reflexivity.
Qed.

(** ** The step and the counter *)

Lemma control_task_failures (s : System) :
  _cumulative_failures (self (state_after control_task s))
  = _cumulative_failures (self s).
Proof.
  destruct (arbitrage_status (self s)) eqn:Hst.
  - unfold state_after. rewrite (control_task_not_started_unfold s Hst).
    destruct (quiet_inv _ s quiet_evaluate_profitability) as (Hcore & _).
    unfold state_after in Hcore. apply core_failures in Hcore.
    destruct (evaluate_profitability s) as [[p|e] s2]; simpl in Hcore.
    + destruct (Decimal_gtb _ _); simpl; [|exact Hcore].
      destruct (execute_arbitrage_spec s2) as (_ & _ & _ & Hf & _). congruence.
    + unfold logger. simpl. exact Hcore.
  - unfold state_after. rewrite (control_task_active_unfold s Hst).
    destruct (_ >? _)%Z; [reflexivity|].
    destruct (leg_filled (_buy_order (self s)) (world s)
              && leg_filled (_sell_order (self s)) (world s)) eqn:Hfl.
    + apply andb_true_iff in Hfl. destruct Hfl as [Hb Hsl].
      rewrite (check_order_status_filled s Hb Hsl). reflexivity.
    + pose proof (check_order_status_unfilled s Hfl) as Hu.
      unfold state_after in Hu. rewrite Hu. reflexivity.
  - unfold state_after, control_task, bind, get, ret. rewrite Hst. reflexivity.
  - unfold state_after, control_task, bind, get, ret. rewrite Hst. reflexivity.
Qed.

(** ** The read-only properties *)

Lemma net_pnl_pure (s : System) : state_after net_pnl s = s.
Proof.
  unfold net_pnl. unfold_m.
  destruct (arbitrage_status (self s)); try reflexivity.
  simpl.
  destruct (order (_sell_order (self s))); [|reflexivity]. simpl.
  destruct (order (_buy_order (self s))); reflexivity.
Qed.

Lemma net_pnl_pct_pure (s : System) : state_after net_pnl_pct s = s.
Proof.
  unfold net_pnl_pct. unfold state_after, bind at 1, get at 1.
  destruct (arbitrage_status (self s)); try reflexivity.
  pose proof (net_pnl_pure s) as Hp. unfold state_after in Hp.
  unfold bind at 1. destruct (net_pnl s) as [[pnl|e] s1]; simpl in Hp; subst s1;
    [|reflexivity].
  unfold_m. simpl.
  destruct (order (_buy_order (self s))); reflexivity.
Qed.

Lemma to_format_status_pure (s : System) : state_after to_format_status s = s.
Proof.
  unfold to_format_status. unfold_m. simpl.
  destruct (_last_sell_price (self s)); [|reflexivity]. simpl.
  destruct (_last_buy_price (self s)); [|reflexivity]. simpl.
  destruct (Decimal_div _ _); [|reflexivity]. simpl.
  destruct (_last_tx_cost (self s)); [|reflexivity]. simpl.
  destruct (Decimal_div _ _); [|reflexivity]. simpl.
  destruct (split_hb_trading_pair _) as [[base quote]|]; [|reflexivity]. simpl.
  destruct (arbitrage_status (self s)); try reflexivity.
  pose proof (net_pnl_pct_pure s) as Hp. unfold state_after in Hp.
  destruct (net_pnl_pct s) as [[pct|e] s1]; simpl in Hp; subst s1; [|reflexivity].
  pose proof (net_pnl_pure s) as Hq. unfold state_after in Hq.
  destruct (net_pnl s) as [[pnl|e] s1]; simpl in Hq; subst s1; reflexivity.
Qed.

Lemma discard_state {A} (m : M A) (s : System) :
  state_after (discard m) s = state_after m s.
Proof.
  unfold discard, state_after, bind, ret. destruct (m s) as [[a|e] s1]; reflexivity.
Qed.

(** C3. A failure notification whose order identifier is the buy leg's
    resubmits the buy leg (same venue, pair, side and amount, built from
    the unchanged configuration), adds exactly 1 to cumulativeFailures and
    leaves the sell leg as it is; one that is the sell leg's and not the
    buy leg's does the same with the legs exchanged.  No operation ever
    decreases cumulativeFailures. *)
Theorem process_order_failed_event_resubmits (s : System) (ev : string) :
  let s' := state_after (process_order_failed_event ev) s in
  (order_id (_buy_order (self s)) = Some ev ->
     orders_sent s' = (orders_sent s ++ [buy_request (self s)])%list
     /\ _buy_order (self s')
        = {| order_id := Some (fst (submit_order (buy_request (self s)) (world s)));
             order := None |}
     /\ _sell_order (self s') = _sell_order (self s)
     /\ _cumulative_failures (self s') = (_cumulative_failures (self s) + 1)%Z)
  /\ (order_id (_buy_order (self s)) <> Some ev ->
      order_id (_sell_order (self s)) = Some ev ->
     orders_sent s' = (orders_sent s ++ [sell_request (self s)])%list
     /\ _sell_order (self s')
        = {| order_id := Some (fst (submit_order (sell_request (self s)) (world s)));
             order := None |}
     /\ _buy_order (self s') = _buy_order (self s)
     /\ _cumulative_failures (self s') = (_cumulative_failures (self s) + 1)%Z)
  /\ (forall op t,
        (_cumulative_failures (self t)
         <= _cumulative_failures (self (state_after (perform op) t)))%Z).
Proof.
  cbv zeta. split; [|split].
  - intros Hb. unfold state_after.
    rewrite (process_order_failed_event_buy s ev Hb).
    destruct (place_buy_arbitrage_order_spec s) as (_ & Hs & _ & Ho & _).
    unfold with_self. cbn [snd self orders_sent]. rewrite Hs, Ho.
    simpl. repeat split.
  - intros Hb Hsl. unfold state_after.
    rewrite (process_order_failed_event_sell s ev Hb Hsl).
    destruct (place_sell_arbitrage_order_spec s) as (_ & Hs & _ & Ho & _).
    unfold with_self. cbn [snd self orders_sent]. rewrite Hs, Ho.
    simpl. repeat split.
  - intros op t. destruct op; simpl.
    + rewrite control_task_failures. lia.
    + rewrite process_order_created_event_failures. lia.
    + apply process_order_failed_event_failures.
    + rewrite discard_state, net_pnl_pure. lia.
    + rewrite discard_state, net_pnl_pct_pure. lia.
    + rewrite discard_state, to_format_status_pure. lia.
Qed.

(** ** The failure handler and the status *)

Lemma place_buy_arbitrage_order_status (s : System) (st : ArbitrageExecutorStatus) :
  state_after place_buy_arbitrage_order (with_self (set_arbitrage_status st) s)
  = with_self (set_arbitrage_status st) (state_after place_buy_arbitrage_order s).
Proof.
  unfold place_buy_arbitrage_order, place_order. unfold_m. simpl.
  fold (buy_request (self s)).
  destruct (submit_order (buy_request (self s)) (world s)) as [oid w].
  reflexivity.
Qed.

Lemma place_sell_arbitrage_order_status (s : System) (st : ArbitrageExecutorStatus) :
  state_after place_sell_arbitrage_order (with_self (set_arbitrage_status st) s)
  = with_self (set_arbitrage_status st) (state_after place_sell_arbitrage_order s).
Proof.
  unfold place_sell_arbitrage_order, place_order. unfold_m. simpl.
  fold (sell_request (self s)).
  destruct (submit_order (sell_request (self s)) (world s)) as [oid w].
  reflexivity.
Qed.

(** C10. The failure handler neither reads nor writes the status: run in
    any status, terminal ones included, it ends in that same status and
    otherwise does exactly what it does in any other status.  In every
    status a notification matching the buy leg resubmits the buy leg, one
    matching the sell leg only resubmits the sell leg; the resubmitted leg
    carries the new order, the other leg is untouched and
    cumulativeFailures grows by 1. *)
Theorem process_order_failed_event_any_status
    (s : System) (ev : string) (st : ArbitrageExecutorStatus) :
  let s_st := with_self (set_arbitrage_status st) s in
  let s' := state_after (process_order_failed_event ev) s_st in
  arbitrage_status (self s') = st
  /\ process_order_failed_event ev s_st
     = (outcome (process_order_failed_event ev) s,
        with_self (set_arbitrage_status st)
          (state_after (process_order_failed_event ev) s))
  /\ (order_id (_buy_order (self s)) = Some ev ->
      orders_sent s' = (orders_sent s ++ [buy_request (self s)])%list
      /\ _buy_order (self s')
         = {| order_id := Some (fst (submit_order (buy_request (self s)) (world s)));
              order := None |}
      /\ _sell_order (self s') = _sell_order (self s)
      /\ _cumulative_failures (self s') = (_cumulative_failures (self s) + 1)%Z)
  /\ (order_id (_buy_order (self s)) <> Some ev ->
      order_id (_sell_order (self s)) = Some ev ->
      orders_sent s' = (orders_sent s ++ [sell_request (self s)])%list
      /\ _sell_order (self s')
         = {| order_id := Some (fst (submit_order (sell_request (self s)) (world s)));
              order := None |}
      /\ _buy_order (self s') = _buy_order (self s)
      /\ _cumulative_failures (self s') = (_cumulative_failures (self s) + 1)%Z).
Proof.
  cbv zeta.
  set (s_st := with_self (set_arbitrage_status st) s).
  assert (Hcomm : process_order_failed_event ev s_st
     = (outcome (process_order_failed_event ev) s,
        with_self (set_arbitrage_status st)
          (state_after (process_order_failed_event ev) s))).
  { unfold outcome, state_after.
    destruct (option_string_dec (order_id (_buy_order (self s))) (Some ev)) as [Hb|Hb].
    - rewrite (process_order_failed_event_buy s ev Hb).
      rewrite (process_order_failed_event_buy s_st ev Hb).
      unfold s_st. rewrite place_buy_arbitrage_order_status. reflexivity.
    - destruct (option_string_dec (order_id (_sell_order (self s))) (Some ev))
        as [Hs|Hs].
      + rewrite (process_order_failed_event_sell s ev Hb Hs).
        rewrite (process_order_failed_event_sell s_st ev Hb Hs).
        unfold s_st. rewrite place_sell_arbitrage_order_status. reflexivity.
      + rewrite (process_order_failed_event_other s ev Hb Hs).
        rewrite (process_order_failed_event_other s_st ev Hb Hs).
        reflexivity. }
  split; [|split; [|split]].
  - unfold state_after. rewrite Hcomm. reflexivity.
  - exact Hcomm.
  - intros Hb. unfold state_after at 1 2 3 4. rewrite Hcomm.
    unfold with_self at 1 2 3 4. cbn [snd self orders_sent].
    unfold state_after. rewrite (process_order_failed_event_buy s ev Hb).
    destruct (place_buy_arbitrage_order_spec s) as (_ & Hs & _ & Ho & _).
    unfold with_self. cbn [snd self orders_sent]. rewrite Hs, Ho.
    repeat split.
  - intros Hb Hsl. unfold state_after at 1 2 3 4. rewrite Hcomm.
    unfold with_self at 1 2 3 4. cbn [snd self orders_sent].
    unfold state_after. rewrite (process_order_failed_event_sell s ev Hb Hsl).
    destruct (place_sell_arbitrage_order_spec s) as (_ & Hs & _ & Ho & _).
    unfold with_self. cbn [snd self orders_sent]. rewrite Hs, Ho.
    repeat split.
Qed.

(** ** Realised profit *)

Lemma net_pnl_completed (s : System) (bo so : OrderRef) :
  arbitrage_status (self s) = COMPLETED ->
  order (_buy_order (self s)) = Some bo ->
  order (_sell_order (self s)) = Some so ->
  net_pnl s
  = (Ok (executed_amount (read_order so (world s))
         * average_price (read_order so (world s))
         - executed_amount (read_order bo (world s))
           * average_price (read_order bo (world s))
         - (cum_fee_quote (read_order bo (world s))
            + cum_fee_quote (read_order so (world s))))%dec, s).
Proof.
  intros Hst Hb Hs. unfold net_pnl. unfold_m. rewrite Hst. simpl.
  rewrite Hs. simpl. rewrite Hb. reflexivity.
Qed.


Lemma net_pnl_pct_completed (s : System) (bo : OrderRef) (pnl : Decimal) :
  arbitrage_status (self s) = COMPLETED ->
  order (_buy_order (self s)) = Some bo ->
  net_pnl s = (Ok pnl, s) ->
  net_pnl_pct s = (Decimal_div pnl (executed_amount (read_order bo (world s))), s).
Proof.
  intros Hst Hb Hp. unfold net_pnl_pct. unfold bind at 1, get at 1.
  rewrite Hst. unfold bind at 1. rewrite Hp.
  unfold_m. simpl. rewrite Hb. reflexivity.
Qed.



(** ** Transaction cost *)

Lemma call_eq {A} (f : World -> result A * World) (s : System) :
  call f s
  = (fst (f (world s)),
     {| self := self s; world := snd (f (world s));
        orders_sent := orders_sent s; log := log s |}).
Proof. unfold call. destruct (f (world s)). reflexivity. Qed.

(** The cost of one leg on an automated-market-maker venue: the gas fee
    amount divided by the oracle's rate for the pair asset-gas token. *)
Lemma get_tx_cost_in_asset_amm (s : System) (ex tp : string) (is_buy : bool)
    (amt : Decimal) (asset : string) (price rate : Decimal) (gas : TokenAmount)
    (w1 w2 w3 : World) :
  is_amm ex = true ->
  get_quote_price ex tp is_buy amt (world s) = (Ok price, w1) ->
  network_transaction_fee ex w1 = (Ok gas, w2) ->
  get_pair_rate (asset ++ "-" ++ token gas) w2 = (Ok rate, w3) ->
  get_tx_cost_in_asset ex tp is_buy amt asset s
  = (Decimal_div (amount gas) rate, with_world w3 s).
Proof.
  intros Hamm Hq Hg Hr.
  unfold get_tx_cost_in_asset, get_resulting_price_for_amount.
  unfold bind at 1. rewrite call_eq, Hq. cbn [fst snd]. rewrite Hamm.
  unfold bind at 1. rewrite call_eq. cbn [world]. rewrite Hg. cbn [fst snd].
  unfold bind at 1. rewrite call_eq. cbn [world]. rewrite Hr. cbn [fst snd].
  reflexivity.
Qed.

(** The cost of one leg on an order-book venue: the connector's fee for a
    market order of that side and amount, taken as taker, expressed in the
    asset. *)
Lemma get_tx_cost_in_asset_order_book (s : System) (ex tp : string) (is_buy : bool)
    (amt : Decimal) (asset : string) (price : Decimal) (fee : Fee)
    (r : result Decimal) (w1 w2 w3 : World) :
  is_amm ex = false ->
  get_quote_price ex tp is_buy amt (world s) = (Ok price, w1) ->
  get_fee ex asset asset MARKET (if is_buy then BUY else SELL) amt price false w1
  = (Ok fee, w2) ->
  fee_amount_in_token fee tp price amt asset ex w2 = (r, w3) ->
  get_tx_cost_in_asset ex tp is_buy amt asset s = (r, with_world w3 s).
Proof.
  intros Hamm Hq Hf Hr.
  unfold get_tx_cost_in_asset, get_resulting_price_for_amount.
  unfold bind at 1. rewrite call_eq, Hq. cbn [fst snd]. rewrite Hamm.
  unfold bind at 1. rewrite call_eq. cbn [world]. rewrite Hf. cbn [fst snd].
  rewrite call_eq. cbn [world]. rewrite Hr. reflexivity.
Qed.

Lemma get_tx_cost_pct_legs (s s1 s2 : System) (base quote : string)
    (buy_fee sell_fee : Decimal) :
  split_hb_trading_pair (trading_pair (buying_market (self s))) = Ok (base, quote) ->
  get_tx_cost_in_asset (exchange (buying_market (self s)))
    (trading_pair (buying_market (self s))) true (order_amount (self s)) base s
  = (Ok buy_fee, s1) ->
  get_tx_cost_in_asset (exchange (selling_market (self s)))
    (trading_pair (selling_market (self s))) false (order_amount (self s)) base s1
  = (Ok sell_fee, s2) ->
  get_tx_cost_pct s
  = (Decimal_div (buy_fee + sell_fee)%dec (order_amount (self s)),
     with_self (set_last_tx_cost (buy_fee + sell_fee)%dec) s2).
Proof.
  intros Hsp Hb Hs.
  pose proof (preserves_get_tx_cost_in_asset (fun e _ _ => e)
                (exchange (buying_market (self s)))
                (trading_pair (buying_market (self s))) true
                (order_amount (self s)) base s) as P1.
  unfold state_after in P1. rewrite Hb in P1. cbn [snd] in P1.
  unfold get_tx_cost_pct.
  unfold bind at 1, get at 1. unfold bind at 1, lift_result at 1. rewrite Hsp.
  unfold bind at 1, get at 1. unfold bind at 1. rewrite Hb.
  unfold bind at 1, get at 1. rewrite P1. unfold bind at 1. rewrite Hs.
  pose proof (preserves_get_tx_cost_in_asset (fun e _ _ => e)
                (exchange (selling_market (self s)))
                (trading_pair (selling_market (self s))) false
                (order_amount (self s)) base s1) as P2.
  unfold state_after in P2. rewrite Hs in P2. cbn [snd] in P2.
  unfold bind, modify, lift_result. cbn [self]. reflexivity.
Qed.

(** C7, amended. Each leg's cost is computed for the base asset of the
    buying pair: on an automated-market-maker venue the gas fee amount
    divided by the rate the oracle gives for base and gas token, on an
    order-book venue the connector's taker fee expressed in the base asset.
    The sum of the buy-leg and sell-leg costs is recorded as the last
    observed transaction cost, in base-asset terms, and the sum divided by
    the order amount is returned. *)
Theorem get_tx_cost_pct_spec (s s1 s2 : System) (base quote : string)
    (buy_fee sell_fee : Decimal) :
  split_hb_trading_pair (trading_pair (buying_market (self s))) = Ok (base, quote) ->
  get_tx_cost_in_asset (exchange (buying_market (self s)))
    (trading_pair (buying_market (self s))) true (order_amount (self s)) base s
  = (Ok buy_fee, s1) ->
  get_tx_cost_in_asset (exchange (selling_market (self s)))
    (trading_pair (selling_market (self s))) false (order_amount (self s)) base s1
  = (Ok sell_fee, s2) ->
  order_amount (self s) <> 0%Qc ->
  (outcome get_tx_cost_pct s = Ok ((buy_fee + sell_fee) / order_amount (self s))%dec
   /\ _last_tx_cost (self (state_after get_tx_cost_pct s))
      = Some (buy_fee + sell_fee)%dec)
  /\ (forall t ex tp is_buy price gas rate w1 w2 w3,
        is_amm ex = true ->
        get_quote_price ex tp is_buy (order_amount (self s)) (world t) = (Ok price, w1) ->
        network_transaction_fee ex w1 = (Ok gas, w2) ->
        get_pair_rate (base ++ "-" ++ token gas) w2 = (Ok rate, w3) ->
        rate <> 0%Qc ->
        outcome (get_tx_cost_in_asset ex tp is_buy (order_amount (self s)) base) t
        = Ok (amount gas / rate)%dec)
  /\ (forall t ex tp is_buy price fee cost w1 w2 w3,
        is_amm ex = false ->
        get_quote_price ex tp is_buy (order_amount (self s)) (world t) = (Ok price, w1) ->
        get_fee ex base base MARKET (if is_buy then BUY else SELL)
          (order_amount (self s)) price false w1 = (Ok fee, w2) ->
        fee_amount_in_token fee tp price (order_amount (self s)) base ex w2
        = (Ok cost, w3) ->
        outcome (get_tx_cost_in_asset ex tp is_buy (order_amount (self s)) base) t
        = Ok cost).
Proof.
  intros Hsp Hb Hs Hamt. split; [|split].
  - unfold outcome, state_after.
    rewrite (get_tx_cost_pct_legs s s1 s2 base quote buy_fee sell_fee Hsp Hb Hs).
    split; [|reflexivity]. cbn [fst]. apply Decimal_div_nonzero. exact Hamt.
  - intros t ex tp is_buy price gas rate w1 w2 w3 Hamm Hq Hg Hr Hrate.
    unfold outcome.
    rewrite (get_tx_cost_in_asset_amm t ex tp is_buy _ base price rate gas
               w1 w2 w3 Hamm Hq Hg Hr).
    cbn [fst]. apply Decimal_div_nonzero. exact Hrate.
  - intros t ex tp is_buy price fee cost w1 w2 w3 Hamm Hq Hf Hr.
    unfold outcome.
    rewrite (get_tx_cost_in_asset_order_book t ex tp is_buy _ base price fee
               (Ok cost) w1 w2 w3 Hamm Hq Hf Hr).
    reflexivity.
Qed.

(** ** The status report *)

Arguments status_text : simpl never.
Arguments profit_text : simpl never.
Arguments join : simpl never.
Arguments extend : simpl never.

Lemma list_ascii_of_string_app (a b : string) :
  list_ascii_of_string (a ++ b)
  = (list_ascii_of_string a ++ list_ascii_of_string b)%list.
Proof. induction a as [|c a IH]; simpl; [reflexivity|]. now rewrite IH. Qed.

Lemma extend_nil (text : string) : extend [] text = chars text.
Proof. reflexivity. Qed.

Lemma extend_chars (a b : string) : extend (chars a) b = chars (a ++ b).
Proof.
  unfold extend, chars. rewrite list_ascii_of_string_app, map_app. reflexivity.
Qed.

Lemma chars_cons (c : ascii) (t : string) :
  chars (String c t) = String c EmptyString :: chars t.
Proof. reflexivity. Qed.

Lemma join_chars_cons2 (c c' : ascii) (t : string) :
  join nl (chars (String c (String c' t)))
  = String c (String (ascii_of_nat 10) (join nl (chars (String c' t)))).
Proof. reflexivity. Qed.

(** Joining the characters of a text with newlines puts a newline at
    every odd position. *)
Lemma join_chars_odd (t : string) (i : nat) :
  Nat.odd i = true ->
  (i < String.length (join nl (chars t)))%nat ->
  String.get i (join nl (chars t)) = Some (ascii_of_nat 10).
Proof.
  revert i. induction t as [|c t IH]; intros i Hodd Hlt.
  - simpl in Hlt. lia.
  - destruct t as [|c' t].
    + simpl in Hlt. destruct i as [|i]; [discriminate|]. lia.
    + rewrite join_chars_cons2 in *.
      destruct i as [|[|i]].
      * discriminate.
      * reflexivity.
      * cbn [String.get String.length] in *.
        apply IH; [|lia].
        change (Nat.odd (S (S i))) with (Nat.odd i) in Hodd. exact Hodd.
Qed.

(** What [to_format_status] returns when it returns: the report text, with
    the total-profit lines only in Completed, one character per line. *)
Lemma to_format_status_Ok (s : System) (out : string) :
  outcome to_format_status s = Ok out ->
  exists buy sell trade tx cost base quote tail,
    _last_buy_price (self s) = Some buy
    /\ _last_sell_price (self s) = Some sell
    /\ Decimal_div (sell - buy)%dec buy = Ok trade
    /\ _last_tx_cost (self s) = Some tx
    /\ Decimal_div tx (order_amount (self s)) = Ok cost
    /\ split_hb_trading_pair (trading_pair (buying_market (self s))) = Ok (base, quote)
    /\ match arbitrage_status (self s) with
       | COMPLETED =>
           exists pct pnl,
             outcome net_pnl_pct s = Ok pct /\ outcome net_pnl s = Ok pnl
             /\ tail = profit_text quote pct pnl
       | _ => tail = EmptyString
       end
    /\ out = join nl (chars (status_text (self s) buy sell trade cost ++ tail)).
Proof.
  unfold outcome, to_format_status. unfold_m. intros H. simpl in H.
  destruct (_last_sell_price (self s)) as [sell|] eqn:Hsell; [|discriminate].
  simpl in H.
  destruct (_last_buy_price (self s)) as [buy|] eqn:Hbuy; [|discriminate].
  simpl in H.
  destruct (Decimal_div (sell - buy) buy) as [trade|] eqn:Ht; [|discriminate].
  simpl in H.
  destruct (_last_tx_cost (self s)) as [tx|] eqn:Htx; [|discriminate].
  simpl in H.
  destruct (Decimal_div tx (order_amount (self s))) as [cost|] eqn:Hc;
    [|discriminate].
  simpl in H.
  destruct (split_hb_trading_pair _) as [[base quote]|] eqn:Hsp; [|discriminate].
  simpl in H.
  assert (Hempty : forall t : string, (t ++ EmptyString)%string = t).
  { induction t as [|c t IH]; simpl; [reflexivity|now rewrite IH]. }
  exists buy, sell, trade, tx, cost, base, quote.
  destruct (arbitrage_status (self s)) eqn:Hst.
  1,2,4: exists EmptyString; injection H as <-;
    rewrite Hempty, extend_nil; repeat split; assumption.
  pose proof (net_pnl_pct_pure s) as Pp. unfold state_after in Pp.
  destruct (net_pnl_pct s) as [[pct|e] s1] eqn:Hpct; simpl in Pp; subst s1;
    [|discriminate].
  pose proof (net_pnl_pure s) as Pn. unfold state_after in Pn.
  destruct (net_pnl s) as [[pnl|e] s1] eqn:Hpnl; simpl in Pn; subst s1;
    [|discriminate].
  exists (profit_text quote pct pnl). injection H as <-.
  rewrite extend_nil, extend_chars.
  repeat split; try assumption.
  exists pct, pnl. repeat split; reflexivity.
Qed.

(** Every second character of a returned report is a newline. *)
Lemma to_format_status_one_character_per_line (s : System) (out : string) (i : nat) :
  outcome to_format_status s = Ok out ->
  Nat.odd i = true ->
  (i < String.length out)%nat ->
  String.get i out = Some (ascii_of_nat 10).
Proof.
  intros Hout Hodd Hlt.
  destruct (to_format_status_Ok s out Hout)
    as (buy & sell & trade & tx & cost & base & quote & tail & _ & _ & _ & _ & _ & _ & _ & ->).
  apply join_chars_odd; assumption.
Qed.

(** ** The order-created notification, in full *)

Lemma process_order_created_event_buy (s : System) (ev : string) :
  order_id (_buy_order (self s)) = Some ev ->
  process_order_created_event ev s
  = (Ok tt,
     with_log INFO "Open Order Created"
       (with_self
          (fun e =>
             set_buy_order
               (set_order
                  (get_in_flight_order (exchange (buying_market (self s))) ev (world s))
                  (_buy_order e)) e) s)).
Proof.
  intros H. apply order_id_eqb_eq in H.
  unfold process_order_created_event. unfold bind at 1, get at 1. rewrite H.
  reflexivity.
Qed.

Lemma process_order_created_event_sell (s : System) (ev : string) :
  order_id (_buy_order (self s)) <> Some ev ->
  order_id (_sell_order (self s)) = Some ev ->
  process_order_created_event ev s
  = (Ok tt,
     with_self
       (fun e =>
          set_sell_order
            (set_order
               (get_in_flight_order (exchange (selling_market (self s))) ev (world s))
               (_sell_order e)) e)
       (with_log INFO "Close Order Created" s)).
Proof.
  intros Hb H. apply order_id_eqb_eq in H.
  unfold process_order_created_event. unfold bind at 1, get at 1.
  destruct (order_id_eqb (order_id (_buy_order (self s))) ev) eqn:E.
  - apply order_id_eqb_eq in E. contradiction.
  - unfold bind at 1, get at 1. rewrite H. reflexivity.
Qed.

Lemma process_order_created_event_other (s : System) (ev : string) :
  order_id (_buy_order (self s)) <> Some ev ->
  order_id (_sell_order (self s)) <> Some ev ->
  process_order_created_event ev s = (Ok tt, s).
Proof.
  intros Hb Hs.
  unfold process_order_created_event. unfold bind at 1, get at 1.
  destruct (order_id_eqb (order_id (_buy_order (self s))) ev) eqn:E.
  - apply order_id_eqb_eq in E. contradiction.
  - unfold bind at 1, get at 1.
    destruct (order_id_eqb (order_id (_sell_order (self s))) ev) eqn:E'.
    + apply order_id_eqb_eq in E'. contradiction.
    + reflexivity.
Qed.

(** The three cases of a notification. *)
Lemma notification_cases (s : System) (ev : string) :
  order_id (_buy_order (self s)) = Some ev
  \/ (order_id (_buy_order (self s)) <> Some ev
      /\ order_id (_sell_order (self s)) = Some ev)
  \/ (order_id (_buy_order (self s)) <> Some ev
      /\ order_id (_sell_order (self s)) <> Some ev).
Proof.
  destruct (option_string_dec (order_id (_buy_order (self s))) (Some ev)); [tauto|].
  destruct (option_string_dec (order_id (_sell_order (self s))) (Some ev)); tauto.
Qed.

(** X1. An order-created notification for the buy leg attaches to that leg
    whatever the buying venue's order tracker holds under the identifier
    (possibly nothing) and logs "Open Order Created"; one for the sell leg
    only does the same with the selling venue and "Close Order Created".
    The other leg is untouched. *)
Theorem process_order_created_event_attaches (s : System) (ev : string) :
  let s' := state_after (process_order_created_event ev) s in
  (order_id (_buy_order (self s)) = Some ev ->
     _buy_order (self s')
     = {| order_id := Some ev;
          order := get_in_flight_order (exchange (buying_market (self s))) ev (world s) |}
     /\ _sell_order (self s') = _sell_order (self s)
     /\ log s' = (log s ++ [(INFO, "Open Order Created")])%list)
  /\ (order_id (_buy_order (self s)) <> Some ev ->
      order_id (_sell_order (self s)) = Some ev ->
     _sell_order (self s')
     = {| order_id := Some ev;
          order := get_in_flight_order (exchange (selling_market (self s))) ev (world s) |}
     /\ _buy_order (self s') = _buy_order (self s)
     /\ log s' = (log s ++ [(INFO, "Close Order Created")])%list).
Proof.
  cbv zeta. unfold state_after. split.
  - intros Hb. rewrite (process_order_created_event_buy s ev Hb). simpl.
    unfold set_order. rewrite Hb. repeat split.
  - intros Hb Hs. rewrite (process_order_created_event_sell s ev Hb Hs). simpl.
    unfold set_order. rewrite Hs. repeat split.
Qed.

Lemma process_order_created_event_state (s : System) (ev : string) :
  let s' := state_after (process_order_created_event ev) s in
  exists bo so,
    self s' = set_sell_order (set_order so (_sell_order (self s)))
                (set_buy_order (set_order bo (_buy_order (self s))) (self s))
    /\ (order_id (_buy_order (self s)) = None -> bo = order (_buy_order (self s)))
    /\ (order_id (_sell_order (self s)) = None -> so = order (_sell_order (self s)))
    /\ orders_sent s' = orders_sent s.
Proof.
  cbv zeta. unfold state_after.
  assert (Hb0 : set_order (order (_buy_order (self s))) (_buy_order (self s))
                = _buy_order (self s)) by (destruct (_buy_order (self s)); reflexivity).
  assert (Hs0 : set_order (order (_sell_order (self s))) (_sell_order (self s))
                = _sell_order (self s)) by (destruct (_sell_order (self s)); reflexivity).
  assert (Hid : set_sell_order (_sell_order (self s))
                  (set_buy_order (_buy_order (self s)) (self s)) = self s)
    by (destruct (self s); reflexivity).
  destruct (notification_cases s ev) as [Hb|[[Hb Hs]|[Hb Hs]]].
  - rewrite (process_order_created_event_buy s ev Hb).
    exists (get_in_flight_order (exchange (buying_market (self s))) ev (world s)),
      (order (_sell_order (self s))).
    cbn [snd with_log with_self self orders_sent]. rewrite Hs0.
    repeat split; congruence.
  - rewrite (process_order_created_event_sell s ev Hb Hs).
    exists (order (_buy_order (self s))),
      (get_in_flight_order (exchange (selling_market (self s))) ev (world s)).
    cbn [snd with_log with_self self orders_sent]. rewrite Hb0.
    repeat split; congruence.
  - rewrite (process_order_created_event_other s ev Hb Hs).
    exists (order (_buy_order (self s))), (order (_sell_order (self s))).
    cbn [snd]. rewrite Hb0, Hs0, Hid. repeat split.
Qed.

(** X2. Whatever the notification, the order-created handler returns
    normally and changes neither the status, the failure count, the stop
    flag, the configuration, the last observations, the order identifiers
    of the legs, the world nor the orders sent. *)
Theorem process_order_created_event_frame (s : System) (ev : string) :
  let s' := state_after (process_order_created_event ev) s in
  outcome (process_order_created_event ev) s = Ok tt
  /\ arbitrage_status (self s') = arbitrage_status (self s)
  /\ _cumulative_failures (self s') = _cumulative_failures (self s)
  /\ terminated (self s') = terminated (self s)
  /\ config_of (self s') = config_of (self s)
  /\ (_last_buy_price (self s'), _last_sell_price (self s'), _last_tx_cost (self s'))
     = (_last_buy_price (self s), _last_sell_price (self s), _last_tx_cost (self s))
  /\ order_id (_buy_order (self s')) = order_id (_buy_order (self s))
  /\ order_id (_sell_order (self s')) = order_id (_sell_order (self s))
  /\ world s' = world s
  /\ orders_sent s' = orders_sent s.
Proof.
  cbv zeta. unfold outcome, state_after.
  destruct (notification_cases s ev) as [Hb|[[Hb Hs]|[Hb Hs]]].
  - rewrite (process_order_created_event_buy s ev Hb). repeat split.
  - rewrite (process_order_created_event_sell s ev Hb Hs). repeat split.
  - rewrite (process_order_created_event_other s ev Hb Hs). repeat split.
Qed.

(** X3. A notification whose identifier is neither leg's is ignored by
    both handlers: nothing changes, nothing is resubmitted or counted.  A
    freshly built run, whose legs carry no identifier yet, ignores every
    notification. *)
Theorem unmatched_notification_ignored (s : System) (ev : string) :
  (order_id (_buy_order (self s)) <> Some ev ->
   order_id (_sell_order (self s)) <> Some ev ->
   process_order_created_event ev s = (Ok tt, s)
   /\ process_order_failed_event ev s = (Ok tt, s))
  /\ (forall arbitrage_config w,
        process_order_created_event ev (launch arbitrage_config w)
        = (Ok tt, launch arbitrage_config w)
        /\ process_order_failed_event ev (launch arbitrage_config w)
           = (Ok tt, launch arbitrage_config w)).
Proof.
  split.
  - intros Hb Hs. split.
    + apply process_order_created_event_other; assumption.
    + apply process_order_failed_event_other; assumption.
  - intros cfg w. split; reflexivity.
Qed.

(** ** The step once the run has started *)

Lemma check_order_status_cases (s : System) :
  check_order_status s
  = match order (_buy_order (self s)) with
    | None => (Raise AttributeError, s)
    | Some bo =>
        if is_filled (read_order bo (world s)) then
          match order (_sell_order (self s)) with
          | None => (Raise AttributeError, s)
          | Some so =>
              if is_filled (read_order so (world s))
              then (Ok tt,
                    with_self (fun e => set_terminated (set_arbitrage_status COMPLETED e)) s)
              else (Ok tt, s)
          end
        else (Ok tt, s)
    end.
Proof.
  unfold check_order_status. unfold_m. simpl.
  destruct (order (_buy_order (self s))) as [bo|]; [|reflexivity]. simpl.
  destruct (is_filled (read_order bo (world s))); [|reflexivity]. simpl.
  destruct (order (_sell_order (self s))) as [so|]; [|reflexivity]. simpl.
  destruct (is_filled (read_order so (world s))); reflexivity.
Qed.

Lemma control_task_terminal (s : System) :
  terminal (arbitrage_status (self s)) = true -> control_task s = (Ok tt, s).
Proof.
  intros H. unfold control_task, bind, get, ret.
  destruct (arbitrage_status (self s)); try discriminate; reflexivity.
Qed.

(** X4. In ActiveArbitrage with the retry budget not exceeded, a step
    raises AttributeError, leaving everything as it was, when the buy leg
    has no acknowledged order yet, or when the buy leg is filled and the
    sell leg has no acknowledged order; when the buy leg is acknowledged
    and not filled the sell leg is not looked at and the step does
    nothing. *)
Theorem control_task_unacknowledged (s : System) :
  arbitrage_status (self s) = ACTIVE_ARBITRAGE ->
  (_cumulative_failures (self s) <= max_retries (self s))%Z ->
  (order (_buy_order (self s)) = None ->
     control_task s = (Raise AttributeError, s))
  /\ (forall bo,
        order (_buy_order (self s)) = Some bo ->
        is_filled (read_order bo (world s)) = true ->
        order (_sell_order (self s)) = None ->
        control_task s = (Raise AttributeError, s))
  /\ (forall bo,
        order (_buy_order (self s)) = Some bo ->
        is_filled (read_order bo (world s)) = false ->
        control_task s = (Ok tt, s)).
Proof.
  intros Hst Hle.
  rewrite (control_task_active_unfold s Hst).
  assert (Hgt : (_cumulative_failures (self s) >? max_retries (self s))%Z = false)
    by (rewrite Z.gtb_ltb; apply Z.ltb_ge; exact Hle).
  rewrite Hgt, check_order_status_cases.
  split; [|split].
  - intros ->. reflexivity.
  - intros bo -> -> ->. reflexivity.
  - intros bo -> ->. reflexivity.
Qed.

(** X5. Only in NotStarted does a step talk to the venues: in every other
    status it leaves the world, the orders sent, the log, both legs, the
    failure count, the configuration and the last observations as they
    were, whether it returns or raises. *)
Theorem control_task_started_frame (s : System) :
  arbitrage_status (self s) <> NOT_STARTED ->
  let s' := state_after control_task s in
  world s' = world s
  /\ orders_sent s' = orders_sent s
  /\ log s' = log s
  /\ _buy_order (self s') = _buy_order (self s)
  /\ _sell_order (self s') = _sell_order (self s)
  /\ _cumulative_failures (self s') = _cumulative_failures (self s)
  /\ config_of (self s') = config_of (self s)
  /\ (_last_buy_price (self s'), _last_sell_price (self s'), _last_tx_cost (self s'))
     = (_last_buy_price (self s), _last_sell_price (self s), _last_tx_cost (self s)).
Proof.
  intros Hns. cbv zeta. unfold state_after.
  destruct (arbitrage_status (self s)) eqn:Hst.
  - contradiction.
  - rewrite (control_task_active_unfold s Hst), check_order_status_cases.
    destruct (_ >? _)%Z; [repeat split|].
    destruct (order (_buy_order (self s))) as [bo|]; [|repeat split].
    destruct (is_filled (read_order bo (world s))); [|repeat split].
    destruct (order (_sell_order (self s))) as [so|]; [|repeat split].
    destruct (is_filled (read_order so (world s))); repeat split.
  - rewrite (control_task_terminal s) by (rewrite Hst; reflexivity).
    repeat split.
  - rewrite (control_task_terminal s) by (rewrite Hst; reflexivity).
    repeat split.
Qed.

(** ** Edge behaviour of the profitability evaluator *)

(** X6. Once both quotes are in, [get_trade_pnl_pct] records them as the
    last observed prices before it divides: they are recorded also when
    the division raises.  A zero buy price raises DivisionByZero, or
    InvalidOperation when the sell price is zero too. *)
Theorem get_trade_pnl_pct_records (s s1 : System) (b sl : Decimal) :
  get_buy_and_sell_prices s = (Ok (b, sl), s1) ->
  let s' := state_after get_trade_pnl_pct s in
  s' = with_self (set_last_prices b sl) s1
  /\ _last_buy_price (self s') = Some b
  /\ _last_sell_price (self s') = Some sl
  /\ (b <> 0%Qc -> outcome get_trade_pnl_pct s = Ok ((sl - b) / b)%dec)
  /\ (b = 0%Qc -> sl <> 0%Qc -> outcome get_trade_pnl_pct s = Raise DivisionByZero)
  /\ (b = 0%Qc -> sl = 0%Qc -> outcome get_trade_pnl_pct s = Raise InvalidOperation).
Proof.
  intros Hq. cbv zeta.
  assert (E : get_trade_pnl_pct s
              = (Decimal_div (sl - b) b, with_self (set_last_prices b sl) s1)).
  { unfold get_trade_pnl_pct. unfold bind at 1. rewrite Hq. reflexivity. }
  unfold state_after, outcome. rewrite E. cbn [fst snd].
  split; [reflexivity|]. split; [reflexivity|]. split; [reflexivity|].
  split; [|split].
  - intros Hb. apply Decimal_div_nonzero. exact Hb.
  - intros -> Hs. unfold Decimal_div.
    replace (Decimal_eqb 0 0) with true by reflexivity.
    destruct (Decimal_eqb (sl - 0) 0) eqn:E0; [|reflexivity].
    apply Decimal_eqb_eq in E0. apply -> Decimal_sub_zero in E0. contradiction.
  - intros -> ->. unfold Decimal_div.
    replace (Decimal_eqb 0 0) with true by reflexivity.
    replace (Decimal_eqb (0 - 0) 0) with true; [reflexivity|].
    symmetry. apply Decimal_eqb_eq. apply <- Decimal_sub_zero. reflexivity.
Qed.

(** When the quotes fail, the last observed prices stay as they were. *)
Lemma get_trade_pnl_pct_quote_error (s s1 : System) (e : exn) :
  get_buy_and_sell_prices s = (Raise e, s1) ->
  get_trade_pnl_pct s = (Raise e, s1) /\ self s1 = self s.
Proof.
  intros Hq. split.
  - unfold get_trade_pnl_pct. unfold bind at 1. rewrite Hq. reflexivity.
  - pose proof (preserves_get_buy_and_sell_prices (fun e _ _ => e) s) as P.
    unfold state_after in P. rewrite Hq in P. exact P.
Qed.

Lemma get_tx_cost_in_asset_self (s : System) ex tp is_buy amt asset :
  self (state_after (get_tx_cost_in_asset ex tp is_buy amt asset) s) = self s
  /\ orders_sent (state_after (get_tx_cost_in_asset ex tp is_buy amt asset) s)
     = orders_sent s
  /\ log (state_after (get_tx_cost_in_asset ex tp is_buy amt asset) s) = log s.
Proof.
  pose proof (preserves_get_tx_cost_in_asset (fun e o l => (e, o, l))
                ex tp is_buy amt asset s) as P.
  cbv beta in P.
  split; [exact (f_equal (fun t => fst (fst t)) P)|].
  split; [exact (f_equal (fun t => snd (fst t)) P)|exact (f_equal snd P)].
Qed.

Lemma get_tx_cost_pct_split_error (s : System) (e : exn) :
  split_hb_trading_pair (trading_pair (buying_market (self s))) = Raise e ->
  get_tx_cost_pct s = (Raise e, s) /\ True.
Proof.
  intros Hsp. split; [|exact I]. unfold get_tx_cost_pct.
  unfold bind at 1, get at 1. unfold bind at 1, lift_result at 1.
  rewrite Hsp. reflexivity.
Qed.

(** X7. [get_tx_cost_pct] records the total cost only after both leg costs
    are in.  A malformed trading pair raises before any venue is asked; a
    failing buy leg raises before the sell leg is asked; in both cases and
    when the sell leg fails the recorded cost is left alone.  With a zero
    order amount the total is recorded and the division raises. *)
Theorem get_tx_cost_pct_errors (s : System) :
  let buying := buying_market (self s) in
  let selling := selling_market (self s) in
  let amount := order_amount (self s) in
  (forall e,
      split_hb_trading_pair (trading_pair buying) = Raise e ->
      get_tx_cost_pct s = (Raise e, s))
  /\ (forall base quote e s1,
        split_hb_trading_pair (trading_pair buying) = Ok (base, quote) ->
        get_tx_cost_in_asset (exchange buying) (trading_pair buying) true amount base s
        = (Raise e, s1) ->
        get_tx_cost_pct s = (Raise e, s1) /\ self s1 = self s)
  /\ (forall base quote e buy_fee s1 s2,
        split_hb_trading_pair (trading_pair buying) = Ok (base, quote) ->
        get_tx_cost_in_asset (exchange buying) (trading_pair buying) true amount base s
        = (Ok buy_fee, s1) ->
        get_tx_cost_in_asset (exchange selling) (trading_pair selling) false amount base s1
        = (Raise e, s2) ->
        get_tx_cost_pct s = (Raise e, s2) /\ self s2 = self s)
  /\ (forall base quote buy_fee sell_fee s1 s2,
        split_hb_trading_pair (trading_pair buying) = Ok (base, quote) ->
        get_tx_cost_in_asset (exchange buying) (trading_pair buying) true amount base s
        = (Ok buy_fee, s1) ->
        get_tx_cost_in_asset (exchange selling) (trading_pair selling) false amount base s1
        = (Ok sell_fee, s2) ->
        amount = 0%Qc ->
        _last_tx_cost (self (state_after get_tx_cost_pct s))
        = Some (buy_fee + sell_fee)%dec
        /\ exists e, outcome get_tx_cost_pct s = Raise e
                     /\ (e = DivisionByZero \/ e = InvalidOperation)).
Proof.
  cbv zeta. split; [|split; [|split]].
  - intros e Hsp. unfold get_tx_cost_pct.
    unfold bind at 1, get at 1. unfold bind at 1, lift_result at 1.
    rewrite Hsp. reflexivity.
  - intros base quote e s1 Hsp Hb.
    destruct (get_tx_cost_in_asset_self s (exchange (buying_market (self s)))
                (trading_pair (buying_market (self s))) true
                (order_amount (self s)) base) as (P & _).
    unfold state_after in P. rewrite Hb in P. split; [|exact P].
    unfold get_tx_cost_pct.
    unfold bind at 1, get at 1. unfold bind at 1, lift_result at 1. rewrite Hsp.
    unfold bind at 1, get at 1. unfold bind at 1. rewrite Hb. reflexivity.
  - intros base quote e buy_fee s1 s2 Hsp Hb Hs.
    destruct (get_tx_cost_in_asset_self s (exchange (buying_market (self s)))
                (trading_pair (buying_market (self s))) true
                (order_amount (self s)) base) as (P1 & _).
    unfold state_after in P1. rewrite Hb in P1. cbn [snd] in P1.
    destruct (get_tx_cost_in_asset_self s1 (exchange (selling_market (self s)))
                (trading_pair (selling_market (self s))) false
                (order_amount (self s)) base) as (P2 & _).
    unfold state_after in P2. rewrite Hs in P2. cbn [snd] in P2.
    split; [|congruence].
    unfold get_tx_cost_pct.
    unfold bind at 1, get at 1. unfold bind at 1, lift_result at 1. rewrite Hsp.
    unfold bind at 1, get at 1. unfold bind at 1. rewrite Hb.
    unfold bind at 1, get at 1. rewrite P1. unfold bind at 1. rewrite Hs.
    reflexivity.
  - intros base quote buy_fee sell_fee s1 s2 Hsp Hb Hs Hz.
    unfold state_after, outcome.
    rewrite (get_tx_cost_pct_legs s s1 s2 base quote buy_fee sell_fee Hsp Hb Hs).
    cbn [fst snd]. split; [reflexivity|].
    rewrite Hz. unfold Decimal_div.
    replace (Decimal_eqb 0 0) with true by reflexivity.
    destruct (Decimal_eqb (buy_fee + sell_fee) 0); eauto.
Qed.

(** X8. The cost of a leg starts with a quote request: when that fails
    its error is the result and no fee, gas price or rate is consulted.
    On a gateway venue an unavailable rate raises the oracle's error and a
    zero rate raises DivisionByZero (InvalidOperation for a zero gas
    amount).  Whatever happens, the executor, the orders sent and the log
    are untouched. *)
Theorem get_tx_cost_in_asset_errors (s : System) (ex tp : string) (is_buy : bool)
    (amt : Decimal) (asset : string) :
  (forall e w1,
      get_quote_price ex tp is_buy amt (world s) = (Raise e, w1) ->
      get_tx_cost_in_asset ex tp is_buy amt asset s = (Raise e, with_world w1 s))
  /\ (forall price gas e w1 w2 w3,
        is_amm ex = true ->
        get_quote_price ex tp is_buy amt (world s) = (Ok price, w1) ->
        network_transaction_fee ex w1 = (Ok gas, w2) ->
        get_pair_rate (asset ++ "-" ++ token gas) w2 = (Raise e, w3) ->
        get_tx_cost_in_asset ex tp is_buy amt asset s = (Raise e, with_world w3 s))
  /\ (forall price gas w1 w2 w3,
        is_amm ex = true ->
        get_quote_price ex tp is_buy amt (world s) = (Ok price, w1) ->
        network_transaction_fee ex w1 = (Ok gas, w2) ->
        get_pair_rate (asset ++ "-" ++ token gas) w2 = (Ok 0%Qc, w3) ->
        outcome (get_tx_cost_in_asset ex tp is_buy amt asset) s
        = Raise (if Decimal_eqb (amount gas) 0 then InvalidOperation
                 else DivisionByZero))
  /\ self (state_after (get_tx_cost_in_asset ex tp is_buy amt asset) s) = self s
  /\ orders_sent (state_after (get_tx_cost_in_asset ex tp is_buy amt asset) s)
     = orders_sent s
  /\ log (state_after (get_tx_cost_in_asset ex tp is_buy amt asset) s) = log s.
Proof.
  split; [|split; [|split]].
  - intros e w1 Hq.
    unfold get_tx_cost_in_asset, get_resulting_price_for_amount.
    unfold bind at 1. rewrite call_eq, Hq. reflexivity.
  - intros price gas e w1 w2 w3 Hamm Hq Hg Hr.
    unfold get_tx_cost_in_asset, get_resulting_price_for_amount.
    unfold bind at 1. rewrite call_eq, Hq. cbn [fst snd]. rewrite Hamm.
    unfold bind at 1. rewrite call_eq. cbn [world]. rewrite Hg. cbn [fst snd].
    unfold bind at 1. rewrite call_eq. cbn [world]. rewrite Hr. reflexivity.
  - intros price gas w1 w2 w3 Hamm Hq Hg Hr. unfold outcome.
    rewrite (get_tx_cost_in_asset_amm s ex tp is_buy amt asset price 0%Qc gas
               w1 w2 w3 Hamm Hq Hg Hr).
    cbn [fst]. unfold Decimal_div.
    replace (Decimal_eqb 0 0) with true by reflexivity.
    destruct (Decimal_eqb (amount gas) 0); reflexivity.
  - apply get_tx_cost_in_asset_self.
Qed.

(** ** The read-outs *)

(** X9. Reading the profit or the status report never changes anything,
    whether the read-out returns or raises. *)
Theorem readouts_change_nothing (s : System) :
  state_after net_pnl s = s
  /\ state_after net_pnl_pct s = s
  /\ state_after to_format_status s = s.
Proof.
  split; [apply net_pnl_pure|]. split; [apply net_pnl_pct_pure|].
  apply to_format_status_pure.
Qed.

Lemma Decimal_div_zero (x : Decimal) :
  exists e, Decimal_div x 0%Qc = Raise e /\ (e = DivisionByZero \/ e = InvalidOperation).
Proof.
  unfold Decimal_div. replace (Decimal_eqb 0 0) with true by reflexivity.
  destruct (Decimal_eqb x 0); eauto.
Qed.

Lemma to_format_status_head (s : System) :
  outcome to_format_status s
  = match _last_sell_price (self s), _last_buy_price (self s) with
    | Some sl, Some b =>
        match Decimal_div (sl - b)%dec b with
        | Ok trade =>
            match _last_tx_cost (self s) with
            | Some tx =>
                match Decimal_div tx (order_amount (self s)) with
                | Ok cost =>
                    outcome
                      (bind (lift_result
                               (split_hb_trading_pair
                                  (trading_pair (buying_market (self s)))))
                         (fun bq =>
                            match arbitrage_status (self s) with
                            | COMPLETED =>
                                bind net_pnl_pct (fun pct =>
                                bind net_pnl (fun pnl =>
                                ret (join nl
                                       (extend
                                          (extend []
                                             (status_text (self s) b sl trade cost))
                                          (profit_text (snd bq) pct pnl)))))
                            | _ =>
                                ret (join nl
                                       (extend []
                                          (status_text (self s) b sl trade cost)))
                            end)) s
                | Raise e => Raise e
                end
            | None => Raise TypeError
            end
        | Raise e => Raise e
        end
    | _, _ => Raise TypeError
    end.
Proof.
  unfold outcome, to_format_status. unfold_m. simpl.
  destruct (_last_sell_price (self s)) as [sl|]; simpl.
  2: destruct (_last_buy_price (self s)); reflexivity.
  destruct (_last_buy_price (self s)) as [b|]; simpl; [|reflexivity].
  destruct (Decimal_div (sl - b) b) as [trade|]; simpl; [|reflexivity].
  destruct (_last_tx_cost (self s)) as [tx|]; simpl; [|reflexivity].
  destruct (Decimal_div tx (order_amount (self s))) as [cost|]; simpl;
    [|reflexivity].
  destruct (split_hb_trading_pair _) as [[base quote]|]; simpl; [|reflexivity].
  destruct (arbitrage_status (self s)); reflexivity.
Qed.

(** X10. The status report needs an evaluation to have run: it raises
    TypeError while a last observed price or the last observed cost is
    missing, as on a freshly built run, and an arithmetic error when the
    last buy price or the order amount is zero. *)
Theorem to_format_status_errors (s : System) :
  (_last_sell_price (self s) = None \/ _last_buy_price (self s) = None ->
   outcome to_format_status s = Raise TypeError)
  /\ (forall sl,
        _last_sell_price (self s) = Some sl ->
        _last_buy_price (self s) = Some 0%Qc ->
        exists e, outcome to_format_status s = Raise e
                  /\ (e = DivisionByZero \/ e = InvalidOperation))
  /\ (forall sl b,
        _last_sell_price (self s) = Some sl ->
        _last_buy_price (self s) = Some b ->
        b <> 0%Qc ->
        _last_tx_cost (self s) = None ->
        outcome to_format_status s = Raise TypeError)
  /\ (forall sl b tx,
        _last_sell_price (self s) = Some sl ->
        _last_buy_price (self s) = Some b ->
        b <> 0%Qc ->
        _last_tx_cost (self s) = Some tx ->
        order_amount (self s) = 0%Qc ->
        exists e, outcome to_format_status s = Raise e
                  /\ (e = DivisionByZero \/ e = InvalidOperation))
  /\ (forall arbitrage_config w,
        outcome to_format_status (launch arbitrage_config w) = Raise TypeError).
Proof.
  rewrite to_format_status_head.
  split; [|split; [|split; [|split]]].
  - intros [H|H]; rewrite H; [reflexivity|].
    destruct (_last_sell_price (self s)); reflexivity.
  - intros sl Hs Hb. rewrite Hs, Hb.
    destruct (Decimal_div_zero (sl - 0)%dec) as (e & He & Hk).
    exists e. rewrite He. split; [reflexivity|exact Hk].
  - intros sl b Hs Hb Hnz Ht. rewrite Hs, Hb, Ht.
    rewrite (Decimal_div_nonzero _ _ Hnz). reflexivity.
  - intros sl b tx Hs Hb Hnz Ht Hz. rewrite Hs, Hb, Ht, Hz.
    rewrite (Decimal_div_nonzero _ _ Hnz).
    destruct (Decimal_div_zero tx) as (e & He & Hk).
    exists e. rewrite He. split; [reflexivity|exact Hk].
  - intros cfg w. reflexivity.
Qed.

Lemma net_pnl_errors_aux (s : System) :
  arbitrage_status (self s) = COMPLETED ->
  order (_buy_order (self s)) = None \/ order (_sell_order (self s)) = None ->
  outcome net_pnl s = Raise AttributeError
  /\ outcome net_pnl_pct s = Raise AttributeError.
Proof.
  intros Hst Hnone.
  assert (E : net_pnl s = (Raise AttributeError, s)).
  { unfold net_pnl. unfold_m. rewrite Hst. simpl.
    destruct (order (_sell_order (self s))) as [so|]; simpl; [|reflexivity].
    destruct (order (_buy_order (self s))) as [bo|]; simpl; [|reflexivity].
    destruct Hnone; discriminate. }
  unfold outcome. rewrite E. split; [reflexivity|].
  unfold net_pnl_pct. unfold bind at 1, get at 1. rewrite Hst.
  unfold bind at 1. rewrite E. reflexivity.
Qed.

(** X11. In Completed the profit read-outs need both legs' acknowledged
    orders: when either is missing [net_pnl] and [net_pnl_pct] raise
    AttributeError, and with a zero executed amount on the buy leg
    [net_pnl_pct] raises an arithmetic error. *)
Theorem net_pnl_errors (s : System) :
  arbitrage_status (self s) = COMPLETED ->
  (order (_buy_order (self s)) = None \/ order (_sell_order (self s)) = None ->
   outcome net_pnl s = Raise AttributeError
   /\ outcome net_pnl_pct s = Raise AttributeError)
  /\ (forall bo so,
        order (_buy_order (self s)) = Some bo ->
        order (_sell_order (self s)) = Some so ->
        executed_amount (read_order bo (world s)) = 0%Qc ->
        exists e, outcome net_pnl_pct s = Raise e
                  /\ (e = DivisionByZero \/ e = InvalidOperation)).
Proof.
  intros Hst. split.
  - apply net_pnl_errors_aux. exact Hst.
  - intros bo so Hb Hs Hz.
    pose proof (net_pnl_completed s bo so Hst Hb Hs) as Hp.
    unfold outcome. rewrite (net_pnl_pct_completed s bo _ Hst Hb Hp).
    cbn [fst]. rewrite Hz.
    destruct (Decimal_div_zero
                (executed_amount (read_order so (world s))
                 * average_price (read_order so (world s))
                 - 0 * average_price (read_order bo (world s))
                 - (cum_fee_quote (read_order bo (world s))
                    + cum_fee_quote (read_order so (world s))))%dec)
      as (e & He & Hk).
    exists e. split; assumption.
Qed.

(** X12. Right after the step that completes the run both legs' orders
    are present and filled, and [net_pnl] returns the realised profit of
    those two orders. *)
Theorem net_pnl_after_completion (s : System) :
  arbitrage_status (self s) = ACTIVE_ARBITRAGE ->
  arbitrage_status (self (state_after control_task s)) = COMPLETED ->
  exists bo so,
    order (_buy_order (self s)) = Some bo
    /\ order (_sell_order (self s)) = Some so
    /\ is_filled (read_order bo (world s)) = true
    /\ is_filled (read_order so (world s)) = true
    /\ outcome net_pnl (state_after control_task s)
       = Ok (executed_amount (read_order so (world s))
             * average_price (read_order so (world s))
             - executed_amount (read_order bo (world s))
               * average_price (read_order bo (world s))
             - (cum_fee_quote (read_order bo (world s))
                + cum_fee_quote (read_order so (world s))))%dec.
Proof.
  intros Hst Hc. unfold state_after in *.
  rewrite (control_task_active_unfold s Hst), check_order_status_cases in *.
  destruct (_ >? _)%Z; [discriminate Hc|].
  destruct (order (_buy_order (self s))) as [bo|] eqn:Hb; [|simpl in Hc; congruence].
  destruct (is_filled (read_order bo (world s))) eqn:Hbf; [|simpl in Hc; congruence].
  destruct (order (_sell_order (self s))) as [so|] eqn:Hs; [|simpl in Hc; congruence].
  destruct (is_filled (read_order so (world s))) eqn:Hsf; [|simpl in Hc; congruence].
  exists bo, so. repeat split; try assumption.
  unfold outcome.
  rewrite (net_pnl_completed _ bo so); [reflexivity|reflexivity|exact Hb|exact Hs].
Qed.

(** X13. A failure notification for a leg of a completed run resubmits
    the leg, whose order is then unacknowledged: the profit read-outs of
    the completed run raise AttributeError from then on. *)
Theorem failure_after_completion_breaks_pnl (s : System) (ev : string) :
  arbitrage_status (self s) = COMPLETED ->
  order_id (_buy_order (self s)) = Some ev
  \/ order_id (_sell_order (self s)) = Some ev ->
  let s' := state_after (process_order_failed_event ev) s in
  arbitrage_status (self s') = COMPLETED
  /\ outcome net_pnl s' = Raise AttributeError
  /\ outcome net_pnl_pct s' = Raise AttributeError.
Proof.
  intros Hst Hm. cbv zeta.
  assert (H : arbitrage_status
                (self (state_after (process_order_failed_event ev) s)) = COMPLETED
              /\ (order (_buy_order
                           (self (state_after (process_order_failed_event ev) s)))
                  = None
                  \/ order (_sell_order
                              (self (state_after (process_order_failed_event ev) s)))
                     = None)).
  { unfold state_after.
    destruct (notification_cases s ev) as [Hb|[[Hb Hs]|[Hb Hs]]].
    - rewrite (process_order_failed_event_buy s ev Hb).
      destruct (place_buy_arbitrage_order_spec s) as (_ & Hself & _).
      unfold with_self. cbn [snd self]. rewrite Hself. simpl. auto.
    - rewrite (process_order_failed_event_sell s ev Hb Hs).
      destruct (place_sell_arbitrage_order_spec s) as (_ & Hself & _).
      unfold with_self. cbn [snd self]. rewrite Hself. simpl. auto.
    - tauto. }
  destruct H as (Hst' & Hnone). split; [exact Hst'|].
  destruct (net_pnl_errors_aux _ Hst' Hnone) as (H1 & H2). split; assumption.
Qed.

(** ** Sequences of failure notifications *)

Lemma process_order_failed_event_buy_state (s : System) (ev : string) :
  order_id (_buy_order (self s)) = Some ev ->
  let s' := state_after (process_order_failed_event ev) s in
  self s'
  = count_failure
      (set_buy_order
         {| order_id := Some (fst (submit_order (buy_request (self s)) (world s)));
            order := None |} (self s))
  /\ world s' = snd (submit_order (buy_request (self s)) (world s))
  /\ orders_sent s' = (orders_sent s ++ [buy_request (self s)])%list
  /\ log s' = log s.
Proof.
  intros Hb. cbv zeta. unfold state_after.
  rewrite (process_order_failed_event_buy s ev Hb).
  destruct (place_buy_arbitrage_order_spec s) as (_ & Hs & Hw & Ho & Hl).
  unfold with_self. cbn [snd self world orders_sent log].
  rewrite Hs, Hw, Ho, Hl. repeat split.
Qed.

Lemma process_order_failed_event_sell_state (s : System) (ev : string) :
  order_id (_buy_order (self s)) <> Some ev ->
  order_id (_sell_order (self s)) = Some ev ->
  let s' := state_after (process_order_failed_event ev) s in
  self s'
  = count_failure
      (set_sell_order
         {| order_id := Some (fst (submit_order (sell_request (self s)) (world s)));
            order := None |} (self s))
  /\ world s' = snd (submit_order (sell_request (self s)) (world s))
  /\ orders_sent s' = (orders_sent s ++ [sell_request (self s)])%list
  /\ log s' = log s.
Proof.
  intros Hb Hsl. cbv zeta. unfold state_after.
  rewrite (process_order_failed_event_sell s ev Hb Hsl).
  destruct (place_sell_arbitrage_order_spec s) as (_ & Hs & Hw & Ho & Hl).
  unfold with_self. cbn [snd self world orders_sent log].
  rewrite Hs, Hw, Ho, Hl. repeat split.
Qed.

Lemma repeat_buy_failure_spec (n : nat) (s : System) :
  order_id (_buy_order (self s)) <> None ->
  let s' := repeat_buy_failure n s in
  _cumulative_failures (self s') = (_cumulative_failures (self s) + Z.of_nat n)%Z
  /\ orders_sent s' = (orders_sent s ++ repeat (buy_request (self s)) n)%list
  /\ arbitrage_status (self s') = arbitrage_status (self s)
  /\ max_retries (self s') = max_retries (self s)
  /\ _sell_order (self s') = _sell_order (self s)
  /\ buy_request (self s') = buy_request (self s)
  /\ order_id (_buy_order (self s')) <> None
  /\ order (_buy_order (self s')) = match n with O => order (_buy_order (self s))
                                             | S _ => None end.
Proof.
  intros Hid. induction n as [|n IH].
  - simpl. rewrite Z.add_0_r, app_nil_r. repeat split. exact Hid.
  - cbv zeta in *. cbn [repeat_buy_failure].
    destruct IH as (Hf & Ho & Hst & Hmr & Hsl & Hbr & Hid' & _).
    set (s1 := repeat_buy_failure n s) in *.
    destruct (order_id (_buy_order (self s1))) as [name|] eqn:Hname;
      [|congruence].
    destruct (process_order_failed_event_buy_state s1 name Hname)
      as (Hself & _ & Hord & _).
    rewrite Hself, Hord. simpl.
    rewrite Hf, Ho, Hst, Hmr, Hsl, Hbr.
    repeat split; try discriminate.
    + lia.
    + rewrite <- app_assoc. f_equal.
      change (buy_request (self s) :: repeat (buy_request (self s)) n)
        with (repeat (buy_request (self s)) (S n)).
      rewrite <- repeat_cons. reflexivity.
    + unfold buy_request in *. simpl. exact Hbr.
Qed.

(** X14. When the venue reports [n] failures of the buy leg in a row, each
    for the order just resubmitted, the run has counted [n] more failures
    and sent [n] more orders, all of them the same buy request; the status
    and the sell leg are as before. *)
Theorem repeated_buy_failures (n : nat) (s : System) :
  order_id (_buy_order (self s)) <> None ->
  let s' := repeat_buy_failure n s in
  _cumulative_failures (self s') = (_cumulative_failures (self s) + Z.of_nat n)%Z
  /\ orders_sent s' = (orders_sent s ++ repeat (buy_request (self s)) n)%list
  /\ arbitrage_status (self s') = arbitrage_status (self s)
  /\ _sell_order (self s') = _sell_order (self s).
Proof.
  intros Hid.
  destruct (repeat_buy_failure_spec n s Hid) as (Hf & Ho & Hst & _ & Hsl & _).
  repeat split; assumption.
Qed.

(** X15. The retry budget: an active run with no failure so far survives
    [max_retries] failures of its buy leg, the next step does not fail it;
    one failure more and the next step moves it to Failed and stops the
    loop. *)
Theorem retry_budget (s : System) :
  arbitrage_status (self s) = ACTIVE_ARBITRAGE ->
  _cumulative_failures (self s) = 0%Z ->
  (0 <= max_retries (self s))%Z ->
  order_id (_buy_order (self s)) <> None ->
  let n := Z.to_nat (max_retries (self s)) in
  arbitrage_status (self (state_after control_task (repeat_buy_failure n s)))
  <> FAILED
  /\ arbitrage_status
       (self (state_after control_task (repeat_buy_failure (S n) s)))
     = FAILED
  /\ terminated (self (state_after control_task (repeat_buy_failure (S n) s)))
     = true.
Proof.
  intros Hst Hz Hmr Hid. cbv zeta.
  set (n := Z.to_nat (max_retries (self s))).
  split.
  - destruct (repeat_buy_failure_spec n s Hid)
      as (Hf & _ & Hst' & Hmr' & _).
    cbv zeta in *. set (s1 := repeat_buy_failure n s) in *.
    rewrite Hst in Hst'. unfold state_after.
    rewrite (control_task_active_unfold s1 Hst'), check_order_status_cases.
    assert (Hgt : (_cumulative_failures (self s1) >? max_retries (self s1))%Z = false).
    { rewrite Z.gtb_ltb. apply Z.ltb_ge. rewrite Hf, Hmr', Hz. unfold n. lia. }
    rewrite Hgt.
    destruct (order (_buy_order (self s1))) as [bo|]; [|simpl; congruence].
    destruct (is_filled (read_order bo (world s1))); [|simpl; congruence].
    destruct (order (_sell_order (self s1))) as [so|]; [|simpl; congruence].
    destruct (is_filled (read_order so (world s1))); simpl; congruence.
  - destruct (repeat_buy_failure_spec (S n) s Hid)
      as (Hf & _ & Hst' & Hmr' & _).
    cbv zeta in *. set (s1 := repeat_buy_failure (S n) s) in *.
    rewrite Hst in Hst'. unfold state_after.
    rewrite (control_task_active_unfold s1 Hst').
    assert (Hgt : (_cumulative_failures (self s1) >? max_retries (self s1))%Z = true).
    { apply Z.gtb_lt. rewrite Hf, Hmr', Hz. unfold n. lia. }
    rewrite Hgt. split; reflexivity.
Qed.

(** ** More on the handlers *)

(** X16. A failure notification delivered twice is counted once: after
    the leg was resubmitted under a new identifier, a second notification
    for the old identifier matches no leg and is ignored. *)
Theorem duplicate_failure_ignored (s : System) (ev : string) :
  let s' := state_after (process_order_failed_event ev) s in
  (order_id (_buy_order (self s)) = Some ev ->
   fst (submit_order (buy_request (self s)) (world s)) <> ev ->
   order_id (_sell_order (self s)) <> Some ev ->
   process_order_failed_event ev s' = (Ok tt, s'))
  /\ (order_id (_buy_order (self s)) <> Some ev ->
      order_id (_sell_order (self s)) = Some ev ->
      fst (submit_order (sell_request (self s)) (world s)) <> ev ->
      process_order_failed_event ev s' = (Ok tt, s')).
Proof.
  cbv zeta. split.
  - intros Hb Hnew Hs.
    destruct (process_order_failed_event_buy_state s ev Hb) as (Hself & _).
    apply process_order_failed_event_other; rewrite Hself; simpl; congruence.
  - intros Hb Hs Hnew.
    destruct (process_order_failed_event_sell_state s ev Hb Hs) as (Hself & _).
    apply process_order_failed_event_other; rewrite Hself; simpl; congruence.
Qed.

Lemma process_order_failed_event_status (s : System) (ev : string) :
  let s' := state_after (process_order_failed_event ev) s in
  arbitrage_status (self s') = arbitrage_status (self s)
  /\ terminated (self s') = terminated (self s)
  /\ config_of (self s') = config_of (self s)
  /\ (_last_buy_price (self s'), _last_sell_price (self s'), _last_tx_cost (self s'))
     = (_last_buy_price (self s), _last_sell_price (self s), _last_tx_cost (self s)).
Proof.
  cbv zeta.
  destruct (notification_cases s ev) as [Hb|[[Hb Hs]|[Hb Hs]]].
  - destruct (process_order_failed_event_buy_state s ev Hb) as (Hself & _).
    rewrite Hself. repeat split.
  - destruct (process_order_failed_event_sell_state s ev Hb Hs) as (Hself & _).
    rewrite Hself. repeat split.
  - unfold state_after. rewrite (process_order_failed_event_other s ev Hb Hs).
    repeat split.
Qed.

(** X17. Only the step changes the status and the stop flag: the two
    notification handlers and the three read-outs leave both as they
    are. *)
Theorem status_changes_only_in_step (op : operation) (s : System) :
  op <> Step ->
  arbitrage_status (self (state_after (perform op) s)) = arbitrage_status (self s)
  /\ terminated (self (state_after (perform op) s)) = terminated (self s).
Proof.
  intros Hop. destruct op; [contradiction| | | | |]; cbn [perform].
  - destruct (process_order_created_event_state s event_order_id)
      as (bo & so & Hself & _). rewrite Hself. split; reflexivity.
  - destruct (process_order_failed_event_status s event_order_id)
      as (H1 & H2 & _). split; assumption.
  - rewrite discard_state, net_pnl_pure. split; reflexivity.
  - rewrite discard_state, net_pnl_pct_pure. split; reflexivity.
  - rewrite discard_state, to_format_status_pure. split; reflexivity.
Qed.

(** ** Invariants of a run *)

Lemma execute_arbitrage_state (s : System) :
  let s' := state_after execute_arbitrage s in
  exists id1 id2,
    self s'
    = set_sell_order {| order_id := Some id2; order := None |}
        (set_buy_order {| order_id := Some id1; order := None |}
           (set_arbitrage_status ACTIVE_ARBITRAGE (self s)))
    /\ orders_sent s'
       = (orders_sent s ++ [buy_request (self s); sell_request (self s)])%list.
Proof.
  set (s0 := with_self (set_arbitrage_status ACTIVE_ARBITRAGE) s).
  assert (E0 : execute_arbitrage s
               = bind place_buy_arbitrage_order
                   (fun _ => place_sell_arbitrage_order) s0)
    by reflexivity.
  destruct (place_buy_arbitrage_order_spec s0) as (Ob & Sb & Wb & Rb & Lb).
  set (s1 := state_after place_buy_arbitrage_order s0) in *.
  destruct (place_sell_arbitrage_order_spec s1) as (Os & Ss & Ws & Rs & Ls).
  cbv zeta. unfold state_after at 1 2. rewrite E0, (bind_Ok _ _ _ _ Ob).
  fold s1. fold (state_after place_sell_arbitrage_order s1).
  rewrite Ss, Rs, Sb, Rb.
  eexists. eexists. split; [reflexivity|].
  rewrite <- app_assoc. reflexivity.
Qed.

Lemma get_tx_cost_pct_Ok (t t' : System) (c : Decimal) :
  get_tx_cost_pct t = (Ok c, t') ->
  exists base quote total,
    split_hb_trading_pair (trading_pair (buying_market (self t))) = Ok (base, quote)
    /\ order_amount (self t) <> 0%Qc
    /\ self t' = set_last_tx_cost total (self t).
Proof.
  intros H.
  destruct (split_hb_trading_pair (trading_pair (buying_market (self t))))
    as [[base quote]|e] eqn:Hsp.
  2: { destruct (get_tx_cost_pct_split_error t e Hsp). congruence. }
  destruct (get_tx_cost_in_asset (exchange (buying_market (self t)))
              (trading_pair (buying_market (self t))) true
              (order_amount (self t)) base t) as [[bf|e] t1] eqn:Hb.
  2: { unfold get_tx_cost_pct in H.
       unfold bind at 1, get at 1 in H. unfold bind at 1, lift_result at 1 in H.
       rewrite Hsp in H.
       unfold bind at 1, get at 1 in H. unfold bind at 1 in H. rewrite Hb in H.
       discriminate H. }
  destruct (get_tx_cost_in_asset_self t (exchange (buying_market (self t)))
              (trading_pair (buying_market (self t))) true
              (order_amount (self t)) base) as (P1 & _).
  unfold state_after in P1. rewrite Hb in P1. cbn [snd] in P1.
  destruct (get_tx_cost_in_asset (exchange (selling_market (self t)))
              (trading_pair (selling_market (self t))) false
              (order_amount (self t)) base t1) as [[sf|e] t2] eqn:Hs.
  2: { unfold get_tx_cost_pct in H.
       unfold bind at 1, get at 1 in H. unfold bind at 1, lift_result at 1 in H.
       rewrite Hsp in H.
       unfold bind at 1, get at 1 in H. unfold bind at 1 in H. rewrite Hb in H.
       unfold bind at 1, get at 1 in H. rewrite P1 in H.
       unfold bind at 1 in H. rewrite Hs in H. discriminate H. }
  destruct (get_tx_cost_in_asset_self t1 (exchange (selling_market (self t)))
              (trading_pair (selling_market (self t))) false
              (order_amount (self t)) base) as (P2 & _).
  unfold state_after in P2. rewrite Hs in P2. cbn [snd] in P2.
  rewrite (get_tx_cost_pct_legs t t1 t2 base quote bf sf Hsp Hb Hs) in H.
  injection H as Hd Ht. apply Decimal_div_Ok in Hd. destruct Hd as (Hnz & _).
  exists base, quote, (bf + sf)%dec. repeat split; try assumption.
  rewrite <- Ht. cbn [with_self self]. congruence.
Qed.

Lemma evaluate_profitability_ready (s s2 : System) (p : Decimal) :
  evaluate_profitability s = (Ok p, s2) ->
  core (self s2) = core (self s)
  /\ orders_sent s2 = orders_sent s
  /\ report_ready (self s2).
Proof.
  intros He.
  destruct (quiet_inv _ s quiet_evaluate_profitability) as (Hcore & Hord & _).
  unfold state_after in Hcore, Hord. rewrite He in Hcore, Hord.
  cbn [snd] in Hcore, Hord.
  split; [exact Hcore|]. split; [exact Hord|].
  apply evaluate_profitability_Ok in He.
  destruct He as (b & sl & cost & s1 & Hq & Hb & Hc & _).
  destruct (get_tx_cost_pct_Ok _ _ _ Hc) as (base & quote & total & Hsp & Hnz & Hself).
  exists b, sl, total, base, quote. rewrite Hself.
  cbn [with_self self] in *. repeat split; assumption.
Qed.

Lemma run_invariant_step (cfg : ArbitrageConfig) (s : System) :
  run_invariant cfg s -> run_invariant cfg (state_after control_task s).
Proof.
  intros (Hcfg & Hterm & Hpos & Hcase). unfold state_after.
  destruct (arbitrage_status (self s)) eqn:Hst.
  - rewrite (control_task_not_started_unfold s Hst).
    destruct Hcase as (Hord & Hbo & Hso & Hf).
    destruct (evaluate_profitability s) as [[p|e] s1] eqn:He.
    + destruct (evaluate_profitability_ready s s1 p He) as (Hcore & Hord1 & Hready).
      assert (Hs1 : config_of (self s1) = config_of (self s)
                    /\ arbitrage_status (self s1) = NOT_STARTED
                    /\ _buy_order (self s1) = _buy_order (self s)
                    /\ _sell_order (self s1) = _sell_order (self s)
                    /\ _cumulative_failures (self s1) = _cumulative_failures (self s)
                    /\ terminated (self s1) = terminated (self s)).
      { unfold core, config_of in *. repeat split; congruence. }
      destruct Hs1 as (C1 & S1 & B1 & L1 & F1 & T1).
      destruct (Decimal_gtb p (min_profitability (self s1))).
      * destruct (execute_arbitrage_state s1) as (id1 & id2 & Hself & Hsent).
        cbn [snd]. unfold run_invariant. rewrite Hself, Hsent. simpl.
        rewrite F1, T1, Hterm, Hord1, Hord, Hf.
        repeat split; try discriminate; try reflexivity.
        -- unfold config_of in *. simpl. congruence.
        -- destruct Hready as (b & sl & tx & base & quote & R).
           exists b, sl, tx, base, quote. simpl. exact R.
      * cbn [snd]. unfold run_invariant. rewrite S1, C1, T1, F1, B1, L1, Hord1.
        repeat split; assumption.
    + destruct (quiet_inv _ s quiet_evaluate_profitability) as (Hcore & Hord1 & _).
      unfold state_after in Hcore, Hord1. rewrite He in Hcore, Hord1.
      cbn [snd] in Hcore, Hord1.
      unfold logger. cbn [snd]. unfold run_invariant. cbn [self orders_sent].
      assert (Hs1 : config_of (self s1) = config_of (self s)
                    /\ arbitrage_status (self s1) = NOT_STARTED
                    /\ _buy_order (self s1) = _buy_order (self s)
                    /\ _sell_order (self s1) = _sell_order (self s)
                    /\ _cumulative_failures (self s1) = _cumulative_failures (self s)
                    /\ terminated (self s1) = terminated (self s)).
      { unfold core, config_of in *. repeat split; congruence. }
      destruct Hs1 as (C1 & S1 & B1 & L1 & F1 & T1).
      rewrite S1, C1, T1, F1, B1, L1, Hord1. repeat split; assumption.
  - rewrite (control_task_active_unfold s Hst), check_order_status_cases.
    assert (Hsame : run_invariant cfg s).
    { unfold run_invariant. rewrite Hst. repeat split; tauto. }
    assert (Hend : forall st, terminal st = true -> st <> NOT_STARTED ->
              run_invariant cfg
                (with_self (fun e => set_terminated (set_arbitrage_status st e)) s)).
    { intros st Ht Hns. unfold run_invariant. cbn [with_self self orders_sent].
      simpl. rewrite Ht.
      destruct st; try discriminate; repeat split; tauto. }
    destruct (_ >? _)%Z; [apply Hend; [reflexivity|discriminate]|].
    destruct (order (_buy_order (self s))) as [bo|]; [|exact Hsame].
    destruct (is_filled (read_order bo (world s))); [|exact Hsame].
    destruct (order (_sell_order (self s))) as [so|]; [|exact Hsame].
    destruct (is_filled (read_order so (world s))); [|exact Hsame].
    apply Hend; [reflexivity|discriminate].
  - rewrite (control_task_terminal s) by (rewrite Hst; reflexivity).
    cbn [snd]. unfold run_invariant. rewrite Hst. repeat split; tauto.
  - rewrite (control_task_terminal s) by (rewrite Hst; reflexivity).
    cbn [snd]. unfold run_invariant. rewrite Hst. repeat split; tauto.
Qed.

Lemma run_invariant_created (cfg : ArbitrageConfig) (s : System) (ev : string) :
  run_invariant cfg s ->
  run_invariant cfg (state_after (process_order_created_event ev) s).
Proof.
  intros (Hcfg & Hterm & Hpos & Hcase).
  destruct (process_order_created_event_state s ev) as (bo & so & Hself & Hbo & Hso & Hord).
  unfold run_invariant. rewrite Hself, Hord. simpl.
  split; [exact Hcfg|]. split; [exact Hterm|]. split; [exact Hpos|].
  destruct (arbitrage_status (self s)).
  - destruct Hcase as (Ho & Hb & Hs & Hf).
    assert (Eb : bo = order (_buy_order (self s)))
      by (apply Hbo; rewrite Hb; reflexivity).
    assert (Es : so = order (_sell_order (self s)))
      by (apply Hso; rewrite Hs; reflexivity).
    rewrite Eb, Es, Hb, Hs. repeat split; assumption.
  - destruct Hcase as (Ho & Hb & Hs & b & sl & tx & base & quote & R).
    repeat split; try assumption. exists b, sl, tx, base, quote. exact R.
  - destruct Hcase as (Ho & Hb & Hs & b & sl & tx & base & quote & R).
    repeat split; try assumption. exists b, sl, tx, base, quote. exact R.
  - destruct Hcase as (Ho & Hb & Hs & b & sl & tx & base & quote & R).
    repeat split; try assumption. exists b, sl, tx, base, quote. exact R.
Qed.

Lemma run_invariant_failed (cfg : ArbitrageConfig) (s : System) (ev : string) :
  run_invariant cfg s ->
  run_invariant cfg (state_after (process_order_failed_event ev) s).
Proof.
  intros Hinv.
  destruct (notification_cases s ev) as [Hb|[[Hb Hs]|[Hb Hs]]].
  - destruct Hinv as (Hcfg & Hterm & Hpos & Hcase).
    destruct (process_order_failed_event_buy_state s ev Hb) as (Hself & _ & Hord & _).
    unfold run_invariant. rewrite Hself, Hord. cbn -[Z.add Z.of_nat].
    split; [exact Hcfg|]. split; [exact Hterm|]. split; [lia|].
    rewrite length_app. cbn -[Z.add Z.of_nat].
    destruct (arbitrage_status (self s)).
    + destruct Hcase as (_ & Hnew & _). rewrite Hnew in Hb. discriminate Hb.
    + destruct Hcase as (Ho & _ & Hsl & b & sl & tx & base & quote & R).
      repeat split; try assumption; try discriminate; try lia.
      exists b, sl, tx, base, quote. exact R.
    + destruct Hcase as (Ho & _ & Hsl & b & sl & tx & base & quote & R).
      repeat split; try assumption; try discriminate; try lia.
      exists b, sl, tx, base, quote. exact R.
    + destruct Hcase as (Ho & _ & Hsl & b & sl & tx & base & quote & R).
      repeat split; try assumption; try discriminate; try lia.
      exists b, sl, tx, base, quote. exact R.
  - destruct Hinv as (Hcfg & Hterm & Hpos & Hcase).
    destruct (process_order_failed_event_sell_state s ev Hb Hs) as (Hself & _ & Hord & _).
    unfold run_invariant. rewrite Hself, Hord. cbn -[Z.add Z.of_nat].
    split; [exact Hcfg|]. split; [exact Hterm|]. split; [lia|].
    rewrite length_app. cbn -[Z.add Z.of_nat].
    destruct (arbitrage_status (self s)).
    + destruct Hcase as (_ & _ & Hnew & _). rewrite Hnew in Hs. discriminate Hs.
    + destruct Hcase as (Ho & Hbl & _ & b & sl & tx & base & quote & R).
      repeat split; try assumption; try discriminate; try lia.
      exists b, sl, tx, base, quote. exact R.
    + destruct Hcase as (Ho & Hbl & _ & b & sl & tx & base & quote & R).
      repeat split; try assumption; try discriminate; try lia.
      exists b, sl, tx, base, quote. exact R.
    + destruct Hcase as (Ho & Hbl & _ & b & sl & tx & base & quote & R).
      repeat split; try assumption; try discriminate; try lia.
      exists b, sl, tx, base, quote. exact R.
  - unfold state_after. rewrite (process_order_failed_event_other s ev Hb Hs).
    exact Hinv.
Qed.

Lemma run_invariant_perform (cfg : ArbitrageConfig) (s : System) (op : operation) :
  run_invariant cfg s -> run_invariant cfg (state_after (perform op) s).
Proof.
  intros Hinv. destruct op; cbn [perform].
  - apply run_invariant_step. exact Hinv.
  - apply run_invariant_created. exact Hinv.
  - apply run_invariant_failed. exact Hinv.
  - rewrite discard_state, net_pnl_pure. exact Hinv.
  - rewrite discard_state, net_pnl_pct_pure. exact Hinv.
  - rewrite discard_state, to_format_status_pure. exact Hinv.
Qed.

Lemma reachable_invariant (cfg : ArbitrageConfig) (s : System) :
  reachable cfg s -> run_invariant cfg s.
Proof.
  induction 1 as [w|s op _ IH|s w _ IH].
  - unfold run_invariant. simpl. repeat split. lia.
  - apply run_invariant_perform. exact IH.
  - exact IH.
Qed.

(** X18. The configuration is immutable: whatever steps, notifications and
    read-outs a run has gone through, its markets, minimum profitability,
    order amount and retry budget are those it was built with. *)
Theorem reachable_config (cfg : ArbitrageConfig) (s : System) :
  reachable cfg s ->
  buying_market (self s) = cfg_buying_market cfg
  /\ selling_market (self s) = cfg_selling_market cfg
  /\ min_profitability (self s) = cfg_min_profitability cfg
  /\ order_amount (self s) = cfg_order_amount cfg
  /\ max_retries (self s) = cfg_max_retries cfg.
Proof.
  intros Hr. destruct (reachable_invariant cfg s Hr) as (Hcfg & _).
  unfold config_of, config_fields in Hcfg.
  injection Hcfg as H1 H2 H3 H4 H5. repeat split; assumption.
Qed.

(** X19. The stop signal is raised exactly in the terminal statuses: in
    every system a run can reach, the stop flag is set if and only if the
    status is Completed or Failed, and the failure count is never
    negative. *)
Theorem reachable_terminated (cfg : ArbitrageConfig) (s : System) :
  reachable cfg s ->
  (terminated (self s) = true
   <-> arbitrage_status (self s) = COMPLETED \/ arbitrage_status (self s) = FAILED)
  /\ (0 <= _cumulative_failures (self s))%Z.
Proof.
  intros Hr. destruct (reachable_invariant cfg s Hr) as (_ & Hterm & Hpos & _).
  split; [|exact Hpos]. rewrite Hterm.
  destruct (arbitrage_status (self s)); simpl; split;
    try discriminate; try tauto; intros [H|H]; discriminate H.
Qed.

(** X20. Order accounting: a run that has not started has submitted no
    order, carries no order on either leg and has counted no failure; a
    run that has started has submitted exactly two orders plus one per
    counted failure, and both legs carry an order identifier. *)
Theorem reachable_orders (cfg : ArbitrageConfig) (s : System) :
  reachable cfg s ->
  (arbitrage_status (self s) = NOT_STARTED ->
     orders_sent s = []
     /\ _buy_order (self s) = TrackedOrder_new
     /\ _sell_order (self s) = TrackedOrder_new
     /\ _cumulative_failures (self s) = 0%Z)
  /\ (arbitrage_status (self s) <> NOT_STARTED ->
     Z.of_nat (length (orders_sent s)) = (2 + _cumulative_failures (self s))%Z
     /\ order_id (_buy_order (self s)) <> None
     /\ order_id (_sell_order (self s)) <> None).
Proof.
  intros Hr. destruct (reachable_invariant cfg s Hr) as (_ & _ & _ & Hcase).
  destruct (arbitrage_status (self s)); split; intros H;
    try discriminate H; try contradiction; tauto.
Qed.

(** X21. Once a run has started, the status report no longer raises for
    want of observations: in ActiveArbitrage and in Failed
    [to_format_status] returns a text. *)
Theorem reachable_report (cfg : ArbitrageConfig) (s : System) :
  reachable cfg s ->
  arbitrage_status (self s) = ACTIVE_ARBITRAGE
  \/ arbitrage_status (self s) = FAILED ->
  exists out, outcome to_format_status s = Ok out.
Proof.
  intros Hr Hst. destruct (reachable_invariant cfg s Hr) as (_ & _ & _ & Hcase).
  assert (Hready : report_ready (self s)).
  { destruct Hst as [H|H]; rewrite H in Hcase; tauto. }
  destruct Hready as (b & sl & tx & base & quote & Hb & Hs & Hnz & Ht & Ha & Hsp).
  rewrite to_format_status_head, Hs, Hb, Ht.
  rewrite (Decimal_div_nonzero _ _ Hnz), (Decimal_div_nonzero _ _ Ha).
  unfold outcome, bind, lift_result, ret. rewrite Hsp.
  destruct Hst as [H|H]; rewrite H; eexists; reflexivity.
Qed.

(** ** Starting the arbitrage, and what the evaluation touches *)

(** X22. [execute_arbitrage] never raises.  From any state it moves the
    status to ActiveArbitrage and submits the buy request and then, to the
    world the buy submission left, the sell request; each leg is replaced
    by a fresh unacknowledged order under the identifier the venue gave.
    The failure count, the stop flag and the log are untouched. *)
Theorem execute_arbitrage_submits (s : System) :
  let s' := state_after execute_arbitrage s in
  let buy := submit_order (buy_request (self s)) (world s) in
  let sell := submit_order (sell_request (self s)) (snd buy) in
  outcome execute_arbitrage s = Ok tt
  /\ arbitrage_status (self s') = ACTIVE_ARBITRAGE
  /\ _buy_order (self s') = {| order_id := Some (fst buy); order := None |}
  /\ _sell_order (self s') = {| order_id := Some (fst sell); order := None |}
  /\ world s' = snd sell
  /\ orders_sent s'
     = (orders_sent s ++ [buy_request (self s); sell_request (self s)])%list
  /\ _cumulative_failures (self s') = _cumulative_failures (self s)
  /\ terminated (self s') = terminated (self s)
  /\ log s' = log s.
Proof.
  set (s0 := with_self (set_arbitrage_status ACTIVE_ARBITRAGE) s).
  assert (E0 : execute_arbitrage s
               = bind place_buy_arbitrage_order
                   (fun _ => place_sell_arbitrage_order) s0)
    by reflexivity.
  destruct (place_buy_arbitrage_order_spec s0) as (Ob & Sb & Wb & Rb & Lb).
  set (s1 := state_after place_buy_arbitrage_order s0) in *.
  destruct (place_sell_arbitrage_order_spec s1) as (Os & Ss & Ws & Rs & Ls).
  assert (Hreq : sell_request (self s1) = sell_request (self s))
    by (rewrite Sb; reflexivity).
  cbv zeta. unfold outcome, state_after.
  rewrite E0, (bind_Ok _ _ _ _ Ob). fold s1.
  fold (outcome place_sell_arbitrage_order s1).
  fold (state_after place_sell_arbitrage_order s1).
  rewrite Os, Ss, Ws, Rs, Ls, Hreq, Sb, Wb, Rb, Lb.
  cbn [s0 with_self self world orders_sent log].
  rewrite <- app_assoc. repeat split.
Qed.

(** X23. The two last observed prices are assigned together: after
    [get_trade_pnl_pct] either both are the pair of quotes just obtained
    or, the quotes having failed, the executor is exactly as before. *)
Theorem last_prices_updated_together (s : System) :
  let s' := state_after get_trade_pnl_pct s in
  (exists b sl s1,
      get_buy_and_sell_prices s = (Ok (b, sl), s1)
      /\ _last_buy_price (self s') = Some b
      /\ _last_sell_price (self s') = Some sl)
  \/ (exists e s1,
        get_buy_and_sell_prices s = (Raise e, s1)
        /\ outcome get_trade_pnl_pct s = Raise e
        /\ self s' = self s).
Proof.
  cbv zeta.
  destruct (get_buy_and_sell_prices s) as [[[b sl]|e] s1] eqn:Hq.
  - left. exists b, sl, s1. split; [reflexivity|].
    assert (E : get_trade_pnl_pct s
                = (Decimal_div (sl - b) b, with_self (set_last_prices b sl) s1)).
    { unfold get_trade_pnl_pct. unfold bind at 1. rewrite Hq. reflexivity. }
    unfold state_after. rewrite E. split; reflexivity.
  - right. exists e, s1. split; [reflexivity|].
    destruct (get_trade_pnl_pct_quote_error s s1 e Hq) as (E & Hself).
    unfold outcome, state_after. rewrite E. split; [reflexivity|exact Hself].
Qed.

(** X24. The profitability evaluation, whether it returns or raises,
    changes nothing of the run but its last observations: the status, both
    legs, the failure count, the stop flag and the configuration are as
    before, no order is submitted and no log line written. *)
Theorem evaluation_changes_only_observations (s : System) :
  let s' := state_after evaluate_profitability s in
  arbitrage_status (self s') = arbitrage_status (self s)
  /\ _buy_order (self s') = _buy_order (self s)
  /\ _sell_order (self s') = _sell_order (self s)
  /\ _cumulative_failures (self s') = _cumulative_failures (self s)
  /\ terminated (self s') = terminated (self s)
  /\ config_of (self s') = config_of (self s)
  /\ orders_sent s' = orders_sent s
  /\ log s' = log s.
Proof.
  cbv zeta.
  destruct (quiet_inv _ s quiet_evaluate_profitability) as (Hcore & Hord & Hlog).
  unfold core, config_of in *. repeat split; congruence.
Qed.

Lemma perform_failures (op : operation) (s : System) :
  (_cumulative_failures (self s)
   <= _cumulative_failures (self (state_after (perform op) s)))%Z.
Proof.
  destruct op; cbn [perform].
  - rewrite control_task_failures. lia.
  - rewrite process_order_created_event_failures. lia.
  - apply process_order_failed_event_failures.
  - rewrite discard_state, net_pnl_pure. lia.
  - rewrite discard_state, net_pnl_pct_pure. lia.
  - rewrite discard_state, to_format_status_pure. lia.
Qed.

Lemma perform_max_retries (op : operation) (s : System) :
  max_retries (self (state_after (perform op) s)) = max_retries (self s).
Proof.
  assert (Hc : forall e e', config_of e = config_of e' -> max_retries e = max_retries e')
    by (unfold config_of; congruence).
  destruct op; cbn [perform].
  - destruct (arbitrage_status (self s)) eqn:Hst.
    + unfold state_after. rewrite (control_task_not_started_unfold s Hst).
      destruct (quiet_inv _ s quiet_evaluate_profitability) as (Hcore & _).
      unfold state_after in Hcore.
      destruct (evaluate_profitability s) as [[p|e] s1]; cbn [snd] in *.
      * destruct (Decimal_gtb _ _); cbn [snd].
        -- destruct (execute_arbitrage_state s1) as (i1 & i2 & Hself & _).
           rewrite Hself. simpl. unfold core in Hcore. congruence.
        -- unfold core in Hcore. congruence.
      * unfold logger. cbn [snd self]. unfold core in Hcore. congruence.
    + unfold state_after.
      rewrite (control_task_active_unfold s Hst), check_order_status_cases.
      destruct (_ >? _)%Z; [reflexivity|].
      destruct (order (_buy_order (self s))) as [bo|]; [|reflexivity].
      destruct (is_filled (read_order bo (world s))); [|reflexivity].
      destruct (order (_sell_order (self s))) as [so|]; [|reflexivity].
      destruct (is_filled (read_order so (world s))); reflexivity.
    + unfold state_after.
      rewrite (control_task_terminal s) by (rewrite Hst; reflexivity). reflexivity.
    + unfold state_after.
      rewrite (control_task_terminal s) by (rewrite Hst; reflexivity). reflexivity.
  - destruct (process_order_created_event_state s event_order_id)
      as (bo & so & Hself & _). rewrite Hself. reflexivity.
  - destruct (process_order_failed_event_status s event_order_id) as (_ & _ & H & _).
    apply Hc. exact H.
  - rewrite discard_state, net_pnl_pure. reflexivity.
  - rewrite discard_state, net_pnl_pct_pure. reflexivity.
  - rewrite discard_state, to_format_status_pure. reflexivity.
Qed.

Lemma reachable_failed_aux (cfg : ArbitrageConfig) (s : System) :
  reachable cfg s ->
  arbitrage_status (self s) = FAILED ->
  (_cumulative_failures (self s) > max_retries (self s))%Z.
Proof.
  intros Hr. induction Hr as [w|s op Hr IH|s w Hr IH]; intros Hst.
  - discriminate Hst.
  - pose proof (perform_failures op s) as Hmono.
    pose proof (perform_max_retries op s) as Hmax.
    destruct op.
    + cbn [perform] in *.
      destruct (arbitrage_status (self s)) eqn:Hs0.
      * exfalso. unfold state_after in Hst.
        rewrite (control_task_not_started_unfold s Hs0) in Hst.
        destruct (quiet_inv _ s quiet_evaluate_profitability) as (Hcore & _).
        unfold state_after in Hcore. apply core_status in Hcore.
        destruct (evaluate_profitability s) as [[p|e] s1]; cbn [snd] in *.
        -- destruct (Decimal_gtb _ _); cbn [snd] in Hst.
           ++ destruct (execute_arbitrage_spec s1) as (_ & Ha & _). congruence.
           ++ congruence.
        -- unfold logger in Hst. cbn [snd self] in Hst. congruence.
      * rewrite Hmax. rewrite control_task_failures in *.
        unfold state_after in Hst.
        rewrite (control_task_active_unfold s Hs0), check_order_status_cases in Hst.
        destruct (_ >? _)%Z eqn:Hgt; [apply Z.gtb_lt in Hgt; lia|].
        exfalso.
        destruct (order (_buy_order (self s))) as [bo|];
          [|cbn [snd] in Hst; congruence].
        destruct (is_filled (read_order bo (world s)));
          [|cbn [snd] in Hst; congruence].
        destruct (order (_sell_order (self s))) as [so|];
          [|cbn [snd] in Hst; congruence].
        destruct (is_filled (read_order so (world s)));
          cbn [snd] in Hst; [discriminate Hst|congruence].
      * exfalso. unfold state_after in Hst.
        rewrite (control_task_terminal s) in Hst by (rewrite Hs0; reflexivity).
        cbn [snd] in Hst. congruence.
      * specialize (IH eq_refl). lia.
    + assert (Hsame : arbitrage_status
                        (self (state_after (perform (OrderCreated event_order_id)) s))
                      = arbitrage_status (self s)).
      { cbn [perform].
        destruct (process_order_created_event_state s event_order_id)
          as (bo & so & Hself & _). rewrite Hself. reflexivity. }
      rewrite Hsame in Hst. specialize (IH Hst). lia.
    + assert (Hsame : arbitrage_status
                        (self (state_after (perform (OrderFailed event_order_id)) s))
                      = arbitrage_status (self s)).
      { cbn [perform].
        destruct (process_order_failed_event_status s event_order_id) as (H & _).
        exact H. }
      rewrite Hsame in Hst. specialize (IH Hst). lia.
    + cbn [perform] in *. rewrite discard_state, net_pnl_pure in *.
      apply IH. exact Hst.
    + cbn [perform] in *. rewrite discard_state, net_pnl_pct_pure in *.
      apply IH. exact Hst.
    + cbn [perform] in *. rewrite discard_state, to_format_status_pure in *.
      apply IH. exact Hst.
  - apply IH. exact Hst.
Qed.

(** X25. A run is Failed only with its retry budget exceeded: in every
    system a run can reach with status Failed, the failure count is above
    the maximum number of retries the run was configured with. *)
Theorem reachable_failed (cfg : ArbitrageConfig) (s : System) :
  reachable cfg s ->
  arbitrage_status (self s) = FAILED ->
  (_cumulative_failures (self s) > max_retries (self s))%Z
  /\ max_retries (self s) = cfg_max_retries cfg.
Proof.
  intros Hr Hst. split.
  - apply (reachable_failed_aux cfg s Hr Hst).
  - destruct (reachable_invariant cfg s Hr) as (Hcfg & _).
    unfold config_of, config_fields in Hcfg. congruence.
Qed.

End ExecutorProofs.

(** * The scenarios of the concrete market *)

Module ScenarioFacts.

Import Scenario.

Lemma Decimal_neq (x y : Decimal) : Decimal_eqb x y = false -> x <> y.
Proof. intros H E. apply Decimal_eqb_eq in E. congruence. Qed.

(** Scenario A: spread 1%, cost 0.5%, minimum 0.3%: the first step starts
    the arbitrage and submits a buy and a sell order. *)
Example scenario_A :
  arbitrage_status (self active) = ACTIVE_ARBITRAGE
  /\ map req_side (orders_sent active) = [BUY; SELL]
  /\ map req_connector_name (orders_sent active) = ["binance"; "kucoin"]
  /\ option_map render (_last_tx_cost (self active)) = Some "0.05".
Proof. vm_compute. repeat split. Qed.

(** Scenario B: with maxRetries = 2, two failures of the buy leg leave the
    run active, the third makes the next step fail it. *)
Example scenario_B :
  _cumulative_failures (self (fail_buy 2 active)) = 2%Z
  /\ arbitrage_status (self (state_after control_task (fail_buy 2 active)))
     = ACTIVE_ARBITRAGE
  /\ _cumulative_failures (self (fail_buy 3 active)) = 3%Z
  /\ length (orders_sent (fail_buy 3 active)) = 5%nat
  /\ arbitrage_status (self (state_after control_task (fail_buy 3 active)))
     = FAILED.
Proof. vm_compute. repeat split. Qed.

(** Scenario C: both legs acknowledged and filled: the step completes the
    run and stops the loop. *)
Example scenario_C :
  arbitrage_status (self acknowledged) = ACTIVE_ARBITRAGE
  /\ arbitrage_status (self completed) = COMPLETED
  /\ terminated (self completed) = true.
Proof. vm_compute. repeat split. Qed.

Lemma control_task_active_witness :
  arbitrage_status (self (fail_buy 3 active)) = ACTIVE_ARBITRAGE
  /\ arbitrage_status (self (state_after control_task (fail_buy 3 active))) = FAILED
  /\ terminated (self (state_after control_task (fail_buy 3 active))) = true.
Proof.
  assert (H : arbitrage_status (self (fail_buy 3 active)) = ACTIVE_ARBITRAGE)
    by (vm_compute; reflexivity).
  destruct (control_task_active (fail_buy 3 active) H) as (Hf & _ & _ & Ht).
  assert (Hfail : arbitrage_status
                    (self (state_after control_task (fail_buy 3 active))) = FAILED)
    by (apply Hf; vm_compute; reflexivity).
  split; [exact H|]. split; [exact Hfail|].
  apply Ht. rewrite Hfail. reflexivity.
Defined.

Lemma control_task_not_started_witness :
  arbitrage_status (self idle) = NOT_STARTED
  /\ arbitrage_status (self (state_after control_task idle)) = ACTIVE_ARBITRAGE.
Proof.
  assert (H : arbitrage_status (self idle) = NOT_STARTED) by reflexivity.
  split; [exact H|].
  destruct (control_task_not_started idle H) as (_ & Hiff & _).
  apply Hiff.
  exists (decimal 100 1), (decimal 101 1),
    ((leg_cost + leg_cost) / decimal 10 1)%dec, idle, evaluated.
  split; [reflexivity|].
  split; [apply Decimal_neq; reflexivity|].
  split; [reflexivity|].
  reflexivity.
Defined.

Lemma process_order_failed_event_resubmits_witness :
  order_id (_buy_order (self active)) = Some "order-0"
  /\ _cumulative_failures
       (self (state_after (process_order_failed_event "order-0") active)) = 1%Z
  /\ _sell_order (self (state_after (process_order_failed_event "order-0") active))
     = _sell_order (self active).
Proof.
  assert (H : order_id (_buy_order (self active)) = Some "order-0")
    by (vm_compute; reflexivity).
  destruct (process_order_failed_event_resubmits active "order-0") as (Hb & _ & _).
  destruct (Hb H) as (_ & _ & Hs & Hf).
  split; [exact H|]. split; [|exact Hs].
  rewrite Hf. vm_compute. reflexivity.
Defined.


Lemma control_task_status_monotone_witness :
  terminal (arbitrage_status (self completed)) = true
  /\ control_task completed = (Ok tt, completed).
Proof.
  assert (H : terminal (arbitrage_status (self completed)) = true)
    by (vm_compute; reflexivity).
  split; [exact H|].
  destruct (control_task_status_monotone completed) as (_ & Habs).
  exact (Habs H).
Defined.

Lemma control_task_evaluation_error_witness :
  arbitrage_status (self blind) = NOT_STARTED
  /\ evaluate_profitability blind = (Raise (CollaboratorError "QuoteUnavailable"), blind)
  /\ outcome control_task blind = Ok tt
  /\ arbitrage_status (self (state_after control_task blind)) = NOT_STARTED
  /\ orders_sent (state_after control_task blind) = []
  /\ _cumulative_failures (self (state_after control_task blind)) = 0%Z.
Proof.
  assert (H : arbitrage_status (self blind) = NOT_STARTED) by reflexivity.
  assert (He : evaluate_profitability blind
               = (Raise (CollaboratorError "QuoteUnavailable"), blind))
    by reflexivity.
  destruct (control_task_evaluation_error blind blind _ H He)
    as (Ho & Hs & Hord & Hf & _).
  repeat split; assumption.
Defined.

Lemma get_tx_cost_pct_spec_witness :
  split_hb_trading_pair (trading_pair (buying_market (self idle))) = Ok ("ETH", "USDT")
  /\ order_amount (self idle) <> 0%Qc
  /\ outcome get_tx_cost_pct idle
     = Ok ((decimal 25 10000 * decimal 10 1 + decimal 25 10000 * decimal 10 1)
           / decimal 10 1)%dec
  /\ _last_tx_cost (self (state_after get_tx_cost_pct idle))
     = Some (decimal 25 10000 * decimal 10 1 + decimal 25 10000 * decimal 10 1)%dec.
Proof.
  assert (Hsp : split_hb_trading_pair (trading_pair (buying_market (self idle)))
                = Ok ("ETH", "USDT")) by reflexivity.
  assert (Hamt : order_amount (self idle) <> 0%Qc)
    by (apply Decimal_neq; vm_compute; reflexivity).
  destruct (get_tx_cost_pct_spec idle idle idle "ETH" "USDT"
              (decimal 25 10000 * decimal 10 1)%dec
              (decimal 25 10000 * decimal 10 1)%dec Hsp)
    as ((Hout & Hlast) & _); [reflexivity | reflexivity | exact Hamt |].
  repeat split; assumption.
Defined.

Lemma process_order_failed_event_any_status_witness :
  order_id (_buy_order (self completed)) = Some "order-0"
  /\ arbitrage_status
       (self (state_after (process_order_failed_event "order-0") completed_again))
     = COMPLETED
  /\ orders_sent (state_after (process_order_failed_event "order-0") completed_again)
     = (orders_sent completed ++ [buy_request (self completed)])%list
  /\ _cumulative_failures
       (self (state_after (process_order_failed_event "order-0") completed_again))
     = 1%Z.
Proof.
  assert (H : order_id (_buy_order (self completed)) = Some "order-0")
    by (vm_compute; reflexivity).
  destruct (process_order_failed_event_any_status completed "order-0" COMPLETED)
    as (Hst & _ & Hm & _).
  destruct (Hm H) as (Ho & _ & _ & Hf).
  split; [exact H|]. split; [exact Hst|]. split; [exact Ho|].
  unfold completed_again. rewrite Hf. vm_compute. reflexivity.
Defined.

(** A leg on the gateway venue costs the gas fee, 0.02 ETH, divided by the
    oracle's rate for ETH-ETH; on the order-book venue it costs the taker
    fee in ETH, 0.025. *)
Example leg_costs :
  is_amm "uniswap" = true
  /\ is_amm "binance" = false
  /\ outcome (get_tx_cost_in_asset "uniswap" "ETH-USDT" true (decimal 10 1) "ETH") idle
     = Ok (decimal 1 50 / decimal 1 1)%dec
  /\ outcome (get_tx_cost_in_asset "binance" "ETH-USDT" true (decimal 10 1) "ETH") idle
     = Ok leg_cost
  /\ outcome (get_tx_cost_in_asset "uniswap" "ETH-USDT" true (decimal 10 1) "USDT") idle
     = Raise (CollaboratorError "RateUnavailable").
Proof. repeat split. Qed.

(** The recorded transaction cost is not the legs' cost in quote-asset
    terms: in this market the recorded cost is 0.05 (ETH) while the two
    legs cost 2.5 and 2.525 in USDT. *)
Lemma last_tx_cost_not_in_quote_terms :
  ~ (forall (C : Collaborators) (s s1 s2 : @System C) (base quote : string)
       (buy_cost sell_cost : Decimal),
       split_hb_trading_pair (trading_pair (buying_market (self s)))
       = Ok (base, quote) ->
       get_tx_cost_in_asset (exchange (buying_market (self s)))
         (trading_pair (buying_market (self s))) true (order_amount (self s))
         quote s = (Ok buy_cost, s1) ->
       get_tx_cost_in_asset (exchange (selling_market (self s)))
         (trading_pair (selling_market (self s))) false (order_amount (self s))
         quote s1 = (Ok sell_cost, s2) ->
       _last_tx_cost (self (state_after get_tx_cost_pct s))
       = Some (buy_cost + sell_cost)%dec).
Proof.
  intros H.
  specialize (H market idle idle idle "ETH" "USDT"
                (decimal 25 10000 * decimal 10 1 * decimal 100 1)%dec
                (decimal 25 10000 * decimal 10 1 * decimal 101 1)%dec
                eq_refl eq_refl eq_refl).
  apply (f_equal (option_map render)) in H. vm_compute in H. discriminate H.
Qed.

(** C8. The report of the active run of this market: the intended text is
    there only spelled one character per line, so that no venue name, no
    label and no status name occurs in the returned text. *)
Example to_format_status_active :
  exists out,
    outcome to_format_status active = Ok out
    /\ substring 0 10 out
       = nl ++ nl ++ "B" ++ nl ++ "u" ++ nl ++ "y" ++ nl ++ ":" ++ nl
    /\ index 0 "binance" out = None
    /\ index 0 "Exchange" out = None
    /\ index 0 "ArbitrageExecutorStatus" out = None
    /\ index 0 "binance" (every_other out) = Some 20%nat
    /\ every_other out
       = status_text (self active) (decimal 100 1) (decimal 101 1)
           (decimal 1 100) (decimal 5 1000).
Proof. eexists. vm_compute. repeat split. Qed.

Lemma active_reachable : reachable config active.
Proof. exact (reach_perform config _ Step (reach_launch config open_market)). Qed.

Lemma process_order_created_event_attaches_witness :
  order_id (_buy_order (self active_filled)) = Some "order-0"
  /\ _buy_order (self (state_after (process_order_created_event "order-0") active_filled))
     = {| order_id := Some "order-0";
          order := get_in_flight_order
                     (exchange (buying_market (self active_filled))) "order-0"
                     (world active_filled) |}.
Proof.
  assert (H : order_id (_buy_order (self active_filled)) = Some "order-0")
    by (vm_compute; reflexivity).
  split; [exact H|].
  destruct (process_order_created_event_attaches active_filled "order-0") as (Hb & _).
  destruct (Hb H) as (Hbuy & _). exact Hbuy.
Defined.

Lemma unmatched_notification_ignored_witness :
  order_id (_buy_order (self active)) <> Some "order-9"
  /\ order_id (_sell_order (self active)) <> Some "order-9"
  /\ process_order_failed_event "order-9" active = (Ok tt, active).
Proof.
  assert (Hb : order_id (_buy_order (self active)) <> Some "order-9")
    by (vm_compute; discriminate).
  assert (Hs : order_id (_sell_order (self active)) <> Some "order-9")
    by (vm_compute; discriminate).
  destruct (unmatched_notification_ignored active "order-9") as (Hu & _).
  destruct (Hu Hb Hs) as (_ & Hf).
  split; [exact Hb|]. split; [exact Hs|exact Hf].
Defined.

Lemma control_task_unacknowledged_witness :
  arbitrage_status (self active) = ACTIVE_ARBITRAGE
  /\ (_cumulative_failures (self active) <= max_retries (self active))%Z
  /\ order (_buy_order (self active)) = None
  /\ control_task active = (Raise AttributeError, active).
Proof.
  assert (Hst : arbitrage_status (self active) = ACTIVE_ARBITRAGE)
    by (vm_compute; reflexivity).
  assert (Hle : (_cumulative_failures (self active) <= max_retries (self active))%Z)
    by (apply Z.leb_le; vm_compute; reflexivity).
  assert (Hno : order (_buy_order (self active)) = None)
    by (vm_compute; reflexivity).
  destruct (control_task_unacknowledged active Hst Hle) as (Hraise & _).
  split; [exact Hst|]. split; [exact Hle|]. split; [exact Hno|].
  exact (Hraise Hno).
Defined.

Lemma control_task_started_frame_witness :
  arbitrage_status (self active) <> NOT_STARTED
  /\ orders_sent (state_after control_task active) = orders_sent active
  /\ world (state_after control_task active) = world active.
Proof.
  assert (Hst : arbitrage_status (self active) <> NOT_STARTED)
    by (vm_compute; discriminate).
  destruct (control_task_started_frame active Hst) as (Hw & Ho & _).
  repeat split; assumption.
Defined.

Lemma get_trade_pnl_pct_records_witness :
  get_buy_and_sell_prices idle = (Ok (decimal 100 1, decimal 101 1), idle)
  /\ _last_buy_price (self (state_after get_trade_pnl_pct idle)) = Some (decimal 100 1)
  /\ outcome get_trade_pnl_pct idle
     = Ok ((decimal 101 1 - decimal 100 1) / decimal 100 1)%dec.
Proof.
  assert (H : get_buy_and_sell_prices idle
              = (Ok (decimal 100 1, decimal 101 1), idle)) by reflexivity.
  destruct (get_trade_pnl_pct_records idle idle _ _ H) as (_ & Hb & _ & Hok & _).
  split; [exact H|]. split; [exact Hb|].
  apply Hok. apply Decimal_neq. reflexivity.
Defined.

Lemma get_tx_cost_pct_errors_witness :
  split_hb_trading_pair (trading_pair (buying_market (self malformed)))
  = Raise ValueError
  /\ get_tx_cost_pct malformed = (Raise ValueError, malformed).
Proof.
  assert (H : split_hb_trading_pair (trading_pair (buying_market (self malformed)))
              = Raise ValueError) by reflexivity.
  split; [exact H|].
  destruct (get_tx_cost_pct_errors malformed) as (Hsp & _).
  exact (Hsp ValueError H).
Defined.

Lemma get_tx_cost_in_asset_errors_witness :
  get_quote_price "binance" "ETH-USDT" true (decimal 10 1) (world blind)
  = (Raise (CollaboratorError "QuoteUnavailable"), closed_market)
  /\ get_tx_cost_in_asset "binance" "ETH-USDT" true (decimal 10 1) "ETH" blind
     = (Raise (CollaboratorError "QuoteUnavailable"), with_world closed_market blind).
Proof.
  assert (H : get_quote_price "binance" "ETH-USDT" true (decimal 10 1) (world blind)
              = (Raise (CollaboratorError "QuoteUnavailable"), closed_market))
    by reflexivity.
  split; [exact H|].
  destruct (get_tx_cost_in_asset_errors blind "binance" "ETH-USDT" true
              (decimal 10 1) "ETH") as (Hq & _).
  exact (Hq _ _ H).
Defined.

Lemma to_format_status_errors_witness :
  _last_sell_price (self idle) = None
  /\ outcome to_format_status idle = Raise TypeError.
Proof.
  assert (H : _last_sell_price (self idle) = None) by reflexivity.
  split; [exact H|].
  destruct (to_format_status_errors idle) as (Hnone & _).
  exact (Hnone (or_introl H)).
Defined.

Lemma net_pnl_errors_witness :
  arbitrage_status (self completed_then_failed) = COMPLETED
  /\ order (_buy_order (self completed_then_failed)) = None
  /\ outcome net_pnl completed_then_failed = Raise AttributeError.
Proof.
  assert (Hst : arbitrage_status (self completed_then_failed) = COMPLETED)
    by (vm_compute; reflexivity).
  assert (Hno : order (_buy_order (self completed_then_failed)) = None)
    by (vm_compute; reflexivity).
  destruct (net_pnl_errors completed_then_failed Hst) as (Herr & _).
  destruct (Herr (or_introl Hno)) as (Hp & _).
  repeat split; assumption.
Defined.

Lemma net_pnl_after_completion_witness :
  arbitrage_status (self acknowledged) = ACTIVE_ARBITRAGE
  /\ arbitrage_status (self (state_after control_task acknowledged)) = COMPLETED
  /\ exists bo so,
       order (_buy_order (self acknowledged)) = Some bo
       /\ order (_sell_order (self acknowledged)) = Some so.
Proof.
  assert (Hst : arbitrage_status (self acknowledged) = ACTIVE_ARBITRAGE)
    by (vm_compute; reflexivity).
  assert (Hc : arbitrage_status (self (state_after control_task acknowledged))
               = COMPLETED) by (vm_compute; reflexivity).
  destruct (net_pnl_after_completion acknowledged Hst Hc)
    as (bo & so & Hb & Hs & _).
  split; [exact Hst|]. split; [exact Hc|]. exists bo, so. split; assumption.
Defined.

Lemma failure_after_completion_breaks_pnl_witness :
  arbitrage_status (self completed) = COMPLETED
  /\ order_id (_buy_order (self completed)) = Some "order-0"
  /\ outcome net_pnl (state_after (process_order_failed_event "order-0") completed)
     = Raise AttributeError.
Proof.
  assert (Hst : arbitrage_status (self completed) = COMPLETED)
    by (vm_compute; reflexivity).
  assert (Hb : order_id (_buy_order (self completed)) = Some "order-0")
    by (vm_compute; reflexivity).
  destruct (failure_after_completion_breaks_pnl completed "order-0" Hst (or_introl Hb))
    as (_ & Hp & _).
  repeat split; assumption.
Defined.

Lemma repeated_buy_failures_witness :
  order_id (_buy_order (self active)) <> None
  /\ _cumulative_failures (self (repeat_buy_failure 3 active)) = 3%Z.
Proof.
  assert (H : order_id (_buy_order (self active)) <> None)
    by (vm_compute; discriminate).
  split; [exact H|].
  destruct (repeated_buy_failures 3 active H) as (Hf & _).
  rewrite Hf. vm_compute. reflexivity.
Defined.

Lemma retry_budget_witness :
  arbitrage_status (self active) = ACTIVE_ARBITRAGE
  /\ _cumulative_failures (self active) = 0%Z
  /\ (0 <= max_retries (self active))%Z
  /\ order_id (_buy_order (self active)) <> None
  /\ arbitrage_status
       (self (state_after control_task
                (repeat_buy_failure (S (Z.to_nat (max_retries (self active)))) active)))
     = FAILED.
Proof.
  assert (Hst : arbitrage_status (self active) = ACTIVE_ARBITRAGE)
    by (vm_compute; reflexivity).
  assert (Hz : _cumulative_failures (self active) = 0%Z)
    by (vm_compute; reflexivity).
  assert (Hmr : (0 <= max_retries (self active))%Z)
    by (apply Z.leb_le; vm_compute; reflexivity).
  assert (Hid : order_id (_buy_order (self active)) <> None)
    by (vm_compute; discriminate).
  destruct (retry_budget active Hst Hz Hmr Hid) as (_ & Hfail & _).
  repeat split; assumption.
Defined.

Lemma duplicate_failure_ignored_witness :
  order_id (_buy_order (self active)) = Some "order-0"
  /\ fst (submit_order (buy_request (self active)) (world active)) <> "order-0"
  /\ order_id (_sell_order (self active)) <> Some "order-0"
  /\ process_order_failed_event "order-0"
       (state_after (process_order_failed_event "order-0") active)
     = (Ok tt, state_after (process_order_failed_event "order-0") active).
Proof.
  assert (Hb : order_id (_buy_order (self active)) = Some "order-0")
    by (vm_compute; reflexivity).
  assert (Hnew : fst (submit_order (buy_request (self active)) (world active))
                 <> "order-0") by (vm_compute; discriminate).
  assert (Hs : order_id (_sell_order (self active)) <> Some "order-0")
    by (vm_compute; discriminate).
  destruct (duplicate_failure_ignored active "order-0") as (Hdup & _).
  split; [exact Hb|]. split; [exact Hnew|]. split; [exact Hs|].
  exact (Hdup Hb Hnew Hs).
Defined.

Lemma status_changes_only_in_step_witness :
  OrderFailed "order-0" <> Step
  /\ arbitrage_status (self (state_after (perform (OrderFailed "order-0")) active))
     = arbitrage_status (self active).
Proof.
  assert (H : OrderFailed "order-0" <> Step) by discriminate.
  split; [exact H|].
  destruct (status_changes_only_in_step (OrderFailed "order-0") active H) as (Hst & _).
  exact Hst.
Defined.

Lemma reachable_config_witness :
  reachable config active
  /\ order_amount (self active) = cfg_order_amount config
  /\ max_retries (self active) = cfg_max_retries config.
Proof.
  split; [exact active_reachable|].
  destruct (reachable_config config active active_reachable) as (_ & _ & _ & Ha & Hm).
  split; assumption.
Defined.

Lemma reachable_terminated_witness :
  reachable config active
  /\ (terminated (self active) = true
      <-> arbitrage_status (self active) = COMPLETED
          \/ arbitrage_status (self active) = FAILED).
Proof.
  split; [exact active_reachable|].
  destruct (reachable_terminated config active active_reachable) as (H & _).
  exact H.
Defined.

Lemma reachable_orders_witness :
  reachable config active
  /\ arbitrage_status (self active) <> NOT_STARTED
  /\ Z.of_nat (length (orders_sent active)) = (2 + _cumulative_failures (self active))%Z.
Proof.
  assert (Hst : arbitrage_status (self active) <> NOT_STARTED)
    by (vm_compute; discriminate).
  split; [exact active_reachable|]. split; [exact Hst|].
  destruct (reachable_orders config active active_reachable) as (_ & Hs).
  destruct (Hs Hst) as (Hn & _). exact Hn.
Defined.

Lemma reachable_report_witness :
  reachable config active
  /\ arbitrage_status (self active) = ACTIVE_ARBITRAGE
  /\ exists out, outcome to_format_status active = Ok out.
Proof.
  assert (Hst : arbitrage_status (self active) = ACTIVE_ARBITRAGE)
    by (vm_compute; reflexivity).
  split; [exact active_reachable|]. split; [exact Hst|].
  exact (reachable_report config active active_reachable (or_introl Hst)).
Defined.

Lemma failed_reachable : reachable config failed.
Proof.
  unfold failed. do 4 apply reach_perform. exact active_reachable.
Qed.

Lemma reachable_failed_witness :
  reachable config failed
  /\ arbitrage_status (self failed) = FAILED
  /\ (_cumulative_failures (self failed) > max_retries (self failed))%Z.
Proof.
  assert (Hst : arbitrage_status (self failed) = FAILED)
    by (vm_compute; reflexivity).
  split; [exact failed_reachable|]. split; [exact Hst|].
  destruct (reachable_failed config failed failed_reachable Hst) as (H & _).
  exact H.
Defined.



End ScenarioFacts.

(** * The rounding of the evaluation *)

Module RoundingFacts.

Import Rounding.

(** With quotes 300 and 302 the spread 2/300 is computed as
    0.006666666666666666666666666667, rounded up: a minimum of
    0.0066666666666666666666666666668, above the exact quotient, is
    exceeded and the run starts. *)
Example control_task_rounds_up :
  let s' := state_after control_task (run above_two_300ths (decimal 302 1)) in
  (2 # 300 < above_two_300ths)%Q
  /\ match outcome get_trade_pnl_pct (run above_two_300ths (decimal 302 1)) with
     | Ok v => Decimal_eqb v (decimal 6666666666666666666666666667 (10 ^ 30))
     | Raise _ => false
     end = true
  /\ arbitrage_status (self s') = ACTIVE_ARBITRAGE
  /\ map req_side (orders_sent s') = [BUY; SELL].
Proof. vm_compute. repeat apply conj; reflexivity. Qed.

(** With quotes 300 and 301 the spread 1/300 is computed as
    0.003333333333333333333333333333, rounded down: a minimum of
    0.0033333333333333333333333333331, below the exact quotient, is not
    exceeded and the run does not start. *)
Example control_task_rounds_down :
  let s' := state_after control_task (run below_one_300th (decimal 301 1)) in
  (below_one_300th < 1 # 300)%Q
  /\ match outcome get_trade_pnl_pct (run below_one_300th (decimal 301 1)) with
     | Ok v => Decimal_eqb v (decimal 3333333333333333333333333333 (10 ^ 30))
     | Raise _ => false
     end = true
  /\ arbitrage_status (self s') = NOT_STARTED
  /\ orders_sent s' = [].
Proof. vm_compute. repeat apply conj; reflexivity. Qed.

End RoundingFacts.
